(** * etl_project: casting, row validation and versioned loading

    A shallow embedding of [etl/validate.py] and [etl/load.py], followed by the
    properties of the loader and of the validator.

    Python dictionaries keep insertion order and the loader compares key
    order, so a dictionary is an association list; the database catalog, which
    is only ever looked up by table name, is a [gmap]. *)

From Stdlib Require Import ZArith NArith QArith List String Ascii Bool Lia.
From stdpp Require Import gmap strings list pretty.

Local Open Scope string_scope.

(** ** Python dictionaries (insertion ordered) *)

Section dict.
Context {V : Type}.

(** [d.get(k)] *)
Fixpoint dict_get (d : list (string * V)) (k : string) : option V :=
  match d with
  | [] => None
  | (k', v) :: d' => if String.eqb k' k then Some v else dict_get d' k
  end.

(** [d[k] = v]: an existing key keeps its position, a new key goes last. *)
Fixpoint dict_set (d : list (string * V)) (k : string) (v : V) : list (string * V) :=
  match d with
  | [] => [(k, v)]
  | (k', v') :: d' =>
      if String.eqb k' k then (k', v) :: d' else (k', v') :: dict_set d' k v
  end.

(** [list(d.keys())] *)
Definition dict_keys (d : list (string * V)) : list string := map fst d.

(** [k in d] *)
Definition dict_mem (d : list (string * V)) (k : string) : bool :=
  match dict_get d k with Some _ => true | None => false end.
End dict.

(** [a == b] on lists of column names. *)
Fixpoint names_eqb (a b : list string) : bool :=
  match a, b with
  | [], [] => true
  | x :: a', y :: b' => String.eqb x y && names_eqb a' b'
  | _, _ => false
  end.

(** [col in df.columns] for a list of labels. *)
Definition name_in (k : string) (l : list string) : bool :=
  existsb (String.eqb k) l.

(** ** The type classes of [sqlalchemy.types]

    The loader never instantiates a column type: it passes the classes
    themselves around and asks [issubclass] about them.  [base] gives, for each
    class, the class it derives from on the [TypeEngine] side, as
    SQLAlchemy declares them ([class Float(Numeric)], [class INTEGER(Integer)],
    [class Integer(HasExpressionLookup, TypeEngine)], ...). *)

Module sql_types.

Inductive type_class : Set :=
  | TypeEngine
  | String | Text | Unicode | UnicodeText | Enum
  | Integer | SmallInteger | BigInteger
  | Numeric | Float | Double
  | DateTime | Date | Time
  | Boolean | LargeBinary | Interval
  | VARCHAR | CHAR | NVARCHAR | NCHAR | TEXT | CLOB
  | INTEGER | SMALLINT | BIGINT
  | NUMERIC | DECIMAL | FLOAT | REAL | DOUBLE | DOUBLE_PRECISION
  | TIMESTAMP | DATETIME | DATE | TIME
  | BOOLEAN | BLOB.

Scheme Equality for type_class.

Definition base (c : type_class) : option type_class :=
  match c with
  | TypeEngine => None
  | String | Integer | Numeric | DateTime | Date | Time
  | Boolean | LargeBinary | Interval => Some TypeEngine
  | Text | Unicode | Enum | VARCHAR | CHAR => Some String
  | UnicodeText | TEXT | CLOB => Some Text
  | NVARCHAR | NCHAR => Some Unicode
  | SmallInteger | BigInteger | INTEGER => Some Integer
  | SMALLINT => Some SmallInteger
  | BIGINT => Some BigInteger
  | Float | NUMERIC | DECIMAL => Some Numeric
  | Double | FLOAT | REAL => Some Float
  | DOUBLE | DOUBLE_PRECISION => Some Double
  | TIMESTAMP | DATETIME => Some DateTime
  | DATE => Some Date
  | TIME => Some Time
  | BOOLEAN => Some Boolean
  | BLOB => Some LargeBinary
  end.

(** The class followed by its ancestors; no chain is longer than five. *)
Fixpoint ancestors (depth : nat) (c : type_class) : list type_class :=
  c :: match depth with
       | O => []
       | S depth' =>
           match base c with
           | Some b => ancestors depth' b
           | None => []
           end
       end.

Definition mro (c : type_class) : list type_class := ancestors 5 c.

(** [issubclass(c, d)] *)
Definition issubclass (c d : type_class) : bool :=
  existsb (type_class_beq d) (mro c).

End sql_types.

(** ** Cells, frames and exceptions

    A cell is a Python scalar.  [VNaN] is the float [nan], [VNaT] pandas'
    missing timestamp; the payload of a float is the number it denotes. *)

Inductive value : Type :=
  | VNone | VNaN | VNaT
  | VBool (b : bool) | VInt (z : Z) | VFloat (q : Q)
  | VStr (s : string) | VTimestamp (ns : Z).

(** [pd.isnull(v)] on a scalar. *)
Definition isnull (v : value) : bool :=
  match v with
  | VNone | VNaN | VNaT => true
  | _ => false
  end.

(** A [pd.DataFrame]: its columns, in order, and its row labels. *)
Record DataFrame : Type := {
  columns : list (string * list value);
  index : list Z
}.

(** [list(df.columns)] *)
Definition df_columns (df : DataFrame) : list string := map fst (columns df).

(** [len(df)] *)
Definition df_len (df : DataFrame) : nat := length (index df).

(** [df.empty]: some axis has length zero. *)
Definition df_empty (df : DataFrame) : bool :=
  (df_len df =? 0)%nat || (length (columns df) =? 0)%nat.

(** The row at position [i], as the cells of the columns in order. *)
Definition row_at (df : DataFrame) (i : nat) : list (string * value) :=
  map (fun c => (fst c, nth i (snd c) VNone)) (columns df).

(** One entry of pydantic's [e.errors()]. *)
Record error_detail : Type := {
  loc : string;
  msg : string;
  type : string
}.

(** The exceptions the two modules raise or catch. [Exception cls m] is any
    other subclass of [Exception], with [str(e) = m]. *)
Inductive exn : Type :=
  | ValidationError (errors : list error_detail)
  | SQLAlchemyError (m : string)
  | Exception (cls : string) (m : string).

(** ** load.py *)

(** The Python types a [type_map] may hold.  [infer_types] only produces
    [float] and [str]; [PyOther] stands for any type object outside the
    loader's table. *)
Inductive py_type : Set :=
  | py_float | py_str | pd_Timestamp | py_int | py_bool
  | PyOther (name : string).

Definition py_type_eqb (a b : py_type) : bool :=
  match a, b with
  | py_float, py_float | py_str, py_str | pd_Timestamp, pd_Timestamp
  | py_int, py_int | py_bool, py_bool => true
  | PyOther n, PyOther m => String.eqb n m
  | _, _ => false
  end.

Module load.

(** [Dict[str, Type[TypeEngine]]] *)
Definition schema_map : Type := list (string * sql_types.type_class).

(** [PYTHON_TO_SQLALCHEMY_TYPE_MAP.get(python_type)], where [python_type] may
    itself be [None] (a column missing from the type map). *)
Definition PYTHON_TO_SQLALCHEMY_TYPE_MAP (python_type : option py_type)
  : option sql_types.type_class :=
  match python_type with
  | Some py_float => Some sql_types.Float
  | Some py_str => Some sql_types.String
  | Some pd_Timestamp => Some sql_types.DateTime
  | Some py_int => Some sql_types.Integer
  | Some py_bool => Some sql_types.Boolean
  | Some (PyOther _) | None => None
  end.

Fixpoint get_sqlalchemy_schema_map_from
    (sqlalchemy_schema : schema_map)
    (type_map : list (string * py_type)) (df_columns : list string) : schema_map :=
  match df_columns with
  | [] => sqlalchemy_schema
  | col :: rest =>
      let python_type := dict_get type_map col in
      let sqlalchemy_schema' :=
        match PYTHON_TO_SQLALCHEMY_TYPE_MAP python_type with
        | Some sqlalchemy_type_class => dict_set sqlalchemy_schema col sqlalchemy_type_class
        | None => dict_set sqlalchemy_schema col sql_types.String
        end in
      get_sqlalchemy_schema_map_from sqlalchemy_schema' type_map rest
  end.

Definition get_sqlalchemy_schema_map
    (type_map : list (string * py_type)) (df_columns : list string) : schema_map :=
  get_sqlalchemy_schema_map_from [] type_map df_columns.

(** The two classes of one column: the equality test of line 64, then the four
    category tests of lines 68-82. *)
Definition column_compatible (db_type_class current_type_class : sql_types.type_class) : bool :=
  if sql_types.type_class_beq db_type_class current_type_class then true
  else
    let is_db_str := sql_types.issubclass db_type_class sql_types.String in
    let is_current_str := sql_types.issubclass current_type_class sql_types.String in
    let is_db_numeric := sql_types.issubclass db_type_class sql_types.Numeric in
    let is_current_numeric := sql_types.issubclass current_type_class sql_types.Numeric in
    let is_db_datetime := sql_types.issubclass db_type_class sql_types.DateTime in
    let is_current_datetime := sql_types.issubclass current_type_class sql_types.DateTime in
    let is_db_boolean := sql_types.issubclass db_type_class sql_types.Boolean in
    let is_current_boolean := sql_types.issubclass current_type_class sql_types.Boolean in
    (is_db_str && is_current_str)
    || (is_db_numeric && is_current_numeric)
    || (is_db_datetime && is_current_datetime)
    || (is_db_boolean && is_current_boolean).

(** The loop of lines 56-88 over [current_schema_map.items()]; [false] is the
    early [return False]. *)
Fixpoint compare_columns (db_schema_map : schema_map) (items : schema_map) : bool :=
  match items with
  | [] => true
  | (col_name, current_type_class) :: rest =>
      match dict_get db_schema_map col_name with
      | None => false
      | Some db_type_class =>
          if column_compatible db_type_class current_type_class
          then compare_columns db_schema_map rest
          else false
      end
  end.

Definition are_schemas_compatible (db_schema_map current_schema_map : schema_map) : bool :=
  let db_cols := dict_keys db_schema_map in
  let current_cols := dict_keys current_schema_map in
  if negb (names_eqb db_cols current_cols) then false
  else compare_columns db_schema_map current_schema_map.

(** *** The clock: [datetime.datetime.now().strftime("%Y%m%d%H%M%S%f")] *)

(** A naive local [datetime.datetime], as [now()] returns it. *)
Record datetime : Type := {
  year : N; month : N; day : N;
  hour : N; minute : N; second : N; microsecond : N
}.

Definition digit (d : N) : ascii := ascii_of_N (48 + d).

(** ["%0<width>d" % n] for [n] below [10 ^ width], which is what each
    directive of the format prints for the fields of a [datetime]. *)
Fixpoint zero_padded (width : nat) (n : N) : string :=
  match width with
  | O => ""
  | S w => zero_padded w (n / 10) ++ String (digit (n mod 10)) ""
  end.

Definition strftime_YmdHMSf (t : datetime) : string :=
  zero_padded 4 (year t) ++ zero_padded 2 (month t) ++ zero_padded 2 (day t)
  ++ zero_padded 2 (hour t) ++ zero_padded 2 (minute t) ++ zero_padded 2 (second t)
  ++ zero_padded 6 (microsecond t).

(** [f"{base_table_name}_{timestamp}"] *)
Definition versioned_name (base_table_name : string) (now : datetime) : string :=
  base_table_name ++ "_" ++ strftime_YmdHMSf now.

(** *** The database behind the engine *)

(** A table of the store: the columns its catalog reports and its rows. *)
Record table : Type := {
  tbl_columns : list (string * sql_types.type_class);
  tbl_rows : list (list value)
}.

Inductive if_exists_mode : Set := fail_ | append.

(** What the loader does with its engine. *)
Inductive db_call : Type :=
  | has_table_call (table_name : string)
  | get_columns_call (table_name : string)
  | to_sql_call (table_name : string) (if_exists : if_exists_mode)
  | dispose_call.

(** [create_engine(db_uri)] opens no connection; the engine stands for how the
    database it points to behaves: on which calls the driver raises, and which
    class the inspector reports for a column created with a given class. *)
Record Engine : Type := {
  raises : db_call -> option exn;
  reflect : sql_types.type_class -> sql_types.type_class
}.

(** The store, and the calls made so far (oldest first). *)
Record db_state : Type := {
  tables : gmap string table;
  calls : list db_call
}.

(** Code that talks to the store: it returns or raises, and leaves a state. *)
Definition db (A : Type) : Type := db_state -> (exn + A) * db_state.

Definition ret {A} (a : A) : db A := fun s => (inr a, s).
Definition raise {A} (e : exn) : db A := fun s => (inl e, s).
Definition bind {A B} (m : db A) (k : A -> db B) : db B :=
  fun s => match m s with
           | (inr a, s') => k a s'
           | (inl e, s') => (inl e, s')
           end.

(** [try: m  finally: f] *)
Definition try_finally {A} (m : db A) (f : db unit) : db A :=
  fun s => match m s with
           | (r, s') => match f s' with
                        | (inr _, s'') => (r, s'')
                        | (inl e, s'') => (inl e, s'')
                        end
           end.

(** [try: m  except E as e: ...; raise]: both handlers of the loader print and
    re-raise, so the exception leaves unchanged. *)
Definition try_except_reraise {A} (m : db A) : db A :=
  fun s => match m s with
           | (inr a, s') => (inr a, s')
           | (inl e, s') => (inl e, s')
           end.

Notation "x <- m ;; k" := (bind m (fun x => k))
  (at level 100, m at next level, k at level 200, right associativity).
Notation "m ;;; k" := (bind m (fun _ => k))
  (at level 100, k at level 200, right associativity).

Definition record_call (c : db_call) : db unit :=
  fun s => (inr tt, {| tables := tables s; calls := calls s ++ [c] |}).

(** A call on the engine: logged, then the driver may raise. *)
Definition call (engine : Engine) (c : db_call) : db unit :=
  record_call c ;;;
  match raises engine c with
  | Some e => raise e
  | None => ret tt
  end.

(** [inspector.has_table(table_name)] *)
Definition has_table (engine : Engine) (table_name : string) : db bool :=
  call engine (has_table_call table_name) ;;;
  fun s => (inr (bool_decide (is_Some (tables s !! table_name))), s).

(** [inspector.get_columns(table_name)] *)
Definition get_columns (engine : Engine) (table_name : string)
  : db (list (string * sql_types.type_class)) :=
  call engine (get_columns_call table_name) ;;;
  fun s => match tables s !! table_name with
           | Some t => (inr (tbl_columns t), s)
           | None => (inl (SQLAlchemyError "NoSuchTableError"), s)
           end.

(** [engine.dispose()] *)
Definition dispose (engine : Engine) : db unit :=
  record_call dispose_call.

(** The rows [to_sql(..., index=False)] writes. *)
Definition df_rows (df : DataFrame) : list (list value) :=
  map (fun i => map snd (row_at df i)) (seq 0 (df_len df)).

(** [df.to_sql(name, engine, if_exists=..., index=False, dtype=dtype)] *)
Definition to_sql (df : DataFrame) (name : string) (engine : Engine)
    (if_exists : if_exists_mode) (dtype : schema_map) : db unit :=
  call engine (to_sql_call name if_exists) ;;;
  fun s =>
    match tables s !! name, if_exists with
    | Some _, fail_ => (inl (Exception "ValueError" ("Table '" ++ name ++ "' already exists.")), s)
    | Some t, append =>
        let t' := {| tbl_columns := tbl_columns t; tbl_rows := tbl_rows t ++ df_rows df |} in
        (inr tt, {| tables := <[name := t']> (tables s); calls := calls s |})
    | None, _ =>
        let created :=
          map (fun col => (col, reflect engine
                                  (default sql_types.Text (dict_get dtype col))))
              (df_columns df) in
        let t' := {| tbl_columns := created; tbl_rows := df_rows df |} in
        (inr tt, {| tables := <[name := t']> (tables s); calls := calls s |})
    end.

Fixpoint db_schema_map_of (db_schema_map : schema_map)
    (columns : list (string * sql_types.type_class)) : schema_map :=
  match columns with
  | [] => db_schema_map
  | (name, ty) :: rest => db_schema_map_of (dict_set db_schema_map name ty) rest
  end.

Definition get_db_table_schema_map (engine : Engine) (table_name : string) : db schema_map :=
  present <- has_table engine table_name ;;
  if present : bool then
    columns <- get_columns engine table_name ;;
    ret (db_schema_map_of [] columns)
  else ret [].

(** How a call of the loader ends when it raises nothing: at the early
    [return] of line 100, or at line 142 with its [final_table_name]. *)
Inductive load_result : Type :=
  | Skipped
  | Processed (final_table_name : string).

Definition is_empty_map (m : schema_map) : bool :=
  match m with [] => true | _ => false end.

Definition load_to_postgres (engine : Engine) (now : datetime)
    (df : DataFrame) (type_map : list (string * py_type)) (base_table_name : string)
  : db load_result :=
  if df_empty df || (length (df_columns df) =? 0)%nat then
    dispose engine ;;; ret Skipped
  else
    let current_sqlalchemy_schema_map := get_sqlalchemy_schema_map type_map (df_columns df) in
    try_finally
      (try_except_reraise
         (table_exists <- has_table engine base_table_name ;;
          if table_exists : bool then
            db_schema_map <- get_db_table_schema_map engine base_table_name ;;
            if is_empty_map db_schema_map then
              let final_table_name := versioned_name base_table_name now in
              to_sql df final_table_name engine fail_ current_sqlalchemy_schema_map ;;;
              ret (Processed final_table_name)
            else if are_schemas_compatible db_schema_map current_sqlalchemy_schema_map then
              to_sql df base_table_name engine append current_sqlalchemy_schema_map ;;;
              ret (Processed base_table_name)
            else
              let final_table_name := versioned_name base_table_name now in
              to_sql df final_table_name engine fail_ current_sqlalchemy_schema_map ;;;
              ret (Processed final_table_name)
          else
            to_sql df base_table_name engine fail_ current_sqlalchemy_schema_map ;;;
            ret (Processed base_table_name)))
      (dispose engine).

End load.

(** ** validate.py *)

Module validate.

(** The dtype of [df.values], from which [iterrows] cuts its rows: the dtype
    the columns share, [float64] for integer and float columns together, and
    [object] for any other mix. *)
Inductive dtype : Set := float64 | int64 | bool_ | datetime64 | object_.

(** What pandas does to one cell of text is pandas' business: its parsers and
    its renderings of floats and timestamps are taken as given.  So is the
    dtype of a frame's values, which the cells alone do not settle (a column
    of numbers may be an object column). *)
Record Pandas : Type := {
  parse_float : string -> option Q;
  parse_datetime : string -> option Z;
  datetime_of_float : Q -> option Z;
  str_of_float : Q -> string;
  str_of_timestamp : Z -> string;
  values_dtype : DataFrame -> dtype
}.

(** What pydantic answers for one value against one annotated type: accepted,
    refused with a message, or an exception from inside a validator. *)
Inductive field_result : Type :=
  | field_ok
  | field_invalid (msg type : string)
  | field_raises (e : exn).

(** [create_model] answers with the exception it raises for field definitions
    it refuses (a type it cannot build a validator for, a field name it
    reserves), if any; a model it did build answers field by field. *)
Record Pydantic : Type := {
  create_model : list (string * (py_type * value)) -> option exn;
  validate_field : py_type -> value -> field_result
}.

(** One entry of [errors]. *)
Record cast_error : Type := {
  column : string;
  error_type : string;
  message : string
}.

(** One entry of [validation_errors]: [{"index": idx, "errors": [...]}]. *)
Record row_error : Type := {
  ve_index : Z;
  ve_errors : list error_detail
}.

(** What [df[col]] is: a Series when one column carries the label, a frame of
    the columns carrying it when several do. *)
Inductive selection : Type :=
  | Series (s : list value)
  | Frame (cs : list (list value)).

(** A column-wise operation on either. *)
Definition over (f : list value -> list value) (arg : selection) : selection :=
  match arg with
  | Series s => Series (f s)
  | Frame cs => Frame (map f cs)
  end.

(** The columns carrying a label, in the order of the frame. *)
Definition columns_named (df : DataFrame) (col : string) : list (list value) :=
  map snd (List.filter (fun c => String.eqb (fst c) col) (columns df)).

(** [df[col]] for a label the frame has. *)
Definition getitem (df : DataFrame) (col : string) : selection :=
  match columns_named df col with
  | [s] => Series s
  | cs => Frame cs
  end.

(** The columns of a frame stored, in order, into the columns carrying the
    label. *)
Fixpoint assign (cols : list (string * list value)) (col : string) (cs : list (list value))
  : list (string * list value) :=
  match cols with
  | [] => []
  | c :: rest =>
      if String.eqb (fst c) col then
        match cs with
        | s :: cs' => (fst c, s) :: assign rest col cs'
        | [] => c :: rest
        end
      else c :: assign rest col cs
  end.

(** [df[col] = arg] for a label the frame has.  A Series is broadcast to
    every column carrying the label; a frame is stored column by column
    (pandas refuses one with another number of columns: every assignment of
    the source stores what it selected under the same label from a frame with
    the same labels). *)
Definition setitem (df : DataFrame) (col : string) (arg : selection) : DataFrame :=
  match arg with
  | Series s =>
      {| columns := map (fun c => if String.eqb (fst c) col then (fst c, s) else c)
                        (columns df);
         index := index df |}
  | Frame cs => {| columns := assign (columns df) col cs; index := index df |}
  end.

Section casting.
Context (pd : Pandas).

(** A cell under [pd.to_numeric(..., errors='coerce')]. *)
Definition to_numeric_cell (v : value) : value :=
  match v with
  | VStr s => match parse_float pd s with Some q => VFloat q | None => VNaN end
  | VInt z => VInt z
  | VFloat q => VFloat q
  | VBool b => VBool b
  | VNone | VNaN | VNaT | VTimestamp _ => VNaN
  end.

(** A column holding a [nan] is a float column: its integers are floats. *)
Definition widen (v : value) : value :=
  match v with
  | VInt z => VFloat (inject_Z z)
  | VBool b => VFloat (inject_Z (if b then 1 else 0))
  | _ => v
  end.

Definition is_nan (v : value) : bool :=
  match v with VNaN => true | _ => false end.

(** [pd.to_numeric(arg, errors='coerce')]: a Series cell by cell; a frame is
    not an argument it takes. *)
Definition to_numeric_coerce (arg : selection) : exn + selection :=
  match arg with
  | Series s =>
      let cells := map to_numeric_cell s in
      inr (Series (if existsb is_nan cells then map widen cells else cells))
  | Frame _ =>
      inl (Exception "TypeError" "arg must be a list, tuple, 1-d array, or Series")
  end.

(** [str(v)] *)
Definition str (v : value) : string :=
  match v with
  | VNone => "None"
  | VNaN => "nan"
  | VNaT => "NaT"
  | VBool true => "True"
  | VBool false => "False"
  | VInt z => pretty z
  | VFloat q => str_of_float pd q
  | VStr s => s
  | VTimestamp ns => str_of_timestamp pd ns
  end.

(** [arg.astype(str)], on a Series or on every column of a frame. *)
Definition astype_str (arg : selection) : exn + selection :=
  inr (over (map (fun v => VStr (str v))) arg).

(** A cell under [pd.to_datetime(..., errors='coerce')]: a number counts
    nanoseconds from the epoch, and whatever is not a date, a boolean
    included, becomes [NaT]. *)
Definition to_datetime_cell (v : value) : value :=
  match v with
  | VStr s => match parse_datetime pd s with Some ns => VTimestamp ns | None => VNaT end
  | VTimestamp ns => VTimestamp ns
  | VInt z => VTimestamp z
  | VFloat q => match datetime_of_float pd q with Some ns => VTimestamp ns | None => VNaT end
  | VBool _ | VNone | VNaN | VNaT => VNaT
  end.

(** [pd.to_datetime(arg, errors='coerce')]: a Series cell by cell; a frame is
    read as year, month and day columns, which columns under one label are
    not. *)
Definition to_datetime_coerce (arg : selection) : exn + selection :=
  match arg with
  | Series s => inr (Series (map to_datetime_cell s))
  | Frame _ => inl (Exception "ValueError" "cannot assemble with duplicate keys")
  end.

(** The right-hand sides of lines 15-22: the conversion chosen by the
    declared type; any other type leaves the column as it is. *)
Definition convert (df : DataFrame) (col : string) (expected_dtype : py_type)
  : exn + option selection :=
  match expected_dtype with
  | py_float =>
      match to_numeric_coerce (getitem df col) with
      | inr s => inr (Some s) | inl e => inl e
      end
  | py_str =>
      match astype_str (getitem df col) with
      | inr s => inr (Some s) | inl e => inl e
      end
  | pd_Timestamp =>
      match to_datetime_coerce (getitem df col) with
      | inr s => inr (Some s) | inl e => inl e
      end
  | py_int | py_bool | PyOther _ => inr None
  end.

(** [str(e)].  The text of a [ValidationError] is never asked for: no
    conversion raises one, and the row loop catches it in its first handler. *)
Definition exn_str (e : exn) : string :=
  match e with
  | ValidationError _ => "validation error"
  | SQLAlchemyError m => m
  | Exception _ m => m
  end.

(** The loop of lines 10-25 over [type_map.items()]. *)
Fixpoint cast_loop (df : DataFrame) (items : list (string * py_type))
    (casted_df : DataFrame) (errors : list cast_error)
  : DataFrame * list cast_error :=
  match items with
  | [] => (casted_df, errors)
  | (col, expected_dtype) :: rest =>
      if negb (name_in col (df_columns df)) then
        cast_loop df rest casted_df
          (errors ++ [{| column := col; error_type := "MissingColumn";
                         message := "Column '" ++ col ++ "' not found in DataFrame." |}])
      else
        match convert df col expected_dtype with
        | inr (Some s) => cast_loop df rest (setitem casted_df col s) errors
        | inr None => cast_loop df rest casted_df errors
        | inl e =>
            cast_loop df rest casted_df
              (errors ++ [{| column := col; error_type := "CastingError";
                             message := exn_str e |}])
        end
  end.
End casting.

Section validation.
Context (pyd : Pydantic).

(** [(type, default)] of one field of the model. *)
Definition field_def : Type := (py_type * value)%type.

(** The comprehension of lines 30-33. *)
Fixpoint fields_of_type_map (items : list (string * py_type)) (casted_columns : list string)
    (pydantic_fields : list (string * field_def)) : list (string * field_def) :=
  match items with
  | [] => pydantic_fields
  | (k, v) :: rest =>
      if name_in k casted_columns then
        fields_of_type_map rest casted_columns
          (dict_set pydantic_fields k
             (if negb (py_type_eqb v py_float) then (v, VNone) else (v, VNaN)))
      else fields_of_type_map rest casted_columns pydantic_fields
  end.

(** The loop of lines 36-38. *)
Fixpoint fields_of_columns (casted_columns : list string)
    (pydantic_fields : list (string * field_def)) : list (string * field_def) :=
  match casted_columns with
  | [] => pydantic_fields
  | col :: rest =>
      if negb (dict_mem pydantic_fields col)
      then fields_of_columns rest (dict_set pydantic_fields col (py_str, VNone))
      else fields_of_columns rest pydantic_fields
  end.

(** A cell as [iterrows] hands it out: rows are cut from the frame's values,
    and in a float array the integers are floats. *)
Definition iterrows_cell (values : dtype) (v : value) : value :=
  match values with
  | float64 => widen v
  | _ => v
  end.

(** The row [iterrows] yields at position [i]. *)
Definition iterrows_at (values : dtype) (casted_df : DataFrame) (i : nat)
  : list (string * value) :=
  map (fun kv => (fst kv, iterrows_cell values (snd kv))) (row_at casted_df i).

(** A cell under [row.where(pd.notnull(row), None)].  Only an object row can
    hold [None]; in a row of any other dtype pandas stores that dtype's own
    missing value instead, which is what the null cell held already. *)
Definition where_notnull (values : dtype) (v : value) : value :=
  match values with
  | object_ => if isnull v then VNone else v
  | _ => v
  end.

(** [row.where(pd.notnull(row), None).to_dict()] *)
Fixpoint row_to_dict (values : dtype) (row : list (string * value))
    (row_dict : list (string * value)) : list (string * value) :=
  match row with
  | [] => row_dict
  | (k, v) :: rest => row_to_dict values rest (dict_set row_dict k (where_notnull values v))
  end.

(** The comprehension of line 62. *)
Definition filter_row (pydantic_fields : list (string * field_def))
    (row_dict : list (string * value)) : list (string * value) :=
  List.filter (fun kv => dict_mem pydantic_fields (fst kv)) row_dict.

(** [DataModel] called on the row's keywords: every field is checked, a missing one takes its
    default; refusals are gathered into one [ValidationError], any other
    exception leaves at once. *)
Fixpoint check_fields (pydantic_fields : list (string * field_def))
    (kwargs : list (string * value)) (found : list error_detail) : exn + unit :=
  match pydantic_fields with
  | [] => match found with
          | [] => inr tt
          | _ => inl (ValidationError found)
          end
  | (name, (ty, dflt)) :: rest =>
      match validate_field pyd ty (default dflt (dict_get kwargs name)) with
      | field_ok => check_fields rest kwargs found
      | field_invalid m t =>
          check_fields rest kwargs (found ++ [{| loc := name; msg := m; type := t |}])
      | field_raises e => inl e
      end
  end.

(** The body of the [try] of lines 56-65 for one row. *)
Definition check_row (values : dtype) (pydantic_fields : list (string * field_def))
    (row : list (string * value)) : exn + unit :=
  let row_dict := row_to_dict values row [] in
  let filtered_row_dict := filter_row pydantic_fields row_dict in
  check_fields pydantic_fields filtered_row_dict [].

(** The two handlers of lines 66-69. *)
Definition handle_row (idx : Z) (r : exn + unit) (validation_errors : list row_error)
  : list row_error :=
  match r with
  | inr _ => validation_errors
  | inl (ValidationError errs) =>
      validation_errors ++ [{| ve_index := idx; ve_errors := errs |}]
  | inl e =>
      validation_errors ++
        [{| ve_index := idx;
            ve_errors := [{| loc := "unknown"; msg := exn_str e; type := "runtime_error" |}] |}]
  end.

(** The loop of lines 55-69 over [casted_df.iterrows()], from position [i]. *)
Fixpoint validate_rows (values : dtype) (casted_df : DataFrame)
    (pydantic_fields : list (string * field_def))
    (labels : list Z) (i : nat) (validation_errors : list row_error) : list row_error :=
  match labels with
  | [] => validation_errors
  | idx :: rest =>
      validate_rows values casted_df pydantic_fields rest (S i)
        (handle_row idx (check_row values pydantic_fields (iterrows_at values casted_df i))
           validation_errors)
  end.
End validation.

Definition is_nil {A} (l : list A) : bool :=
  match l with [] => true | _ => false end.

(** [pydantic_fields] as lines 30-38 build it. *)
Definition model_fields (type_map : list (string * py_type)) (casted_df : DataFrame)
  : list (string * field_def) :=
  fields_of_columns (df_columns casted_df)
    (fields_of_type_map type_map (df_columns casted_df) []).

(** [auto_cast_and_validate(df, type_map)]: what it returns, or the exception
    [create_model] raised, which nothing on lines 47-50 catches. *)
Definition auto_cast_and_validate (pd : Pandas) (pyd : Pydantic)
    (df : DataFrame) (type_map : list (string * py_type))
  : exn + DataFrame * list cast_error * list row_error :=
  let '(casted_df, errors) := cast_loop pd df type_map df [] in
  let pydantic_fields := model_fields type_map casted_df in
  if is_nil pydantic_fields then inr (casted_df, errors, [])
  else
    match create_model pyd pydantic_fields with
    | Some e => inl e
    | None =>
        let validation_errors :=
          validate_rows pyd (values_dtype pd casted_df) casted_df pydantic_fields
            (index casted_df) 0 [] in
        inr (casted_df, errors, validation_errors)
    end.

End validate.

(** ** transform.py *)

Module transform.

(** [arg.fillna(fill)], on a Series or on every column of a frame. *)
Definition fillna (fill : value) (arg : validate.selection) : validate.selection :=
  validate.over (map (fun v => if isnull v then fill else v)) arg.

(** [transform(df)].  [pd.api.types.is_numeric_dtype] looks at the dtype of
    what it is given, which the cells alone do not settle (a column of numbers
    may be an object column): the test is taken as given. *)
Definition transform (is_numeric_dtype : validate.selection -> bool) (df : DataFrame)
  : DataFrame :=
  if name_in "amount" (df_columns df) then
    if is_numeric_dtype (validate.getitem df "amount") then
      validate.setitem df "amount" (fillna (VInt 0) (validate.getitem df "amount"))
    else df
  else df.

End transform.

(** ** infer_types.py *)

Module infer_types.

Definition dummy_target_col : string := "__dummy_target__".

(** The AutoML run of lines 6-8 and 24-25: given the frame and the roles, it
    raises or leaves [automl.reader.roles], read here as column name to
    [role.name]. *)
Record AutoML : Type := {
  fit_predict : DataFrame -> list (string * string) -> exn + list (string * string)
}.

(** [df[col] = v] for a scalar: an existing column is overwritten, a new one
    is added last. *)
Definition assign_scalar (df : DataFrame) (col : string) (v : value) : DataFrame :=
  if name_in col (df_columns df)
  then validate.setitem df col (validate.Series (repeat v (df_len df)))
  else {| columns := columns df ++ [(col, repeat v (df_len df))]; index := index df |}.

(** [df.drop(columns=col, inplace=True)] *)
Definition drop_column (df : DataFrame) (col : string) : DataFrame :=
  {| columns := List.filter (fun c => negb (String.eqb (fst c) col)) (columns df);
     index := index df |}.

(** The comprehension of line 18. *)
Fixpoint feature_roles (cols : list string) (roles : list (string * string))
  : list (string * string) :=
  match cols with
  | [] => roles
  | col :: rest =>
      if negb (String.eqb col dummy_target_col)
      then feature_roles rest (dict_set roles col "feature")
      else feature_roles rest roles
  end.

(** The loop of lines 28-38 over [guessed_roles.items()]. *)
Fixpoint type_map_of_roles (guessed_roles : list (string * string))
    (type_map : list (string * py_type)) : list (string * py_type) :=
  match guessed_roles with
  | [] => type_map
  | (col, role_name) :: rest =>
      if String.eqb col dummy_target_col then type_map_of_roles rest type_map
      else if String.eqb role_name "numeric"
      then type_map_of_roles rest (dict_set type_map col py_float)
      else if String.eqb role_name "category"
      then type_map_of_roles rest (dict_set type_map col py_str)
      else if String.eqb role_name "datetime"
      then type_map_of_roles rest (dict_set type_map col py_str)
      else type_map_of_roles rest (dict_set type_map col py_str)
  end.

(** [infer_types_lama(df)]: what it returns or raises, and the frame it
    leaves behind in its caller's hands ([df] is changed in place). *)
Definition infer_types_lama (automl : AutoML) (df : DataFrame)
  : (exn + list (string * py_type)) * DataFrame :=
  let df1 := assign_scalar df dummy_target_col (VInt 0) in
  let roles := dict_set (feature_roles (df_columns df1) []) dummy_target_col "target" in
  let result :=
    match fit_predict automl df1 roles with
    | inl e => inl e
    | inr guessed_roles => inr (type_map_of_roles guessed_roles [])
    end in
  let df2 :=
    if name_in dummy_target_col (df_columns df1)
    then drop_column df1 dummy_target_col
    else df1 in
  (result, df2).

End infer_types.

(** ** dags/etl_pipeline.py *)

Module etl_pipeline.

(** [run_pipeline()] from the frame [extract] returned.  The copies of lines
    47 and 52 keep the extracted frame out of reach of the inference and the
    validation, so each step sees the frame as extracted; nothing here catches
    what a step raises. *)
Definition run_pipeline (automl : infer_types.AutoML)
    (pd : validate.Pandas) (pyd : validate.Pydantic)
    (is_numeric_dtype : validate.selection -> bool)
    (engine : load.Engine) (now : load.datetime) (df : DataFrame) : load.db unit :=
  if df_empty df then load.ret tt
  else
    match fst (infer_types.infer_types_lama automl df) with
    | inl e => load.raise e
    | inr type_map =>
        match validate.auto_cast_and_validate pd pyd df type_map with
        | inl e => load.raise e
        | inr (df_validated, cast_errors, validation_errors) =>
            let df_transformed := transform.transform is_numeric_dtype df_validated in
            load.bind (load.load_to_postgres engine now df_transformed type_map "clean_data")
                      (fun _ => load.ret tt)
        end
    end.

End etl_pipeline.

(** ** Reference behaviours of the two libraries

    Used to run the validator on concrete frames: a pandas that reads unsigned
    decimal numerals and gives a column the dtype it infers from the cells,
    and a pydantic that builds any model whose fields are not named after its
    own members, and whose validators accept the values of the annotated type
    and nothing else; a type outside its table makes the validator itself
    fail. *)

Module samples.

Fixpoint digits_value (s : string) (acc : N) : option N :=
  match s with
  | "" => Some acc
  | String c s' =>
      let n := N_of_ascii c in
      if ((48 <=? n) && (n <=? 57))%N then digits_value s' (10 * acc + (n - 48))%N
      else None
  end.

Definition parse_unsigned (s : string) : option N :=
  match s with
  | "" => None
  | _ => digits_value s 0
  end.

(** The dtype pandas infers for a column from its cells. *)
Definition cells_dtype (s : list value) : validate.dtype :=
  if forallb (fun v => match v with VFloat _ | VNaN => true | _ => false end) s
  then validate.float64
  else if forallb (fun v => match v with VInt _ => true | _ => false end) s
  then validate.int64
  else if forallb (fun v => match v with VBool _ => true | _ => false end) s
  then validate.bool_
  else if forallb (fun v => match v with VTimestamp _ | VNaT => true | _ => false end) s
  then validate.datetime64
  else validate.object_.

(** The dtype two columns share in one array. *)
Definition common_dtype (a b : validate.dtype) : validate.dtype :=
  match a, b with
  | validate.float64, (validate.float64 | validate.int64)
  | validate.int64, validate.float64 => validate.float64
  | validate.int64, validate.int64 => validate.int64
  | validate.bool_, validate.bool_ => validate.bool_
  | validate.datetime64, validate.datetime64 => validate.datetime64
  | _, _ => validate.object_
  end.

Definition frame_dtype (df : DataFrame) : validate.dtype :=
  match map (fun c => cells_dtype (snd c)) (columns df) with
  | [] => validate.object_
  | d :: ds => fold_left common_dtype ds d
  end.

Definition pandas : validate.Pandas := {|
  validate.parse_float := fun s => option_map (fun n => inject_Z (Z.of_N n)) (parse_unsigned s);
  validate.parse_datetime := fun s => option_map Z.of_N (parse_unsigned s);
  validate.datetime_of_float := fun q => Some (Z.quot (Qnum q) (Zpos (Qden q)));
  validate.str_of_float := fun q => pretty (Qnum q) ++ "/" ++ pretty (Zpos (Qden q));
  validate.str_of_timestamp := fun ns => pretty ns;
  validate.values_dtype := frame_dtype
|}.

(** The members of [BaseModel] a field may not be named after. *)
Definition protected_names : list string :=
  ["model_dump"; "model_fields"; "model_config"; "model_copy"; "model_validate"].

Definition pydantic : validate.Pydantic := {|
  validate.create_model := fun fields =>
    match List.filter (fun kv => name_in (fst kv) protected_names) fields with
    | [] => None
    | (name, _) :: _ =>
        Some (Exception "NameError"
                ("Field '" ++ name ++ "' conflicts with a member of protected namespace 'model_'."))
    end;
  validate.validate_field := fun ty v =>
    match ty, v with
    | py_float, (VFloat _ | VNaN | VInt _) => validate.field_ok
    | py_float, _ => validate.field_invalid "Input should be a valid number" "float_type"
    | py_str, VStr _ => validate.field_ok
    | py_str, _ => validate.field_invalid "Input should be a valid string" "string_type"
    | py_int, VInt _ => validate.field_ok
    | py_int, _ => validate.field_invalid "Input should be a valid integer" "int_type"
    | py_bool, VBool _ => validate.field_ok
    | py_bool, _ => validate.field_invalid "Input should be a valid boolean" "bool_type"
    | pd_Timestamp, VTimestamp _ => validate.field_ok
    | pd_Timestamp, _ => validate.field_invalid "Input should be a valid datetime" "datetime_type"
    | PyOther name, _ => validate.field_raises (Exception "TypeError" ("no validator for " ++ name))
    end
|}.

(** An engine whose driver never raises and whose inspector reports the
    upper-case class PostgreSQL stores for each generic class. *)
Definition postgres : load.Engine := {|
  load.raises := fun _ => None;
  load.reflect := fun c =>
    match c with
    | sql_types.Integer => sql_types.INTEGER
    | sql_types.Float => sql_types.DOUBLE_PRECISION
    | sql_types.String => sql_types.VARCHAR
    | sql_types.DateTime => sql_types.TIMESTAMP
    | sql_types.Boolean => sql_types.BOOLEAN
    | c => c
    end
|}.

(** The same database with the catalog's column listing out of order. *)
Definition postgres_no_columns (table_name : string) : load.Engine := {|
  load.raises := fun c =>
    match c with
    | load.get_columns_call n =>
        if String.eqb n table_name
        then Some (SQLAlchemyError "could not read the catalog")
        else None
    | _ => None
    end;
  load.reflect := load.reflect postgres
|}.

(** A store holding one table, with nothing called yet. *)
Definition store_with (table_name : string) (t : load.table) : load.db_state :=
  {| load.tables := {[ table_name := t ]}; load.calls := [] |}.

(** 2025-11-02 01:30:00.000042, and half an hour earlier on the wall clock. *)
Definition half_past_one : load.datetime :=
  {| load.year := 2025; load.month := 11; load.day := 2;
     load.hour := 1; load.minute := 30; load.second := 0; load.microsecond := 42 |}.

Definition one_o_clock : load.datetime :=
  {| load.year := 2025; load.month := 11; load.day := 2;
     load.hour := 1; load.minute := 0; load.second := 0; load.microsecond := 7 |}.

Definition one_row : DataFrame :=
  {| columns := [("id", [VInt 7])]; index := [0%Z] |}.

(** An AutoML that takes every column named [amount] for a number and every
    other column for a category, the target included. *)
Definition automl : infer_types.AutoML := {|
  infer_types.fit_predict := fun df roles =>
    inr (map (fun kv => (fst kv, if String.eqb (fst kv) "amount"
                                 then "numeric" else "category"))
             roles)
|}.

(** The dtype test answering for the cells of a Series, numbers and [nan]
    only; a frame is no numeric array. *)
Definition cells_numeric (arg : validate.selection) : bool :=
  match arg with
  | validate.Series s =>
      forallb (fun v => match v with VFloat _ | VInt _ | VNaN => true | _ => false end) s
  | validate.Frame _ => false
  end.

(** Five rows; the amount of the row at index 2 is not a number. *)
Definition five_rows : DataFrame :=
  {| columns := [("amount", [VStr "10"; VStr "20"; VStr "abc"; VStr "40"; VStr "50"]);
                 ("name", [VStr "a"; VStr "b"; VStr "c"; VStr "d"; VStr "e"])];
     index := [0; 1; 2; 3; 4]%Z |}.

(** The amounts alone. *)
Definition five_amounts : DataFrame :=
  {| columns := [("amount", [VStr "10"; VStr "20"; VStr "abc"; VStr "40"; VStr "50"])];
     index := [0; 1; 2; 3; 4]%Z |}.

End samples.

(** ** Notions the statements below are phrased with *)

(** A Python dictionary never holds a key twice. *)
Definition is_dict {V} (d : list (string * V)) : Prop := NoDup (dict_keys d).

(** The columns of two schemas taken position by position. *)
Fixpoint pairwise_compatible (P Q : load.schema_map) : bool :=
  match P, Q with
  | [], [] => true
  | (_, a) :: P', (_, b) :: Q' => load.column_compatible a b && pairwise_compatible P' Q'
  | _, _ => false
  end.

(** The fields of a [datetime] that [now()] can return, with a year of four
    digits. *)
Definition valid_datetime (t : load.datetime) : Prop :=
  (1000 <= load.year t < 10000 /\ load.month t < 100 /\ load.day t < 100
   /\ load.hour t < 100 /\ load.minute t < 100 /\ load.second t < 100
   /\ load.microsecond t < 1000000)%N.

Definition lex (c : comparison) (d : comparison) : comparison :=
  match c with Eq => d | _ => c end.

(** [t1 < t2], [t1 == t2], [t1 > t2] on datetimes: field by field. *)
Definition datetime_compare (t1 t2 : load.datetime) : comparison :=
  lex (load.year t1 ?= load.year t2)%N
 (lex (load.month t1 ?= load.month t2)%N
 (lex (load.day t1 ?= load.day t2)%N
 (lex (load.hour t1 ?= load.hour t2)%N
 (lex (load.minute t1 ?= load.minute t2)%N
 (lex (load.second t1 ?= load.second t2)%N
      (load.microsecond t1 ?= load.microsecond t2)%N))))).

Definition is_digit (c : ascii) : bool :=
  ((48 <=? N_of_ascii c) && (N_of_ascii c <=? 57))%N.

Fixpoint all_digits (s : string) : bool :=
  match s with
  | "" => true
  | String c s' => is_digit c && all_digits s'
  end.

(** What one row adds to [validation_errors], given how its check ended. *)
Definition row_entry (idx : Z) (r : exn + unit) : list validate.row_error :=
  match r with
  | inr _ => []
  | inl (ValidationError errs) =>
      [{| validate.ve_index := idx; validate.ve_errors := errs |}]
  | inl e =>
      [{| validate.ve_index := idx;
          validate.ve_errors :=
            [{| loc := "unknown"; msg := validate.exn_str e; type := "runtime_error" |}] |}]
  end.

(** The type a column is validated against: its declared type, [str] for a
    column the type map does not mention. *)
Definition field_type (type_map : list (string * py_type)) (col : string) : py_type :=
  default py_str (dict_get type_map col).

(** The four classes whose subclasses line 79-82 treat as one category. *)
Definition category_bases : list sql_types.type_class :=
  [sql_types.String; sql_types.Numeric; sql_types.DateTime; sql_types.Boolean].

(** Two classes the comparator lets stand for each other. *)
Definition same_class_or_category (a b : sql_types.type_class) : Prop :=
  a = b
  \/ exists base, base ∈ category_bases
                  /\ sql_types.issubclass a base = true
                  /\ sql_types.issubclass b base = true.

(** The shape a selection must have to be what the frame holds under a
    label: a Series for a label one column carries, and otherwise a frame of
    as many columns as carry it. *)
Definition fits (df : DataFrame) (col : string) (arg : validate.selection) : Prop :=
  match arg with
  | validate.Series _ => length (validate.columns_named df col) = 1%nat
  | validate.Frame cs =>
      length cs = length (validate.columns_named df col) /\ length cs <> 1%nat
  end.

(** The cells of a selection, column after column. *)
Definition cells_of (arg : validate.selection) : list value :=
  match arg with
  | validate.Series s => s
  | validate.Frame cs => concat cs
  end.

(** What a stored cell reaches the validator as, by the dtype of the rows. *)
Definition keyword_of (values : validate.dtype) (v : value) : value :=
  validate.where_notnull values (validate.iterrows_cell values v).

(** The default line 31 gives a field of the given type. *)
Definition field_default (v : py_type) : value :=
  if negb (py_type_eqb v py_float) then VNone else VNaN.

(** The state after some more calls on the engine. *)
Definition logged (s : load.db_state) (l : list load.db_call) : load.db_state :=
  {| load.tables := load.tables s; load.calls := (load.calls s ++ l)%list |}.

(** The table a call writes to and how, read off the branches of lines
    116-139: from the table found under the base name, if any, and the
    schema of the frame. *)
Definition write_target (base_table_name : string) (now : load.datetime)
    (found : option load.table) (current_schema_map : load.schema_map)
  : string * load.if_exists_mode :=
  match found with
  | None => (base_table_name, load.fail_)
  | Some t =>
      let db_schema_map := load.db_schema_map_of [] (load.tbl_columns t) in
      if load.is_empty_map db_schema_map
      then (load.versioned_name base_table_name now, load.fail_)
      else if load.are_schemas_compatible db_schema_map current_schema_map
      then (base_table_name, load.append)
      else (load.versioned_name base_table_name now, load.fail_)
  end.

(** The table [to_sql] leaves under a name it could write to. *)
Definition written_table (engine : load.Engine) (df : DataFrame)
    (dtype : load.schema_map) (found : option load.table) : load.table :=
  match found with
  | Some t =>
      {| load.tbl_columns := load.tbl_columns t;
         load.tbl_rows := (load.tbl_rows t ++ load.df_rows df)%list |}
  | None =>
      {| load.tbl_columns :=
           map (fun col => (col, load.reflect engine
                                   (default sql_types.Text (dict_get dtype col))))
               (df_columns df);
         load.tbl_rows := load.df_rows df |}
  end.

(** One call of the loader laid out flat: what it returns or raises, the
    store it leaves and the calls it made, for a state [s] before the call. *)
Definition load_plan (engine : load.Engine) (now : load.datetime)
    (df : DataFrame) (type_map : list (string * py_type)) (base_table_name : string)
    (s : load.db_state) : (exn + load.load_result) * load.db_state :=
  let probe := load.has_table_call base_table_name in
  let fetch := load.get_columns_call base_table_name in
  let current := load.get_sqlalchemy_schema_map type_map (df_columns df) in
  let write (before : list load.db_call) (found : option load.table) :=
    let '(name, mode) := write_target base_table_name now found current in
    let w := load.to_sql_call name mode in
    match load.raises engine w with
    | Some e => (inl e, logged s (before ++ [w; load.dispose_call]))
    | None =>
        match load.tables s !! name, mode with
        | Some _, load.fail_ =>
            (inl (Exception "ValueError" ("Table '" ++ name ++ "' already exists.")),
             logged s (before ++ [w; load.dispose_call]))
        | existing, _ =>
            (inr (load.Processed name),
             {| load.tables := <[name := written_table engine df current existing]>
                                 (load.tables s);
                load.calls := (load.calls s ++ before ++ [w; load.dispose_call])%list |})
        end
    end in
  if df_empty df then (inr load.Skipped, logged s [load.dispose_call])
  else
    match load.raises engine probe with
    | Some e => (inl e, logged s [probe; load.dispose_call])
    | None =>
        match load.tables s !! base_table_name with
        | None => write [probe] None
        | Some t =>
            match load.raises engine fetch with
            | Some e => (inl e, logged s [probe; probe; fetch; load.dispose_call])
            | None => write [probe; probe; fetch] (Some t)
            end
        end
    end.

(** The class lines 21-31 give a column: the one its declared type maps to,
    [String] when the column is undeclared or its type is not in the table. *)
Definition column_class (type_map : list (string * py_type)) (col : string)
  : sql_types.type_class :=
  default sql_types.String (load.PYTHON_TO_SQLALCHEMY_TYPE_MAP (dict_get type_map col)).

Definition is_write (c : load.db_call) : bool :=
  match c with load.to_sql_call _ _ => true | _ => false end.

(** The type lines 31-38 give a role: [float] for [numeric], [str] for
    [category], [datetime] and everything else. *)
Definition type_of_role (role_name : string) : py_type :=
  if String.eqb role_name "numeric" then py_float else py_str.

(** * Properties *)

(** ** Dictionaries and name lists *)

Lemma names_eqb_eq (a b : list string) : names_eqb a b = true <-> a = b.
Proof.
  revert b; induction a as [|x a IH]; intros [|y b]; simpl; try (split; congruence).
  rewrite andb_true_iff, String.eqb_eq, IH. split.
  - intros [-> ->]; reflexivity.
  - intros [= -> ->]; auto.
Qed.

Lemma names_eqb_sym (a b : list string) : names_eqb a b = names_eqb b a.
Proof.
  destruct (names_eqb a b) eqn:E.
  - apply names_eqb_eq in E. subst. symmetry. apply names_eqb_eq. reflexivity.
  - destruct (names_eqb b a) eqn:E'; [|reflexivity].
    apply names_eqb_eq in E'. subst.
    assert (names_eqb a a = true) by (apply names_eqb_eq; reflexivity). congruence.
Qed.

Lemma dict_get_not_in {V} (d : list (string * V)) (k : string) :
  k ∉ dict_keys d -> dict_get d k = None.
Proof.
  induction d as [|[k' v] d IH]; simpl; [reflexivity|].
  intros Hk. apply not_elem_of_cons in Hk as [Hne Hk].
  destruct (String.eqb_spec k' k); [congruence|]. auto.
Qed.

Lemma dict_get_head {V} (k : string) (v : V) (d : list (string * V)) :
  dict_get ((k, v) :: d) k = Some v.
Proof. simpl. rewrite String.eqb_refl. reflexivity. Qed.

Lemma dict_get_elem_of {V} (d : list (string * V)) (k : string) (v : V) :
  dict_get d k = Some v -> (k, v) ∈ d.
Proof.
  induction d as [|[k' v'] d IH]; simpl; [discriminate|].
  destruct (String.eqb_spec k' k).
  - intros [= ->]. subst. left.
  - intros H. right. auto.
Qed.

Lemma is_dict_elem_of_get {V} (d : list (string * V)) (k : string) (v : V) :
  is_dict d -> (k, v) ∈ d -> dict_get d k = Some v.
Proof.
  unfold is_dict. induction d as [|[k' v'] d IH]; simpl; intros Hnd Hin.
  - inversion Hin.
  - apply NoDup_cons in Hnd as [Hk' Hnd].
    apply elem_of_cons in Hin as [[= -> ->]|Hin].
    + rewrite String.eqb_refl. reflexivity.
    + destruct (String.eqb_spec k' k); [|auto].
      subst. exfalso. apply Hk'. apply (list_elem_of_fmap_2 fst) in Hin. exact Hin.
Qed.

(** ** The schema comparator *)

Lemma type_class_beq_sym (a b : sql_types.type_class) :
  sql_types.type_class_beq a b = sql_types.type_class_beq b a.
Proof. destruct a, b; reflexivity. Qed.

Lemma type_class_beq_refl (a : sql_types.type_class) :
  sql_types.type_class_beq a a = true.
Proof. destruct a; reflexivity. Qed.

Lemma column_compatible_sym (a b : sql_types.type_class) :
  load.column_compatible a b = load.column_compatible b a.
Proof.
  unfold load.column_compatible. rewrite (type_class_beq_sym b a).
  destruct (sql_types.type_class_beq a b); [reflexivity|].
  cbv zeta.
  rewrite (andb_comm (sql_types.issubclass a sql_types.String)).
  rewrite (andb_comm (sql_types.issubclass a sql_types.Numeric)).
  rewrite (andb_comm (sql_types.issubclass a sql_types.DateTime)).
  rewrite (andb_comm (sql_types.issubclass a sql_types.Boolean)).
  reflexivity.
Qed.

Lemma compare_columns_skip (k : string) (a : sql_types.type_class)
    (P Q : load.schema_map) :
  k ∉ dict_keys Q ->
  load.compare_columns ((k, a) :: P) Q = load.compare_columns P Q.
Proof.
  induction Q as [|[c t] Q IH]; simpl; [reflexivity|].
  intros Hk. apply not_elem_of_cons in Hk as [Hne Hk].
  destruct (String.eqb_spec k c); [congruence|].
  destruct (dict_get P c); [|reflexivity].
  destruct (load.column_compatible _ _); [|reflexivity].
  apply IH, Hk.
Qed.

Lemma compare_columns_pairwise (P Q : load.schema_map) :
  dict_keys P = dict_keys Q -> is_dict P ->
  load.compare_columns P Q = pairwise_compatible P Q.
Proof.
  unfold is_dict. revert Q.
  induction P as [|[k a] P IH]; intros [|[c b] Q]; simpl; try discriminate; [reflexivity|].
  intros [= <- Hkeys] Hnd. apply NoDup_cons in Hnd as [Hk Hnd].
  rewrite String.eqb_refl.
  destruct (load.column_compatible a b); [simpl|reflexivity].
  rewrite compare_columns_skip by (unfold dict_keys in *; rewrite <- Hkeys; exact Hk).
  apply IH; assumption.
Qed.

Lemma pairwise_compatible_sym (P Q : load.schema_map) :
  pairwise_compatible P Q = pairwise_compatible Q P.
Proof.
  revert Q; induction P as [|[k a] P IH]; intros [|[c b] Q]; simpl; try reflexivity.
  rewrite column_compatible_sym, IH. reflexivity.
Qed.

Lemma are_schemas_compatible_pairwise (P Q : load.schema_map) :
  dict_keys P = dict_keys Q -> is_dict P ->
  load.are_schemas_compatible P Q = pairwise_compatible P Q.
Proof.
  intros Hkeys Hnd. unfold load.are_schemas_compatible.
  replace (names_eqb (dict_keys P) (dict_keys Q)) with true
    by (symmetry; apply names_eqb_eq; exact Hkeys).
  simpl. apply compare_columns_pairwise; assumption.
Qed.

Lemma are_schemas_compatible_names_differ_aux (P Q : load.schema_map) :
  names_eqb (dict_keys P) (dict_keys Q) = false ->
  load.are_schemas_compatible P Q = false.
Proof. intros E. unfold load.are_schemas_compatible. rewrite E. reflexivity. Qed.

(** C1, at the inputs where the code leaves what it announces: the comment of
    line 70 says the numeric test catches [Integer], the one of line 72 that
    the temporal test catches [Date] and [Time]; in SQLAlchemy [Integer] does
    not derive from [Numeric], nor [Date] and [Time] from [DateTime].  A 32-bit
    against a 64-bit integer column, the [Integer] the loader derives from
    [int] against the [INTEGER] the catalog reports for it, and a date against
    a timestamp all compare incompatible; bounded against unbounded text and
    single against double precision compare compatible. *)
Theorem are_schemas_compatible_integer_widths :
  load.are_schemas_compatible [("id", sql_types.INTEGER)] [("id", sql_types.BIGINT)] = false
  /\ load.are_schemas_compatible [("id", sql_types.INTEGER)] [("id", sql_types.Integer)] = false
  /\ load.are_schemas_compatible [("day", sql_types.DATE)] [("day", sql_types.DateTime)] = false
  /\ load.are_schemas_compatible [("name", sql_types.VARCHAR)] [("name", sql_types.TEXT)] = true
  /\ load.are_schemas_compatible [("x", sql_types.REAL)] [("x", sql_types.DOUBLE_PRECISION)] = true.
Proof. repeat split; vm_compute; reflexivity. Qed.

(** C7: two schemas whose column-name sequences differ in any way (a column
    more, a column less, another order, another name) are incompatible,
    whatever their types. *)
Theorem are_schemas_compatible_names_differ (P Q : load.schema_map) :
  dict_keys P <> dict_keys Q -> load.are_schemas_compatible P Q = false.
Proof.
  intros Hne. unfold load.are_schemas_compatible.
  destruct (names_eqb (dict_keys P) (dict_keys Q)) eqn:E; [|reflexivity].
  apply names_eqb_eq in E. contradiction.
Qed.

Lemma are_schemas_compatible_names_differ_witness :
  load.are_schemas_compatible
    [("id", sql_types.Integer); ("name", sql_types.String)]
    [("name", sql_types.String); ("id", sql_types.Integer)] = false.
Proof. apply are_schemas_compatible_names_differ. simpl. congruence. Defined.

(** C10: the comparator gives the same verdict in both directions. *)
Theorem are_schemas_compatible_sym (P Q : load.schema_map) :
  is_dict P -> is_dict Q ->
  load.are_schemas_compatible P Q = load.are_schemas_compatible Q P.
Proof.
  intros HP HQ.
  destruct (decide (dict_keys P = dict_keys Q)) as [Hkeys|Hkeys].
  - rewrite (are_schemas_compatible_pairwise P Q), (are_schemas_compatible_pairwise Q P);
      auto using pairwise_compatible_sym.
  - assert (names_eqb (dict_keys P) (dict_keys Q) = false) as E.
    { destruct (names_eqb _ _) eqn:E; [|reflexivity].
      apply names_eqb_eq in E. contradiction. }
    rewrite (are_schemas_compatible_names_differ_aux P Q E).
    rewrite names_eqb_sym in E.
    rewrite (are_schemas_compatible_names_differ_aux Q P E). reflexivity.
Qed.

Lemma are_schemas_compatible_sym_witness :
  load.are_schemas_compatible
    [("id", sql_types.INTEGER); ("name", sql_types.VARCHAR)]
    [("id", sql_types.Integer); ("name", sql_types.String)]
  = load.are_schemas_compatible
    [("id", sql_types.Integer); ("name", sql_types.String)]
    [("id", sql_types.INTEGER); ("name", sql_types.VARCHAR)].
Proof.
  apply are_schemas_compatible_sym;
    unfold is_dict; simpl; apply (bool_decide_unpack _); vm_compute; reflexivity.
Defined.

(** ** The loader *)

Import load.

Lemma df_empty_false_columns (df : DataFrame) :
  df_empty df = false -> (length (df_columns df) =? 0)%nat = false.
Proof.
  unfold df_empty, df_columns. rewrite orb_false_iff, length_map. tauto.
Qed.

(** Unfolds one call of the loader down to the engine's answers. *)
Ltac run_loader :=
  unfold load_to_postgres, try_finally, try_except_reraise, get_db_table_schema_map,
    to_sql, has_table, get_columns, dispose, call, record_call, bind, ret, raise;
  cbn.

(** C8: a frame with no row or no column is skipped at once; the store is
    left as it was and the only thing done with the engine is to dispose of
    it: no catalog probe, no schema fetch, no table created, no row written. *)
Theorem load_to_postgres_empty_frame (engine : Engine) (now : datetime)
    (df : DataFrame) (type_map : list (string * py_type)) (base_table_name : string)
    (s : db_state) :
  df_len df = 0%nat \/ length (columns df) = 0%nat ->
  load_to_postgres engine now df type_map base_table_name s
  = (inr Skipped, {| tables := tables s; calls := calls s ++ [dispose_call] |}).
Proof.
  intros Hempty.
  assert (df_empty df = true) as E.
  { unfold df_empty. apply orb_true_iff.
    destruct Hempty as [H|H]; rewrite H; auto. }
  unfold load_to_postgres. rewrite E. reflexivity.
Qed.

Lemma load_to_postgres_empty_frame_witness :
  load_to_postgres samples.postgres samples.half_past_one
    {| columns := [("id", []); ("name", [])]; index := [] |}
    [("id", py_int); ("name", py_str)] "clean_data"
    (samples.store_with "clean_data"
       {| tbl_columns := [("id", sql_types.INTEGER)]; tbl_rows := [[VInt 1]] |})
  = (inr Skipped,
     {| tables := {[ "clean_data" := {| tbl_columns := [("id", sql_types.INTEGER)];
                                        tbl_rows := [[VInt 1]] |} ]};
        calls := [dispose_call] |}).
Proof.
  apply (load_to_postgres_empty_frame samples.postgres samples.half_past_one
           {| columns := [("id", []); ("name", [])]; index := [] |}).
  left. reflexivity.
Defined.

(** C3, against the claim: the catalog's column listing raises for an existing
    table.  The loader re-raises the error to its caller; no table is created
    and nothing is written. *)
Lemma load_to_postgres_fetch_failure_propagates :
  load_to_postgres (samples.postgres_no_columns "clean_data") samples.half_past_one
    samples.one_row [("id", py_int)] "clean_data"
    (samples.store_with "clean_data"
       {| tbl_columns := [("id", sql_types.INTEGER)]; tbl_rows := [[VInt 1]] |})
  = (inl (SQLAlchemyError "could not read the catalog"),
     {| tables := {[ "clean_data" := {| tbl_columns := [("id", sql_types.INTEGER)];
                                        tbl_rows := [[VInt 1]] |} ]};
        calls := [has_table_call "clean_data"; has_table_call "clean_data";
                  get_columns_call "clean_data"; dispose_call] |}).
Proof. vm_compute. reflexivity. Qed.

(** C3, as the code has it.  For a non-empty frame and an existing base table
    whose probes do not raise:
    - when the column listing raises, the loader raises the same exception
      after disposing of its engine, and the store is unchanged;
    - when the listing returns no column, the loader writes the frame to a new
      table named after the base name and the clock (creation refuses an
      existing table), and never appends to the base table. *)
Theorem load_to_postgres_unverified_schema (engine : Engine) (now : datetime)
    (df : DataFrame) (type_map : list (string * py_type)) (base_table_name : string)
    (s : db_state) (t : table) :
  df_empty df = false ->
  tables s !! base_table_name = Some t ->
  raises engine (has_table_call base_table_name) = None ->
  (forall e, raises engine (get_columns_call base_table_name) = Some e ->
     load_to_postgres engine now df type_map base_table_name s
     = (inl e,
        {| tables := tables s;
           calls := calls s ++ [has_table_call base_table_name;
                                has_table_call base_table_name;
                                get_columns_call base_table_name;
                                dispose_call] |}))
  /\ (raises engine (get_columns_call base_table_name) = None ->
      tbl_columns t = [] ->
      raises engine (to_sql_call (versioned_name base_table_name now) fail_) = None ->
      tables s !! versioned_name base_table_name now = None ->
      load_to_postgres engine now df type_map base_table_name s
      = (inr (Processed (versioned_name base_table_name now)),
         {| tables :=
              <[versioned_name base_table_name now :=
                  {| tbl_columns :=
                       map (fun col =>
                              (col, reflect engine
                                      (default sql_types.Text
                                         (dict_get
                                            (get_sqlalchemy_schema_map type_map (df_columns df))
                                            col))))
                           (df_columns df);
                     tbl_rows := df_rows df |}]> (tables s);
            calls := calls s ++ [has_table_call base_table_name;
                                 has_table_call base_table_name;
                                 get_columns_call base_table_name;
                                 to_sql_call (versioned_name base_table_name now) fail_;
                                 dispose_call] |})).
Proof.
  intros Hdf Ht Hprobe.
  pose proof (df_empty_false_columns df Hdf) as Hcols.
  split.
  - intros e He. run_loader. rewrite Hdf, Hcols. cbn.
    repeat first [rewrite Hprobe | rewrite Ht | rewrite He | progress cbn].
    rewrite <- !app_assoc. reflexivity.
  - intros Hfetch Hnone Hwrite Hfresh. run_loader. rewrite Hdf, Hcols. cbn.
    repeat first [rewrite Hprobe | rewrite Ht | rewrite Hfetch | rewrite Hnone
                 | rewrite Hwrite | rewrite Hfresh | progress cbn].
    rewrite <- !app_assoc. reflexivity.
Qed.

Lemma load_to_postgres_unverified_schema_witness :
  fst (load_to_postgres samples.postgres samples.half_past_one
         samples.one_row [("id", py_int)] "clean_data"
         (samples.store_with "clean_data" {| tbl_columns := []; tbl_rows := [] |}))
  = inr (Processed "clean_data_20251102013000000042").
Proof.
  destruct (load_to_postgres_unverified_schema samples.postgres samples.half_past_one
              samples.one_row [("id", py_int)] "clean_data"
              (samples.store_with "clean_data" {| tbl_columns := []; tbl_rows := [] |})
              {| tbl_columns := []; tbl_rows := [] |}
              eq_refl (lookup_singleton_eq _ _) eq_refl) as [_ Hversioned].
  rewrite Hversioned; [reflexivity ..].
Defined.

(** ** Versioned table names *)

Lemma string_app_cons (c : ascii) (a b : string) :
  String c a ++ b = String c (a ++ b).
Proof. reflexivity. Qed.

Lemma string_app_nil (b : string) : "" ++ b = b.
Proof. reflexivity. Qed.

Lemma string_length_app (a b : string) :
  String.length (a ++ b) = (String.length a + String.length b)%nat.
Proof.
  induction a as [|c a IH]; [reflexivity|].
  rewrite string_app_cons. simpl. rewrite IH. reflexivity.
Qed.

Lemma ascii_compare_refl (c : ascii) : Ascii.compare c c = Eq.
Proof. unfold Ascii.compare. apply N.compare_refl. Qed.

Lemma string_compare_prefix (p a b : string) :
  String.compare (p ++ a) (p ++ b) = String.compare a b.
Proof.
  induction p as [|c p IH]; [reflexivity|].
  rewrite ?string_app_cons. simpl. rewrite ascii_compare_refl. exact IH.
Qed.

Lemma string_compare_app (a a' b b' : string) :
  String.length a = String.length a' ->
  String.compare (a ++ b) (a' ++ b') = lex (String.compare a a') (String.compare b b').
Proof.
  revert a'. induction a as [|c a IH]; intros [|c' a']; simpl; try discriminate.
  - intros _. reflexivity.
  - intros [= Hlen]. destruct (Ascii.compare c c'); simpl; auto.
Qed.

Lemma digit_compare (a b : N) :
  (a < 10)%N -> (b < 10)%N -> Ascii.compare (digit a) (digit b) = (a ?= b)%N.
Proof.
  intros Ha Hb. unfold Ascii.compare, digit.
  rewrite !N_ascii_embedding by lia.
  destruct (N.compare_spec a b);
    [apply N.compare_eq_iff | apply N.compare_lt_iff | apply N.compare_gt_iff]; lia.
Qed.

Lemma is_digit_digit (a : N) : (a < 10)%N -> is_digit (digit a) = true.
Proof.
  intros Ha. unfold is_digit, digit. rewrite N_ascii_embedding by lia.
  apply andb_true_iff. split; apply N.leb_le; lia.
Qed.

Lemma decimal_compare (n m : N) :
  lex (n / 10 ?= m / 10)%N (n mod 10 ?= m mod 10)%N = (n ?= m)%N.
Proof.
  pose proof (N.div_mod n 10 ltac:(lia)) as Hn.
  pose proof (N.div_mod m 10 ltac:(lia)) as Hm.
  pose proof (N.mod_lt n 10 ltac:(lia)) as Hn'.
  pose proof (N.mod_lt m 10 ltac:(lia)) as Hm'.
  symmetry.
  set (a := (n / 10)%N) in *. set (r := (n mod 10)%N) in *.
  set (b := (m / 10)%N) in *. set (r' := (m mod 10)%N) in *.
  clearbody a r b r'.
  destruct (N.compare_spec a b) as [E|E|E]; cbn [lex].
  - destruct (N.compare_spec r r') as [E'|E'|E'].
    + apply N.compare_eq_iff. lia.
    + apply N.compare_lt_iff. lia.
    + apply N.compare_gt_iff. lia.
  - apply N.compare_lt_iff. lia.
  - apply N.compare_gt_iff. lia.
Qed.

Lemma zero_padded_length (w : nat) (n : N) : String.length (zero_padded w n) = w.
Proof.
  revert n; induction w as [|w IH]; intros n; simpl; [reflexivity|].
  rewrite string_length_app, IH. simpl. lia.
Qed.

Lemma all_digits_app (a b : string) :
  all_digits (a ++ b) = all_digits a && all_digits b.
Proof.
  induction a as [|c a IH]; [reflexivity|].
  rewrite string_app_cons. simpl. rewrite IH, andb_assoc. reflexivity.
Qed.

Lemma zero_padded_digits (w : nat) (n : N) : all_digits (zero_padded w n) = true.
Proof.
  revert n; induction w as [|w IH]; intros n; simpl; [reflexivity|].
  rewrite all_digits_app, IH. simpl.
  rewrite is_digit_digit by (apply N.mod_lt; lia). reflexivity.
Qed.

Lemma zero_padded_compare (w : nat) (n m : N) :
  (n < 10 ^ N.of_nat w)%N -> (m < 10 ^ N.of_nat w)%N ->
  String.compare (zero_padded w n) (zero_padded w m) = (n ?= m)%N.
Proof.
  revert n m; induction w as [|w IH]; intros n m Hn Hm.
  - simpl in *. assert (n = 0%N) by lia. assert (m = 0%N) by lia. subst. reflexivity.
  - simpl zero_padded.
    rewrite string_compare_app by (rewrite !zero_padded_length; reflexivity).
    rewrite Nat2N.inj_succ, N.pow_succ_r' in Hn, Hm.
    rewrite IH by (apply N.Div0.div_lt_upper_bound; lia).
    simpl String.compare.
    rewrite digit_compare by (apply N.mod_lt; lia).
    replace (match (n mod 10 ?= m mod 10)%N with Eq => Eq | Lt => Lt | Gt => Gt end)
      with (n mod 10 ?= m mod 10)%N by (destruct (_ ?= _)%N; reflexivity).
    apply decimal_compare.
Qed.

Lemma strftime_length (t : datetime) : String.length (strftime_YmdHMSf t) = 20%nat.
Proof.
  unfold strftime_YmdHMSf. rewrite !string_length_app, !zero_padded_length. reflexivity.
Qed.

Lemma strftime_digits (t : datetime) : all_digits (strftime_YmdHMSf t) = true.
Proof.
  unfold strftime_YmdHMSf. rewrite !all_digits_app, !zero_padded_digits. reflexivity.
Qed.

Lemma strftime_compare (t1 t2 : datetime) :
  valid_datetime t1 -> valid_datetime t2 ->
  String.compare (strftime_YmdHMSf t1) (strftime_YmdHMSf t2) = datetime_compare t1 t2.
Proof.
  intros (Hy1 & Hm1 & Hd1 & HH1 & HM1 & HS1 & Hf1) (Hy2 & Hm2 & Hd2 & HH2 & HM2 & HS2 & Hf2).
  unfold strftime_YmdHMSf, datetime_compare.
  repeat (rewrite string_compare_app by (rewrite !zero_padded_length; reflexivity)).
  rewrite !zero_padded_compare by (simpl; lia).
  reflexivity.
Qed.

Lemma bind_inr {A B} (m : db A) (k : A -> db B) (s s' : db_state) (b : B) :
  bind m k s = (inr b, s') -> exists a s1, m s = (inr a, s1) /\ k a s1 = (inr b, s').
Proof.
  unfold bind. destruct (m s) as [[e|a] s1]; [discriminate|]. eauto.
Qed.

Lemma try_finally_inr {A} (m : db A) (f : db unit) (s s' : db_state) (a : A) :
  try_finally m f s = (inr a, s') -> exists s1, m s = (inr a, s1).
Proof.
  unfold try_finally. destruct (m s) as [r s1]. destruct (f s1) as [[e|[]] s2].
  - discriminate.
  - intros [= -> _]. eauto.
Qed.

Lemma try_except_reraise_id {A} (m : db A) (s : db_state) :
  try_except_reraise m s = m s.
Proof. unfold try_except_reraise. destruct (m s) as [[e|a] s1]; reflexivity. Qed.

Lemma ret_inr {A} (a b : A) (s s' : db_state) : ret a s = (inr b, s') -> a = b.
Proof. unfold ret. congruence. Qed.

(** Follows a normal return back through the binds that produced it. *)
Ltac invert_run H :=
  repeat match type of H with
         | bind _ _ _ = (inr _, _) =>
             let a := fresh "a" in let s1 := fresh "s" in let H1 := fresh "Hrun" in
             apply bind_inr in H as (a & s1 & H1 & H)
         | (if ?c then _ else _) _ = _ => destruct c
         | ret _ _ = (inr _, _) => apply ret_inr in H
         end.

Lemma load_to_postgres_final_table_name (engine : Engine) (now : datetime)
    (df : DataFrame) (type_map : list (string * py_type)) (base_table_name : string)
    (s s' : db_state) (name : string) :
  load_to_postgres engine now df type_map base_table_name s = (inr (Processed name), s') ->
  name = base_table_name \/ name = versioned_name base_table_name now.
Proof.
  unfold load_to_postgres. intros H.
  destruct (df_empty df || (length (df_columns df) =? 0)%nat).
  - invert_run H. discriminate.
  - apply try_finally_inr in H as [s1 H]. rewrite try_except_reraise_id in H.
    invert_run H; injection H as <-; auto.
Qed.

(** C9, against the claim: two successive calls for the same base table, both
    taking the versioned branch, the second one reading an earlier wall-clock
    time than the first (the hour repeated when daylight saving ends).  The
    second table's name sorts before the first one's. *)
Lemma successive_versioned_names_not_increasing :
  let s0 := samples.store_with "clean_data"
              {| tbl_columns := [("id", sql_types.VARCHAR)]; tbl_rows := [] |} in
  let first := load_to_postgres samples.postgres samples.half_past_one
                 samples.one_row [("id", py_int)] "clean_data" s0 in
  let second := load_to_postgres samples.postgres samples.one_o_clock
                  samples.one_row [("id", py_int)] "clean_data" (snd first) in
  fst first = inr (Processed "clean_data_20251102013000000042")
  /\ fst second = inr (Processed "clean_data_20251102010000000007")
  /\ String.compare "clean_data_20251102013000000042" "clean_data_20251102010000000007" = Gt.
Proof. vm_compute. repeat split; reflexivity. Qed.

(** C9, as the code has it.  A call that ends normally names either the base
    table or [base_table_name], an underscore and the clock reading printed as
    twenty decimal digits: year, month, day, hour, minute, second and
    microsecond, each at a fixed width.  The names of two readings are ordered
    as the readings are: they increase from one call to the next exactly when
    the wall clock did; the loader itself asks nothing of the clock. *)
Theorem versioned_name_format_and_order (base_table_name : string) (t1 t2 : datetime) :
  valid_datetime t1 -> valid_datetime t2 ->
  (forall engine df type_map s s' name,
      load_to_postgres engine t1 df type_map base_table_name s = (inr (Processed name), s') ->
      name = base_table_name \/ name = versioned_name base_table_name t1)
  /\ versioned_name base_table_name t1
     = base_table_name ++ "_"
       ++ (zero_padded 4 (year t1) ++ zero_padded 2 (month t1) ++ zero_padded 2 (day t1)
           ++ zero_padded 2 (hour t1) ++ zero_padded 2 (minute t1)
           ++ zero_padded 2 (second t1) ++ zero_padded 6 (microsecond t1))
  /\ String.length (strftime_YmdHMSf t1) = 20%nat
  /\ all_digits (strftime_YmdHMSf t1) = true
  /\ String.compare (versioned_name base_table_name t1) (versioned_name base_table_name t2)
     = datetime_compare t1 t2.
Proof.
  intros Hv1 Hv2. split; [|split; [|split; [|split]]].
  - intros engine df type_map s s' name. apply load_to_postgres_final_table_name.
  - reflexivity.
  - apply strftime_length.
  - apply strftime_digits.
  - unfold versioned_name.
    rewrite string_compare_prefix.
    change ("_" ++ strftime_YmdHMSf t1) with (String "_" (strftime_YmdHMSf t1)).
    change ("_" ++ strftime_YmdHMSf t2) with (String "_" (strftime_YmdHMSf t2)).
    cbn [String.compare Ascii.compare N_of_ascii N_of_digits N.add N.mul N.compare Pos.compare Pos.compare_cont].
    apply strftime_compare; assumption.
Qed.

Lemma versioned_name_format_and_order_witness :
  String.compare (versioned_name "clean_data" samples.one_o_clock)
                 (versioned_name "clean_data" samples.half_past_one) = Lt.
Proof.
  assert (valid_datetime samples.one_o_clock) as H1
    by (unfold valid_datetime; simpl; lia).
  assert (valid_datetime samples.half_past_one) as H2
    by (unfold valid_datetime; simpl; lia).
  destruct (versioned_name_format_and_order "clean_data" _ _ H1 H2) as (_ & _ & _ & _ & Hcmp).
  rewrite Hcmp. reflexivity.
Defined.

(** ** The caster *)

Import validate.

Lemma assign_labels (cols : list (string * list value)) (col : string)
    (cs : list (list value)) :
  map fst (assign cols col cs) = map fst cols.
Proof.
  revert cs. induction cols as [|[k v] cols IH]; intros cs; simpl; [reflexivity|].
  destruct (String.eqb k col).
  - destruct cs as [|s cs]; simpl; [reflexivity|]. rewrite IH. reflexivity.
  - simpl. rewrite IH. reflexivity.
Qed.

Lemma setitem_index (df : DataFrame) (col : string) (arg : selection) :
  index (setitem df col arg) = index df.
Proof. destruct arg; reflexivity. Qed.

Lemma setitem_columns (df : DataFrame) (col : string) (arg : selection) :
  df_columns (setitem df col arg) = df_columns df.
Proof.
  unfold df_columns. destruct arg as [s|cs]; simpl.
  - rewrite map_map. apply map_ext.
    intros [k v]. simpl. destruct (String.eqb k col); reflexivity.
  - apply assign_labels.
Qed.

Lemma columns_named_setitem_ne (df : DataFrame) (c col : string) (arg : selection) :
  c <> col -> columns_named (setitem df c arg) col = columns_named df col.
Proof.
  intros Hne. unfold columns_named. f_equal. destruct arg as [s|cs]; simpl.
  - induction (columns df) as [|[k v] cols IH]; simpl; [reflexivity|].
    destruct (String.eqb_spec k c) as [->|Hkc]; simpl.
    + destruct (String.eqb_spec c col); [contradiction|]. exact IH.
    + destruct (String.eqb k col); [f_equal|]; exact IH.
  - revert cs. induction (columns df) as [|[k v] cols IH]; intros cs; simpl; [reflexivity|].
    destruct (String.eqb_spec k c) as [->|Hkc]; simpl.
    + destruct cs as [|s cs]; simpl; [reflexivity|].
      destruct (String.eqb_spec c col); [contradiction|]. apply IH.
    + destruct (String.eqb k col); [f_equal|]; apply IH.
Qed.

Lemma getitem_setitem_ne (df : DataFrame) (c col : string) (arg : selection) :
  c <> col -> getitem (setitem df c arg) col = getitem df col.
Proof.
  intros Hne. unfold getitem. rewrite columns_named_setitem_ne by exact Hne. reflexivity.
Qed.

(** What is selected under a label has the shape the label asks for. *)
Lemma getitem_fits (df : DataFrame) (col : string) : fits df col (getitem df col).
Proof.
  unfold fits, getitem. destruct (columns_named df col) as [|s [|s' cs]]; simpl.
  - split; [reflexivity|discriminate].
  - reflexivity.
  - split; [reflexivity|discriminate].
Qed.

Lemma fits_over (f : list value -> list value) (df : DataFrame) (col : string)
    (arg : selection) :
  fits df col arg -> fits df col (over f arg).
Proof. destruct arg; simpl; [auto|]. rewrite length_map. auto. Qed.

Lemma columns_named_length (df df' : DataFrame) (col : string) :
  df_columns df = df_columns df' ->
  length (columns_named df col) = length (columns_named df' col).
Proof.
  unfold df_columns, columns_named. rewrite !length_map.
  generalize (columns df'). induction (columns df) as [|[k v] cols IH];
    intros [|[k' v'] cols']; simpl; try discriminate; [reflexivity|].
  intros [= -> Hrest]. destruct (String.eqb k' col); simpl; rewrite (IH _ Hrest); reflexivity.
Qed.

Lemma fits_columns (df df' : DataFrame) (col : string) (arg : selection) :
  df_columns df = df_columns df' -> fits df col arg -> fits df' col arg.
Proof.
  intros Hcols. unfold fits. rewrite (columns_named_length df df' col Hcols). auto.
Qed.

Lemma columns_named_broadcast (df : DataFrame) (col : string) (s : list value) :
  columns_named (setitem df col (Series s)) col = map (fun _ => s) (columns_named df col).
Proof.
  unfold columns_named. simpl.
  induction (columns df) as [|[k v] cols IH]; simpl; [reflexivity|].
  destruct (String.eqb k col) eqn:E; simpl; rewrite E; simpl; rewrite IH; reflexivity.
Qed.

Lemma columns_named_assign (cols : list (string * list value)) (col : string)
    (cs : list (list value)) :
  length cs = length (List.filter (fun c => String.eqb (fst c) col) cols) ->
  map snd (List.filter (fun c => String.eqb (fst c) col) (assign cols col cs)) = cs.
Proof.
  revert cs. induction cols as [|[k v] cols IH]; intros cs; simpl.
  - destruct cs; [reflexivity|discriminate].
  - destruct (String.eqb k col) eqn:E; simpl.
    + destruct cs as [|s cs]; [discriminate|]. simpl. rewrite E. simpl.
      intros [= Hlen]. rewrite IH by exact Hlen. reflexivity.
    + rewrite E. apply IH.
Qed.

Lemma getitem_setitem_eq (df : DataFrame) (col : string) (arg : selection) :
  fits df col arg -> getitem (setitem df col arg) col = arg.
Proof.
  unfold fits, getitem. destruct arg as [s|cs].
  - intros Hone. rewrite columns_named_broadcast.
    destruct (columns_named df col) as [|s0 [|s1 l]]; try discriminate. reflexivity.
  - intros [Hlen Hmany]. unfold columns_named, setitem. cbn [columns].
    rewrite columns_named_assign
      by (rewrite Hlen; unfold columns_named; rewrite length_map; reflexivity).
    destruct cs as [|s0 [|s1 l]]; try reflexivity. contradiction.
Qed.

Lemma getitem_Series_get (df : DataFrame) (col : string) (cells : list value) :
  getitem df col = Series cells -> dict_get (columns df) col = Some cells.
Proof.
  unfold getitem, columns_named.
  induction (columns df) as [|[k v] cols IH]; simpl; [discriminate|].
  destruct (String.eqb k col); simpl; [|exact IH].
  destruct (map snd _) as [|s l]; [|discriminate]. intros [= ->]. reflexivity.
Qed.

Lemma convert_fits (pd : Pandas) (df : DataFrame) (col : string) (ty : py_type)
    (arg : selection) :
  convert pd df col ty = inr (Some arg) -> fits df col arg.
Proof.
  pose proof (getitem_fits df col) as Hfit.
  destruct ty; simpl; try discriminate.
  - destruct (getitem df col); simpl in *; [|discriminate]. intros [= <-]. exact Hfit.
  - intros [= <-]. apply fits_over, Hfit.
  - destruct (getitem df col); simpl in *; [|discriminate]. intros [= <-]. exact Hfit.
Qed.

Lemma cast_loop_index (pd : Pandas) (df : DataFrame) (items : list (string * py_type))
    (casted_df : DataFrame) (errors : list cast_error) :
  index (fst (cast_loop pd df items casted_df errors)) = index casted_df.
Proof.
  revert casted_df errors. induction items as [|[col ty] items IH]; intros; simpl.
  - reflexivity.
  - destruct (negb _); [apply IH|].
    destruct (convert pd df col ty) as [e|[s|]]; rewrite IH; auto using setitem_index.
Qed.

Lemma cast_loop_columns (pd : Pandas) (df : DataFrame) (items : list (string * py_type))
    (casted_df : DataFrame) (errors : list cast_error) :
  df_columns (fst (cast_loop pd df items casted_df errors)) = df_columns casted_df.
Proof.
  revert casted_df errors. induction items as [|[col ty] items IH]; intros; simpl.
  - reflexivity.
  - destruct (negb _); [apply IH|].
    destruct (convert pd df col ty) as [e|[s|]]; rewrite IH;
      auto using setitem_columns.
Qed.

(** A column the remaining items store nothing under comes out as it went
    in. *)
Lemma cast_loop_untouched (pd : Pandas) (df : DataFrame) (items : list (string * py_type))
    (casted_df : DataFrame) (errors : list cast_error) (col : string) :
  (forall ty, (col, ty) ∈ items -> forall arg, convert pd df col ty <> inr (Some arg)) ->
  getitem (fst (cast_loop pd df items casted_df errors)) col = getitem casted_df col.
Proof.
  revert casted_df errors. induction items as [|[c ty] items IH]; intros casted errs Hcol; simpl.
  - reflexivity.
  - assert (forall ty0, (col, ty0) ∈ items ->
              forall arg, convert pd df col ty0 <> inr (Some arg)) as Hrest
      by (intros ty0 Hin; apply Hcol; right; exact Hin).
    destruct (negb _); [apply IH, Hrest|].
    destruct (convert pd df c ty) as [e|[s|]] eqn:Hconv; rewrite IH by exact Hrest;
      try reflexivity.
    apply getitem_setitem_ne. intros ->.
    apply (Hcol ty (ltac:(left)) s). exact Hconv.
Qed.

(** The column a conversion was stored under holds what the conversion gave. *)
Lemma cast_loop_converted (pd : Pandas) (df : DataFrame) (items : list (string * py_type))
    (casted_df : DataFrame) (errors : list cast_error) (col : string) (ty : py_type)
    (arg : selection) :
  is_dict items ->
  dict_get items col = Some ty ->
  name_in col (df_columns df) = true ->
  df_columns casted_df = df_columns df ->
  convert pd df col ty = inr (Some arg) ->
  getitem (fst (cast_loop pd df items casted_df errors)) col = arg.
Proof.
  unfold is_dict. revert casted_df errors.
  induction items as [|[c ty'] items IH]; intros casted errs Hd Hget Hin Hcols Hs;
    [discriminate|].
  cbn [dict_get] in Hget. cbn [dict_keys map fst] in Hd. cbn [cast_loop].
  apply NoDup_cons in Hd as [Hc Hd].
  destruct (String.eqb_spec c col) as [->|Hne].
  - injection Hget as ->. rewrite Hin. cbn [negb]. rewrite Hs.
    rewrite cast_loop_untouched.
    + apply getitem_setitem_eq.
      apply (fits_columns df casted col arg); [symmetry; exact Hcols|].
      apply (convert_fits pd df col ty). exact Hs.
    + intros ty0 Hty. exfalso. apply Hc.
      apply (list_elem_of_fmap_2 fst) in Hty. exact Hty.
  - destruct (negb (name_in c (df_columns df))); [apply IH; assumption|].
    destruct (convert pd df c ty') as [e|[s'|]]; apply IH; try assumption.
    rewrite setitem_columns. exact Hcols.
Qed.

(** The column of a conversion that raised, or of a type with no conversion,
    stays as it was. *)
Lemma cast_loop_kept (pd : Pandas) (df : DataFrame) (items : list (string * py_type))
    (col : string) (ty : py_type) :
  is_dict items ->
  dict_get items col = Some ty ->
  (forall arg, convert pd df col ty <> inr (Some arg)) ->
  getitem (fst (cast_loop pd df items df [])) col = getitem df col.
Proof.
  intros Hd Hget Hnot. apply cast_loop_untouched. intros ty' Hin.
  apply (is_dict_elem_of_get _ _ _ Hd) in Hin.
  assert (ty' = ty) as -> by congruence.
  exact Hnot.
Qed.

(** *** The two ways out of [auto_cast_and_validate] *)

Lemma model_fields_columns (type_map : list (string * py_type)) (df df' : DataFrame) :
  df_columns df = df_columns df' -> model_fields type_map df = model_fields type_map df'.
Proof. unfold model_fields. intros ->. reflexivity. Qed.

Lemma auto_cast_and_validate_outcome (pd : Pandas) (pyd : Pydantic)
    (df : DataFrame) (type_map : list (string * py_type)) :
  auto_cast_and_validate pd pyd df type_map
  = if is_nil (model_fields type_map df)
    then inr (fst (cast_loop pd df type_map df []), snd (cast_loop pd df type_map df []), [])
    else match create_model pyd (model_fields type_map df) with
         | Some e => inl e
         | None =>
             inr (fst (cast_loop pd df type_map df []),
                  snd (cast_loop pd df type_map df []),
                  validate_rows pyd (values_dtype pd (fst (cast_loop pd df type_map df [])))
                    (fst (cast_loop pd df type_map df []))
                    (model_fields type_map df) (index df) 0 [])
         end.
Proof.
  unfold auto_cast_and_validate.
  pose proof (cast_loop_index pd df type_map df []) as Hidx.
  pose proof (cast_loop_columns pd df type_map df []) as Hcols.
  destruct (cast_loop pd df type_map df []) as [casted errors]. simpl in Hidx, Hcols |- *.
  rewrite (model_fields_columns type_map casted df Hcols), Hidx. reflexivity.
Qed.

Ltac outcome :=
  rewrite auto_cast_and_validate_outcome;
  destruct (is_nil (model_fields _ _)) eqn:?;
    [|destruct (create_model _ (model_fields _ _)) eqn:?; [reflexivity|]].

(** C2, against the claim: a column declared [int], and one declared [bool],
    holding a numeral and a word.  Neither cell is parsed and neither becomes
    null; the same column declared [float] is parsed, the word becoming [nan]. *)
Lemma integer_and_boolean_cells_neither_parsed_nor_nulled :
  let df := {| columns := [("n", [VStr "12"; VStr "abc"])]; index := [0%Z; 1%Z] |} in
  let casted type_map :=
    match auto_cast_and_validate samples.pandas samples.pydantic df type_map with
    | inr (casted_df, _, _) => Some (getitem casted_df "n")
    | inl _ => None
    end in
  casted [("n", py_int)] = Some (Series [VStr "12"; VStr "abc"])
  /\ casted [("n", py_bool)] = Some (Series [VStr "12"; VStr "abc"])
  /\ casted [("n", py_float)] = Some (Series [VFloat (inject_Z 12); VNaN])
  /\ isnull (VStr "abc") = false.
Proof. vm_compute. repeat split; reflexivity. Qed.

(** C2, as the code has it: the caster has no conversion for [int] or [bool];
    a column declared with one of them leaves the caster cell for cell as it
    entered it, nothing parsed and nothing replaced by null.  (The call
    returns unless [create_model] refuses the fields.) *)
Theorem integer_and_boolean_columns_pass_through (pd : Pandas) (pyd : Pydantic)
    (df : DataFrame) (type_map : list (string * py_type)) (col : string) (ty : py_type) :
  is_dict type_map ->
  dict_get type_map col = Some ty ->
  ty = py_int \/ ty = py_bool ->
  match auto_cast_and_validate pd pyd df type_map with
  | inr (casted_df, _, _) => getitem casted_df col = getitem df col
  | inl e => create_model pyd (model_fields type_map df) = Some e
  end.
Proof.
  intros Hdict Hget Hty.
  assert (getitem (fst (cast_loop pd df type_map df [])) col = getitem df col) as Hsame.
  { apply (cast_loop_kept pd df type_map col ty Hdict Hget).
    intros arg. destruct Hty as [-> | ->]; discriminate. }
  outcome; exact Hsame.
Qed.

Lemma integer_and_boolean_columns_pass_through_witness :
  match auto_cast_and_validate samples.pandas samples.pydantic
          {| columns := [("n", [VStr "12"; VStr "abc"]); ("x", [VStr "1"; VStr "2"])];
             index := [0%Z; 1%Z] |}
          [("x", py_float); ("n", py_int)] with
  | inr (casted_df, _, _) =>
      getitem casted_df "n"
      = getitem {| columns := [("n", [VStr "12"; VStr "abc"]); ("x", [VStr "1"; VStr "2"])];
                   index := [0%Z; 1%Z] |} "n"
  | inl e =>
      create_model samples.pydantic
        (model_fields [("x", py_float); ("n", py_int)]
           {| columns := [("n", [VStr "12"; VStr "abc"]); ("x", [VStr "1"; VStr "2"])];
              index := [0%Z; 1%Z] |}) = Some e
  end.
Proof.
  apply (integer_and_boolean_columns_pass_through samples.pandas samples.pydantic
           {| columns := [("n", [VStr "12"; VStr "abc"]); ("x", [VStr "1"; VStr "2"])];
              index := [0%Z; 1%Z] |}
           [("x", py_float); ("n", py_int)] "n" py_int).
  - unfold is_dict. apply (bool_decide_unpack _). vm_compute. reflexivity.
  - reflexivity.
  - left. reflexivity.
Defined.

(** ** The row validator *)

(** C5: the frame handed back is the casted frame itself, on both return
    paths; it has the row labels, the number of rows and the column labels of
    the frame that came in, however many rows fail validation.  (Nothing is
    handed back only when [create_model] refuses the fields.) *)
Theorem auto_cast_and_validate_keeps_every_row (pd : Pandas) (pyd : Pydantic)
    (df : DataFrame) (type_map : list (string * py_type)) :
  match auto_cast_and_validate pd pyd df type_map with
  | inr (returned, _, _) =>
      returned = fst (cast_loop pd df type_map df [])
      /\ index returned = index df
      /\ df_len returned = df_len df
      /\ df_columns returned = df_columns df
      /\ length (df_rows returned) = length (df_rows df)
  | inl e => create_model pyd (model_fields type_map df) = Some e
  end.
Proof.
  assert (index (fst (cast_loop pd df type_map df [])) = index df) as Hidx
    by apply cast_loop_index.
  assert (let returned := fst (cast_loop pd df type_map df []) in
          returned = fst (cast_loop pd df type_map df [])
          /\ index returned = index df
          /\ df_len returned = df_len df
          /\ df_columns returned = df_columns df
          /\ length (df_rows returned) = length (df_rows df)) as Hall.
  { cbv zeta. repeat split.
    - exact Hidx.
    - unfold df_len. rewrite Hidx. reflexivity.
    - apply cast_loop_columns.
    - unfold df_rows, df_len. rewrite !length_map, !length_seq, Hidx. reflexivity. }
  outcome; exact Hall.
Qed.

Lemma handle_row_entry (idx : Z) (r : exn + unit) (validation_errors : list row_error) :
  handle_row idx r validation_errors = (validation_errors ++ row_entry idx r)%list.
Proof.
  destruct r as [[errs|m|cls m]|[]]; simpl; rewrite ?app_nil_r; reflexivity.
Qed.

Lemma validate_rows_entries (pyd : Pydantic) (values : dtype) (casted_df : DataFrame)
    (pydantic_fields : list (string * field_def)) (labels : list Z) (i : nat)
    (validation_errors : list row_error) :
  validate_rows pyd values casted_df pydantic_fields labels i validation_errors
  = (validation_errors
     ++ flat_map (fun '(idx, j) =>
                    row_entry idx (check_row pyd values pydantic_fields
                                     (iterrows_at values casted_df j)))
                 (combine labels (seq i (length labels))))%list.
Proof.
  revert i validation_errors.
  induction labels as [|idx labels IH]; intros i acc; simpl.
  - rewrite app_nil_r. reflexivity.
  - rewrite IH, handle_row_entry, <- app_assoc. reflexivity.
Qed.

Lemma check_row_no_fields (pyd : Pydantic) (values : dtype) (row : list (string * value)) :
  check_row pyd values [] row = inr tt.
Proof. reflexivity. Qed.

Lemma no_fields_no_entries (pyd : Pydantic) (values : dtype)
    (rows : nat -> list (string * value)) (l : list (Z * nat)) :
  flat_map (fun '(idx, i) => row_entry idx (check_row pyd values [] (rows i))) l = [].
Proof. induction l as [|[idx i] l IH]; simpl; [reflexivity|exact IH]. Qed.

Lemma In_combine_seq {A} (l : list A) (start i : nat) (x : A) :
  l !! i = Some x -> In (x, (start + i)%nat) (combine l (seq start (length l))).
Proof.
  revert start i. induction l as [|y l IH]; intros start [|i] Hx; simpl in *; try discriminate.
  - injection Hx as ->. left. rewrite Nat.add_0_r. reflexivity.
  - right. rewrite <- Nat.add_succ_comm. apply IH. exact Hx.
Qed.

(** C6: whatever happens while one row is checked ends up as data.  The rows
    checked are the rows of the batch that came in, as the caster left them,
    each under its own label and in order.  The list of row errors holds
    nothing for a row that passes, the field errors of a row pydantic refuses,
    and for a row whose check raised anything else one entry with the generic
    diagnostic (location [unknown], type [runtime_error], the exception's
    text); every row is checked, whatever happened to the rows before it.  An
    exception leaves the function only from [create_model], before the first
    row is looked at. *)
Theorem auto_cast_and_validate_collects_row_failures (pd : Pandas) (pyd : Pydantic)
    (df : DataFrame) (type_map : list (string * py_type)) :
  let casted_df := fst (cast_loop pd df type_map df []) in
  let pydantic_fields := model_fields type_map df in
  let values := values_dtype pd casted_df in
  let check i := check_row pyd values pydantic_fields (iterrows_at values casted_df i) in
  match auto_cast_and_validate pd pyd df type_map with
  | inr (returned, _, validation_errors) =>
      returned = casted_df
      /\ index returned = index df
      /\ validation_errors
         = flat_map (fun '(idx, i) =>
                       match check i with
                       | inr _ => []
                       | inl (ValidationError errs) =>
                           [{| ve_index := idx; ve_errors := errs |}]
                       | inl e =>
                           [{| ve_index := idx;
                               ve_errors := [{| loc := "unknown"; msg := exn_str e;
                                                type := "runtime_error" |}] |}]
                       end)
                    (combine (index df) (seq 0 (df_len df)))
      /\ (forall (i : nat) (idx : Z) (e : exn),
            index df !! i = Some idx ->
            check i = inl e ->
            (forall errs, e <> ValidationError errs) ->
            {| ve_index := idx;
               ve_errors := [{| loc := "unknown"; msg := exn_str e;
                                type := "runtime_error" |}] |} ∈ validation_errors)
  | inl e => create_model pyd pydantic_fields = Some e
  end.
Proof.
  cbv zeta. set (casted := fst (cast_loop pd df type_map df [])).
  set (values := values_dtype pd casted).
  assert (index casted = index df) as Hidx by apply cast_loop_index.
  set (entries := flat_map
                    (fun '(idx, i) =>
                       row_entry idx (check_row pyd values (model_fields type_map df)
                                        (iterrows_at values casted i)))
                    (combine (index df) (seq 0 (df_len df)))).
  assert (forall (i : nat) (idx : Z) (e : exn),
            index df !! i = Some idx ->
            check_row pyd values (model_fields type_map df) (iterrows_at values casted i)
            = inl e ->
            (forall errs, e <> ValidationError errs) ->
            {| ve_index := idx;
               ve_errors := [{| loc := "unknown"; msg := exn_str e;
                                type := "runtime_error" |}] |} ∈ entries) as Hgeneric.
  { intros i idx e Hi He Hnot. apply list_elem_of_In. unfold entries.
    apply in_flat_map. exists (idx, i). split.
    - apply (In_combine_seq (index df) 0 i idx Hi).
    - rewrite He. destruct e as [errs|m|cls m]; simpl; [|left; reflexivity..].
      exfalso. exact (Hnot errs eq_refl). }
  outcome.
  - assert (entries = []) as Hnone.
    { unfold entries. clear Hgeneric entries.
      destruct (model_fields type_map df); [|discriminate].
      apply (no_fields_no_entries pyd values (iterrows_at values casted)). }
    split; [reflexivity|]. split; [exact Hidx|]. split; [symmetry; exact Hnone|].
    intros i idx e Hi He Hnot. rewrite <- Hnone. exact (Hgeneric i idx e Hi He Hnot).
  - rewrite validate_rows_entries. cbn [app].
    split; [reflexivity|]. split; [exact Hidx|]. split; [reflexivity|exact Hgeneric].
Qed.

(** *** Dictionaries built by assignment *)

Lemma name_in_elem_of (k : string) (l : list string) : name_in k l = true <-> k ∈ l.
Proof.
  unfold name_in. induction l as [|x l IH]; simpl.
  - split; [discriminate|]. intros H. inversion H.
  - rewrite orb_true_iff, IH, String.eqb_eq, elem_of_cons. reflexivity.
Qed.

Lemma dict_get_set {V} (d : list (string * V)) (k k' : string) (v : V) :
  dict_get (dict_set d k v) k' = if String.eqb k k' then Some v else dict_get d k'.
Proof.
  induction d as [|[x w] d IH]; simpl.
  - reflexivity.
  - destruct (String.eqb_spec x k) as [->|Hxk]; simpl.
    + destruct (String.eqb k k'); reflexivity.
    + rewrite IH. destruct (String.eqb_spec x k') as [->|Hxk'].
      * destruct (String.eqb_spec k k'); [congruence|reflexivity].
      * reflexivity.
Qed.

Lemma dict_keys_set {V} (d : list (string * V)) (k : string) (v : V) :
  dict_keys (dict_set d k v)
  = if name_in k (dict_keys d) then dict_keys d else (dict_keys d ++ [k])%list.
Proof.
  unfold name_in, dict_keys. induction d as [|[x w] d IH]; simpl.
  - reflexivity.
  - rewrite (String.eqb_sym k x).
    destruct (String.eqb x k); simpl; [reflexivity|].
    rewrite IH. destruct (existsb _ _); reflexivity.
Qed.

Lemma is_dict_set {V} (d : list (string * V)) (k : string) (v : V) :
  is_dict d -> is_dict (dict_set d k v).
Proof.
  unfold is_dict. intros Hd. rewrite dict_keys_set.
  destruct (name_in k (dict_keys d)) eqn:E; [exact Hd|].
  apply NoDup_app. split; [exact Hd|]. split.
  - intros x Hx Hx'. apply list_elem_of_singleton in Hx'. subst.
    apply name_in_elem_of in Hx. congruence.
  - apply NoDup_singleton.
Qed.

Lemma dict_get_is_Some_keys {V} (d : list (string * V)) (k : string) (v : V) :
  dict_get d k = Some v -> k ∈ dict_keys d.
Proof.
  intros H. apply dict_get_elem_of in H.
  apply (list_elem_of_fmap_2 fst) in H. exact H.
Qed.

Lemma dict_get_filter {V} (p : string -> bool) (d : list (string * V)) (k : string) :
  dict_get (List.filter (fun kv => p (fst kv)) d) k
  = if p k then dict_get d k else None.
Proof.
  induction d as [|[x w] d IH]; simpl.
  - destruct (p k); reflexivity.
  - destruct (p x) eqn:Hpx; simpl.
    + destruct (String.eqb_spec x k) as [->|Hne].
      * rewrite Hpx. reflexivity.
      * exact IH.
    + destruct (String.eqb_spec x k) as [->|Hne].
      * rewrite Hpx in IH |- *. exact IH.
      * exact IH.
Qed.

(** *** The model's fields *)

Lemma fields_of_type_map_get (items : list (string * py_type)) (cols : list string)
    (acc : list (string * field_def)) (name : string) :
  is_dict items ->
  dict_get (fields_of_type_map items cols acc) name
  = match dict_get items name with
    | Some v => if name_in name cols then Some (v, field_default v) else dict_get acc name
    | None => dict_get acc name
    end.
Proof.
  unfold is_dict. revert acc. induction items as [|[k v] items IH]; intros acc Hd; simpl.
  - reflexivity.
  - apply NoDup_cons in Hd as [Hk Hd].
    destruct (String.eqb_spec k name) as [->|Hne].
    + rewrite (dict_get_not_in items name Hk) in IH.
      destruct (name_in name cols) eqn:Hin; rewrite IH by exact Hd.
      * rewrite dict_get_set, String.eqb_refl. unfold field_default.
        destruct (negb _); reflexivity.
      * reflexivity.
    + destruct (name_in k cols); rewrite IH by exact Hd; [|reflexivity].
      rewrite dict_get_set. destruct (String.eqb_spec k name); [contradiction|].
      reflexivity.
Qed.

Lemma fields_of_type_map_is_dict (items : list (string * py_type)) (cols : list string)
    (acc : list (string * field_def)) :
  is_dict acc -> is_dict (fields_of_type_map items cols acc).
Proof.
  revert acc. induction items as [|[k v] items IH]; intros acc Hacc; simpl; [exact Hacc|].
  destruct (name_in k cols); [|auto]. apply IH, is_dict_set, Hacc.
Qed.

Lemma fields_of_columns_get (cols : list string) (acc : list (string * field_def))
    (name : string) :
  dict_get (fields_of_columns cols acc) name
  = match dict_get acc name with
    | Some f => Some f
    | None => if name_in name cols then Some (py_str, VNone) else None
    end.
Proof.
  revert acc. induction cols as [|c cols IH]; intros acc; simpl.
  - destruct (dict_get acc name); reflexivity.
  - unfold dict_mem. destruct (dict_get acc c) as [f|] eqn:Hc; simpl.
    + rewrite IH. destruct (dict_get acc name) eqn:Hn; [reflexivity|].
      destruct (String.eqb_spec name c) as [->|Hne]; [congruence|]. reflexivity.
    + rewrite IH, dict_get_set. rewrite (String.eqb_sym name c).
      destruct (String.eqb_spec c name) as [->|Hne].
      * rewrite Hc. reflexivity.
      * reflexivity.
Qed.

Lemma fields_of_columns_is_dict (cols : list string) (acc : list (string * field_def)) :
  is_dict acc -> is_dict (fields_of_columns cols acc).
Proof.
  revert acc. induction cols as [|c cols IH]; intros acc Hacc; simpl; [exact Hacc|].
  destruct (negb _); [|auto]. apply IH, is_dict_set, Hacc.
Qed.

Lemma model_fields_is_dict (type_map : list (string * py_type)) (casted_df : DataFrame) :
  is_dict (model_fields type_map casted_df).
Proof.
  unfold model_fields. apply fields_of_columns_is_dict, fields_of_type_map_is_dict.
  unfold is_dict. simpl. apply NoDup_nil_2.
Qed.

Lemma model_fields_get (type_map : list (string * py_type)) (casted_df : DataFrame)
    (name : string) :
  is_dict type_map ->
  dict_get (model_fields type_map casted_df) name
  = if name_in name (df_columns casted_df)
    then Some (field_type type_map name, field_default (field_type type_map name))
    else None.
Proof.
  intros Hd. unfold model_fields, field_type.
  rewrite fields_of_columns_get, fields_of_type_map_get by exact Hd. simpl.
  destruct (dict_get type_map name) as [v|]; destruct (name_in _ _); reflexivity.
Qed.

(** *** One row against the model *)

Lemma row_at_keys (df : DataFrame) (i : nat) : dict_keys (row_at df i) = df_columns df.
Proof.
  unfold dict_keys, row_at, df_columns. rewrite map_map. reflexivity.
Qed.

Lemma iterrows_at_keys (values : dtype) (df : DataFrame) (i : nat) :
  dict_keys (iterrows_at values df i) = df_columns df.
Proof.
  unfold dict_keys, iterrows_at. rewrite map_map. apply row_at_keys.
Qed.

Lemma iterrows_at_get (values : dtype) (df : DataFrame) (i : nat) (name : string) :
  dict_get (iterrows_at values df i) name
  = option_map (fun cells => iterrows_cell values (nth i cells VNone))
               (dict_get (columns df) name).
Proof.
  unfold iterrows_at, row_at. rewrite map_map.
  induction (columns df) as [|[k cells] cols IH]; simpl; [reflexivity|].
  destruct (String.eqb k name); [reflexivity|exact IH].
Qed.

Lemma row_to_dict_get (values : dtype) (row acc : list (string * value)) (name : string) :
  is_dict row ->
  dict_get (row_to_dict values row acc) name
  = match dict_get row name with
    | Some v => Some (where_notnull values v)
    | None => dict_get acc name
    end.
Proof.
  unfold is_dict. revert acc. induction row as [|[k v] row IH]; intros acc Hd; simpl.
  - reflexivity.
  - apply NoDup_cons in Hd as [Hk Hd]. rewrite IH by exact Hd.
    rewrite dict_get_set.
    destruct (String.eqb_spec k name) as [->|Hne].
    + rewrite (dict_get_not_in row name Hk). reflexivity.
    + reflexivity.
Qed.

(** The keyword a field of the model receives from the row at position [i]. *)
Lemma row_keyword (values : dtype) (type_map : list (string * py_type))
    (casted_df : DataFrame) (i : nat) (name : string) (cells : list value) :
  is_dict type_map ->
  NoDup (df_columns casted_df) ->
  dict_get (columns casted_df) name = Some cells ->
  dict_get (filter_row (model_fields type_map casted_df)
              (row_to_dict values (iterrows_at values casted_df i) [])) name
  = Some (keyword_of values (nth i cells VNone)).
Proof.
  intros Hd Hcols Hget. unfold filter_row.
  rewrite (dict_get_filter (dict_mem (model_fields type_map casted_df))).
  unfold dict_mem. rewrite model_fields_get by exact Hd.
  assert (name_in name (df_columns casted_df) = true) as ->.
  { apply name_in_elem_of. apply (dict_get_is_Some_keys _ _ _ Hget). }
  rewrite row_to_dict_get by (unfold is_dict; rewrite iterrows_at_keys; exact Hcols).
  rewrite iterrows_at_get, Hget. reflexivity.
Qed.

Lemma check_fields_all_ok (pyd : Pydantic) (fields : list (string * field_def))
    (kwargs : list (string * value)) (found : list error_detail) :
  (forall name ty dflt, (name, (ty, dflt)) ∈ fields ->
     validate_field pyd ty (default dflt (dict_get kwargs name)) = field_ok) ->
  check_fields pyd fields kwargs found
  = match found with [] => inr tt | _ => inl (ValidationError found) end.
Proof.
  intros Hok. induction fields as [|[name [ty dflt]] fields IH]; simpl.
  - reflexivity.
  - rewrite (Hok name ty dflt) by left. apply IH.
    intros n t d Hin. apply Hok. right. exact Hin.
Qed.

Lemma check_fields_one_refused (pyd : Pydantic) (fields : list (string * field_def))
    (kwargs : list (string * value)) (found : list error_detail)
    (col : string) (ty0 : py_type) (dflt0 : value) (m t : string) :
  is_dict fields ->
  (col, (ty0, dflt0)) ∈ fields ->
  validate_field pyd ty0 (default dflt0 (dict_get kwargs col)) = field_invalid m t ->
  (forall name ty dflt, (name, (ty, dflt)) ∈ fields -> name <> col ->
     validate_field pyd ty (default dflt (dict_get kwargs name)) = field_ok) ->
  check_fields pyd fields kwargs found
  = inl (ValidationError (found ++ [{| loc := col; msg := m; type := t |}])).
Proof.
  unfold is_dict. revert found.
  induction fields as [|[name [ty dflt]] fields IH]; intros found Hd Hin Hbad Hok.
  - inversion Hin.
  - simpl in Hd. apply NoDup_cons in Hd as [Hname Hd]. simpl.
    destruct (decide (name = col)) as [->|Hne].
    + assert ((ty, dflt) = (ty0, dflt0)) as [= -> ->].
      { apply elem_of_cons in Hin as [[= <- <-]|Hin]; [reflexivity|].
        exfalso. apply Hname. apply (list_elem_of_fmap_2 fst) in Hin. exact Hin. }
      rewrite Hbad. rewrite check_fields_all_ok.
      * destruct found; reflexivity.
      * intros n t' d Hin'. apply Hok; [right; exact Hin'|].
        intros ->. apply Hname. apply (list_elem_of_fmap_2 fst) in Hin'. exact Hin'.
    + rewrite (Hok name ty dflt) by (left || exact Hne).
      apply IH; auto.
      * apply elem_of_cons in Hin as [[= -> _ _]|Hin]; [contradiction|exact Hin].
      * intros n t' d Hin'. apply Hok. right. exact Hin'.
Qed.

Lemma dict_keys_get {V} (d : list (string * V)) (k : string) :
  k ∈ dict_keys d -> exists v, dict_get d k = Some v.
Proof.
  induction d as [|[x w] d IH]; simpl; intros Hin.
  - inversion Hin.
  - destruct (String.eqb_spec x k) as [->|Hne]; [eauto|].
    apply elem_of_cons in Hin as [->|Hin]; [contradiction|auto].
Qed.

(** A field of the model belongs to a column of the frame, is checked
    against that column's type, and receives that column's cell. *)
Lemma field_keyword (values : dtype) (type_map : list (string * py_type))
    (casted_df : DataFrame) (i : nat) (name : string) (ty : py_type) (dflt : value) :
  is_dict type_map ->
  NoDup (df_columns casted_df) ->
  (name, (ty, dflt)) ∈ model_fields type_map casted_df ->
  exists cells,
    dict_get (columns casted_df) name = Some cells
    /\ ty = field_type type_map name
    /\ default dflt
         (dict_get (filter_row (model_fields type_map casted_df)
                      (row_to_dict values (iterrows_at values casted_df i) [])) name)
       = keyword_of values (nth i cells VNone).
Proof.
  intros Hd Hcols Hin.
  apply (is_dict_elem_of_get _ _ _ (model_fields_is_dict _ _)) in Hin.
  rewrite model_fields_get in Hin by exact Hd.
  destruct (name_in name (df_columns casted_df)) eqn:Hname; [|discriminate].
  injection Hin as <- <-.
  apply name_in_elem_of, dict_keys_get in Hname as [cells Hcells].
  exists cells. split; [exact Hcells|]. split; [reflexivity|].
  rewrite (row_keyword _ _ _ _ _ cells) by assumption. reflexivity.
Qed.

(** C4, on the path the claim describes and on the path that misses it.  In
    the frame with a text column beside the amounts the rows are object rows:
    the [nan] of the row at index 2 reaches the validator as [None], and the
    one row error the claim announces is reported.  In the frame holding the
    amounts alone the rows are float rows: the casted frame has its five rows
    and the cell is [nan] just the same, but [nan] is what the validator is
    handed, a float field accepts it, and no row error is reported. *)
Theorem unparseable_float_cell_goes_unreported_among_numbers :
  auto_cast_and_validate samples.pandas samples.pydantic samples.five_rows
    [("amount", py_float); ("name", py_str)]
  = inr ({| columns := [("amount", [VFloat (inject_Z 10); VFloat (inject_Z 20); VNaN;
                                    VFloat (inject_Z 40); VFloat (inject_Z 50)]);
                        ("name", [VStr "a"; VStr "b"; VStr "c"; VStr "d"; VStr "e"])];
            index := [0; 1; 2; 3; 4]%Z |},
         [],
         [{| ve_index := 2;
             ve_errors := [{| loc := "amount"; msg := "Input should be a valid number";
                              type := "float_type" |}] |}])
  /\ auto_cast_and_validate samples.pandas samples.pydantic samples.five_amounts
       [("amount", py_float)]
     = inr ({| columns := [("amount", [VFloat (inject_Z 10); VFloat (inject_Z 20); VNaN;
                                       VFloat (inject_Z 40); VFloat (inject_Z 50)])];
               index := [0; 1; 2; 3; 4]%Z |},
            [],
            []).
Proof. split; vm_compute; reflexivity. Qed.

(** ** What the comparator does decide *)

Lemma column_compatible_iff (a b : sql_types.type_class) :
  column_compatible a b = true <-> same_class_or_category a b.
Proof.
  unfold column_compatible, same_class_or_category, category_bases.
  destruct (sql_types.type_class_beq a b) eqn:E.
  - apply sql_types.internal_type_class_dec_bl in E. tauto.
  - cbv zeta. rewrite !orb_true_iff, !andb_true_iff. split.
    + intros [[[H|H]|H]|H]; right;
        [exists sql_types.String | exists sql_types.Numeric
        | exists sql_types.DateTime | exists sql_types.Boolean];
        (split; [apply list_elem_of_In; simpl; tauto|exact H]).
    + intros [->|(base & Hbase & Ha & Hb)].
      * rewrite type_class_beq_refl in E. discriminate.
      * repeat (apply elem_of_cons in Hbase as [->|Hbase]; [tauto|]).
        inversion Hbase.
Qed.

Lemma pairwise_compatible_iff (P Q : schema_map) :
  dict_keys P = dict_keys Q ->
  pairwise_compatible P Q = true
  <-> Forall2 (fun p q => fst p = fst q /\ same_class_or_category (snd p) (snd q)) P Q.
Proof.
  revert Q. induction P as [|[k a] P IH]; intros [|[c b] Q]; simpl; try discriminate.
  - intros _. split; [constructor|reflexivity].
  - intros [= -> Hkeys]. rewrite andb_true_iff, column_compatible_iff, (IH Q Hkeys).
    split.
    + intros [Hab HPQ]. constructor; [split; [reflexivity|exact Hab]|exact HPQ].
    + intros H. inversion H as [|p q P' Q' [_ Hab] HPQ]; subst. split; assumption.
Qed.

Lemma Forall2_same_names (P Q : schema_map) :
  Forall2 (fun p q => fst p = fst q /\ same_class_or_category (snd p) (snd q)) P Q ->
  dict_keys P = dict_keys Q.
Proof.
  unfold dict_keys. induction 1 as [|p q P' Q' [Hpq _] _ IH]; simpl; [reflexivity|].
  rewrite Hpq, IH. reflexivity.
Qed.

(** X1: the comparator, spelled out: two schemas are compatible exactly when they
    list the same names in the same order and, column by column, the classes
    are equal or both derive from one of [String], [Numeric], [DateTime] and
    [Boolean]. *)
Theorem are_schemas_compatible_iff (P Q : schema_map) :
  is_dict P ->
  are_schemas_compatible P Q = true
  <-> Forall2 (fun p q => fst p = fst q /\ same_class_or_category (snd p) (snd q)) P Q.
Proof.
  intros HP. destruct (decide (dict_keys P = dict_keys Q)) as [Hkeys|Hkeys].
  - rewrite are_schemas_compatible_pairwise by assumption.
    apply pairwise_compatible_iff, Hkeys.
  - assert (names_eqb (dict_keys P) (dict_keys Q) = false) as E.
    { destruct (names_eqb _ _) eqn:E; [|reflexivity].
      apply names_eqb_eq in E. contradiction. }
    rewrite (are_schemas_compatible_names_differ_aux P Q E).
    split; [discriminate|]. intros H. exfalso. apply Hkeys.
    apply (Forall2_same_names _ _ H).
Qed.

Lemma are_schemas_compatible_iff_witness :
  are_schemas_compatible
    [("name", sql_types.VARCHAR); ("price", sql_types.NUMERIC)]
    [("name", sql_types.String); ("price", sql_types.Float)] = true.
Proof.
  apply are_schemas_compatible_iff.
  - unfold is_dict. apply (bool_decide_unpack _). vm_compute. reflexivity.
  - constructor; [|constructor; [|constructor]]; (split; [reflexivity|right]).
    + exists sql_types.String.
      split; [apply list_elem_of_In; simpl; tauto|split; reflexivity].
    + exists sql_types.Numeric.
      split; [apply list_elem_of_In; simpl; tauto|split; reflexivity].
Defined.

(** X2: a schema is compatible with itself. *)
Theorem are_schemas_compatible_refl (P : schema_map) :
  is_dict P -> are_schemas_compatible P P = true.
Proof.
  intros HP. rewrite are_schemas_compatible_pairwise by auto.
  clear HP. induction P as [|[k a] P IH]; simpl; [reflexivity|].
  rewrite IH, andb_true_r. unfold column_compatible.
  rewrite type_class_beq_refl. reflexivity.
Qed.

Lemma are_schemas_compatible_refl_witness :
  are_schemas_compatible
    [("id", sql_types.INTEGER); ("day", sql_types.DATE)]
    [("id", sql_types.INTEGER); ("day", sql_types.DATE)] = true.
Proof.
  apply are_schemas_compatible_refl.
  unfold is_dict. apply (bool_decide_unpack _). vm_compute. reflexivity.
Defined.

(** The loader against a table it created itself: the first call creates
    [clean_data] with an [int] column, the second call, with the same type
    map, finds [INTEGER] in the catalog where it expects [Integer] and writes
    to a new versioned table instead of appending. *)
Lemma load_same_integer_schema_twice :
  let s0 := {| tables := ∅; calls := [] |} in
  let first := load_to_postgres samples.postgres samples.one_o_clock
                 samples.one_row [("id", py_int)] "clean_data" s0 in
  let second := load_to_postgres samples.postgres samples.half_past_one
                  samples.one_row [("id", py_int)] "clean_data" (snd first) in
  fst first = inr (Processed "clean_data")
  /\ fst second = inr (Processed "clean_data_20251102013000000042").
Proof. vm_compute. split; reflexivity. Qed.

(** ** The loader, path by path *)

Lemma df_empty_columns (df : DataFrame) :
  df_empty df || (length (df_columns df) =? 0)%nat = df_empty df.
Proof.
  unfold df_empty, df_columns. rewrite length_map.
  destruct (df_len df =? 0)%nat, (length (columns df) =? 0)%nat; reflexivity.
Qed.

(** The loader does what its flat layout says, on every path. *)
Lemma load_to_postgres_plan (engine : Engine) (now : datetime)
    (df : DataFrame) (type_map : list (string * py_type)) (base_table_name : string)
    (s : db_state) :
  load_to_postgres engine now df type_map base_table_name s
  = load_plan engine now df type_map base_table_name s.
Proof.
  unfold load_plan, load_to_postgres. rewrite df_empty_columns.
  destruct (df_empty df); [reflexivity|].
  unfold try_finally, try_except_reraise, get_db_table_schema_map,
    to_sql, has_table, get_columns, dispose, call, record_call, bind, ret, raise,
    write_target, written_table, logged.
  destruct (raises engine (has_table_call base_table_name)) as [e|] eqn:Hprobe;
    [cbn; rewrite <- !app_assoc; reflexivity|].
  destruct (tables s !! base_table_name) as [t|] eqn:Ht.
  - destruct (raises engine (get_columns_call base_table_name)) as [e|] eqn:Hfetch;
      [repeat first [rewrite Hprobe | rewrite Ht | rewrite Hfetch | progress cbn];
       rewrite <- !app_assoc; reflexivity|].
    destruct (is_empty_map (db_schema_map_of [] (tbl_columns t))) eqn:Hempty;
      [|destruct (are_schemas_compatible (db_schema_map_of [] (tbl_columns t))
                   (get_sqlalchemy_schema_map type_map (df_columns df))) eqn:Hcompat].
    + destruct (raises engine (to_sql_call (versioned_name base_table_name now) fail_))
        as [e|] eqn:Hwrite;
        [|destruct (tables s !! versioned_name base_table_name now) eqn:Hvn];
        repeat first [rewrite Hprobe | rewrite Ht | rewrite Hfetch | rewrite Hempty
                     | rewrite Hwrite | rewrite Hvn | progress cbn];
        rewrite <- ?app_assoc; reflexivity.
    + destruct (raises engine (to_sql_call base_table_name append)) as [e|] eqn:Hwrite;
        repeat first [rewrite Hprobe | rewrite Ht | rewrite Hfetch | rewrite Hempty
                     | rewrite Hcompat | rewrite Hwrite | progress cbn];
        rewrite <- ?app_assoc; reflexivity.
    + destruct (raises engine (to_sql_call (versioned_name base_table_name now) fail_))
        as [e|] eqn:Hwrite;
        [|destruct (tables s !! versioned_name base_table_name now) eqn:Hvn];
        repeat first [rewrite Hprobe | rewrite Ht | rewrite Hfetch | rewrite Hempty
                     | rewrite Hcompat | rewrite Hwrite | rewrite Hvn | progress cbn];
        rewrite <- ?app_assoc; reflexivity.
  - destruct (raises engine (to_sql_call base_table_name fail_)) as [e|] eqn:Hwrite;
      repeat first [rewrite Hprobe | rewrite Ht | rewrite Hwrite | progress cbn];
      rewrite <- ?app_assoc; reflexivity.
Qed.

(** ** The target schema *)

Lemma dict_set_fresh {V} (d : list (string * V)) (k : string) (v : V) :
  k ∉ dict_keys d -> dict_set d k v = (d ++ [(k, v)])%list.
Proof.
  induction d as [|[x w] d IH]; simpl; [reflexivity|].
  intros Hk. apply not_elem_of_cons in Hk as [Hne Hk].
  destruct (String.eqb_spec x k); [congruence|]. rewrite IH by exact Hk. reflexivity.
Qed.

Lemma get_sqlalchemy_schema_map_from_step (acc : schema_map)
    (type_map : list (string * py_type)) (col : string) (rest : list string) :
  get_sqlalchemy_schema_map_from acc type_map (col :: rest)
  = get_sqlalchemy_schema_map_from (dict_set acc col (column_class type_map col))
      type_map rest.
Proof.
  simpl. unfold column_class.
  destruct (PYTHON_TO_SQLALCHEMY_TYPE_MAP (dict_get type_map col)); reflexivity.
Qed.

Lemma get_sqlalchemy_schema_map_from_get (acc : schema_map)
    (type_map : list (string * py_type)) (cols : list string) (col : string) :
  dict_get (get_sqlalchemy_schema_map_from acc type_map cols) col
  = if name_in col cols then Some (column_class type_map col) else dict_get acc col.
Proof.
  revert acc. induction cols as [|c cols IH]; intros acc; [reflexivity|].
  rewrite get_sqlalchemy_schema_map_from_step, IH, dict_get_set.
  unfold name_in. simpl. rewrite (String.eqb_sym col c).
  destruct (existsb (String.eqb col) cols) eqn:E.
  - rewrite orb_true_r. reflexivity.
  - rewrite orb_false_r. destruct (String.eqb_spec c col) as [->|]; reflexivity.
Qed.

Lemma get_sqlalchemy_schema_map_from_is_dict (acc : schema_map)
    (type_map : list (string * py_type)) (cols : list string) :
  is_dict acc -> is_dict (get_sqlalchemy_schema_map_from acc type_map cols).
Proof.
  revert acc. induction cols as [|c cols IH]; intros acc Hacc; [exact Hacc|].
  rewrite get_sqlalchemy_schema_map_from_step. apply IH, is_dict_set, Hacc.
Qed.

Lemma get_sqlalchemy_schema_map_from_list (acc : schema_map)
    (type_map : list (string * py_type)) (cols : list string) :
  NoDup (dict_keys acc ++ cols) ->
  get_sqlalchemy_schema_map_from acc type_map cols
  = (acc ++ map (fun col => (col, column_class type_map col)) cols)%list.
Proof.
  revert acc. induction cols as [|c cols IH]; intros acc Hnd.
  - simpl. rewrite app_nil_r. reflexivity.
  - rewrite get_sqlalchemy_schema_map_from_step.
    assert (c ∉ dict_keys acc) as Hc.
    { apply NoDup_app in Hnd as (_ & Hdisj & _). intros Hin.
      apply (Hdisj c Hin). left. }
    rewrite dict_set_fresh by exact Hc. rewrite IH.
    + rewrite <- app_assoc. reflexivity.
    + unfold dict_keys. rewrite map_app. simpl. rewrite <- app_assoc. exact Hnd.
Qed.

(** X3: the schema derived for a frame is a dictionary that has an entry for
    exactly the columns of the frame; the entry is the class the declared type
    maps to, and [String] for a column the type map does not declare or
    declares with a type outside the table. *)
Theorem get_sqlalchemy_schema_map_lookup (type_map : list (string * py_type))
    (df_columns : list string) (col : string) :
  is_dict (get_sqlalchemy_schema_map type_map df_columns)
  /\ dict_get (get_sqlalchemy_schema_map type_map df_columns) col
     = if name_in col df_columns
       then Some (default sql_types.String
                    (PYTHON_TO_SQLALCHEMY_TYPE_MAP (dict_get type_map col)))
       else None.
Proof.
  split.
  - apply get_sqlalchemy_schema_map_from_is_dict. unfold is_dict. simpl. apply NoDup_nil_2.
  - unfold get_sqlalchemy_schema_map. rewrite get_sqlalchemy_schema_map_from_get.
    reflexivity.
Qed.

(** X4: for a frame whose column labels are distinct, the derived schema
    lists the frame's columns in the frame's order, each with its class. *)
Theorem get_sqlalchemy_schema_map_order (type_map : list (string * py_type))
    (df_columns : list string) :
  NoDup df_columns ->
  get_sqlalchemy_schema_map type_map df_columns
  = map (fun col => (col, column_class type_map col)) df_columns
  /\ dict_keys (get_sqlalchemy_schema_map type_map df_columns) = df_columns.
Proof.
  intros Hnd. unfold get_sqlalchemy_schema_map.
  rewrite get_sqlalchemy_schema_map_from_list by exact Hnd. simpl. split; [reflexivity|].
  unfold dict_keys. rewrite map_map. simpl. apply map_id.
Qed.

Lemma get_sqlalchemy_schema_map_order_witness :
  get_sqlalchemy_schema_map [("name", py_str); ("id", py_int)] ["id"; "name"; "note"]
  = [("id", sql_types.Integer); ("name", sql_types.String); ("note", sql_types.String)].
Proof.
  apply get_sqlalchemy_schema_map_order.
  apply (bool_decide_unpack _). vm_compute. reflexivity.
Defined.

(** ** What every call of the loader does *)

(** Splits a goal about [load_plan] into its paths. *)
Ltac plan_paths :=
  unfold load_plan, logged;
  repeat match goal with
         | |- context [match ?x with _ => _ end] => destruct x eqn:?
         | |- context [if ?x then _ else _] => destruct x eqn:?
         end;
  cbn [fst snd tables calls].

Lemma load_plan_calls (engine : Engine) (now : datetime)
    (df : DataFrame) (type_map : list (string * py_type)) (base_table_name : string)
    (s : db_state) :
  exists l,
    calls (snd (load_plan engine now df type_map base_table_name s))
    = (calls s ++ l ++ [dispose_call])%list
    /\ (dispose_call ∉ l)
    /\ (length (List.filter is_write l) <= 1)%nat
    /\ (match fst (load_plan engine now df type_map base_table_name s) with
        | inr (Processed name) =>
            exists mode, List.filter is_write l = [to_sql_call name mode]
        | inr Skipped => l = []
        | inl _ => True
        end).
Proof.
  plan_paths; cbn in *; simplify_eq;
    lazymatch goal with
    | |- exists l, (?c ++ ?tail)%list = _ /\ _ => exists (removelast tail)
    end;
    cbn; (split; [reflexivity|]); (split; [|split; [lia|]]);
    try exact I; try reflexivity; try (eexists; reflexivity);
    rewrite ?list_elem_of_In; cbn; intuition discriminate.
Qed.

(** X5: on every path, failures included, the engine is disposed of exactly
    once, and that is the last thing the call does with it. *)
Theorem load_to_postgres_disposes_last (engine : Engine) (now : datetime)
    (df : DataFrame) (type_map : list (string * py_type)) (base_table_name : string)
    (s : db_state) :
  exists l,
    calls (snd (load_to_postgres engine now df type_map base_table_name s))
    = (calls s ++ l ++ [dispose_call])%list
    /\ (dispose_call ∉ l).
Proof.
  rewrite load_to_postgres_plan.
  destruct (load_plan_calls engine now df type_map base_table_name s)
    as (l & Hcalls & Hdispose & _).
  exists l. split; assumption.
Qed.

(** X6: a call writes at most once.  One that ends normally on a table has
    made exactly one [to_sql] call, on the table it names; one that skips an
    empty frame has called nothing but [dispose]. *)
Theorem load_to_postgres_writes_once (engine : Engine) (now : datetime)
    (df : DataFrame) (type_map : list (string * py_type)) (base_table_name : string)
    (s : db_state) :
  exists l,
    calls (snd (load_to_postgres engine now df type_map base_table_name s))
    = (calls s ++ l ++ [dispose_call])%list
    /\ (length (List.filter is_write l) <= 1)%nat
    /\ (forall name,
          fst (load_to_postgres engine now df type_map base_table_name s)
          = inr (Processed name) ->
          exists mode, List.filter is_write l = [to_sql_call name mode])
    /\ (fst (load_to_postgres engine now df type_map base_table_name s) = inr Skipped ->
        l = []).
Proof.
  rewrite load_to_postgres_plan.
  destruct (load_plan_calls engine now df type_map base_table_name s)
    as (l & Hcalls & _ & Hone & Hresult).
  exists l. repeat split; try assumption.
  - intros name Hname. rewrite Hname in Hresult. exact Hresult.
  - intros Hskip. rewrite Hskip in Hresult. exact Hresult.
Qed.

Lemma write_target_name (base_table_name : string) (now : datetime)
    (found : option table) (current : schema_map) :
  fst (write_target base_table_name now found current) = base_table_name
  \/ fst (write_target base_table_name now found current)
     = versioned_name base_table_name now.
Proof.
  unfold write_target. destruct found as [t|]; [|auto].
  destruct (is_empty_map _); [auto|]. destruct (are_schemas_compatible _ _); auto.
Qed.

(** X7: a call leaves every table alone except the two it can write to, the
    base table and the versioned table of its clock reading. *)
Theorem load_to_postgres_other_tables (engine : Engine) (now : datetime)
    (df : DataFrame) (type_map : list (string * py_type)) (base_table_name : string)
    (s : db_state) (other : string) :
  other <> base_table_name ->
  other <> versioned_name base_table_name now ->
  tables (snd (load_to_postgres engine now df type_map base_table_name s)) !! other
  = tables s !! other.
Proof.
  intros Hbase Hversioned. rewrite load_to_postgres_plan.
  plan_paths; try reflexivity;
    match goal with
    | H : write_target _ _ ?found ?cur = (?name, _) |- _ =>
        pose proof (write_target_name base_table_name now found cur) as Hname;
        rewrite H in Hname; cbn in Hname
    end;
    apply lookup_insert_ne; intros ->; destruct Hname; congruence.
Qed.

Lemma load_to_postgres_other_tables_witness :
  tables (snd (load_to_postgres samples.postgres samples.half_past_one samples.one_row
                 [("id", py_int)] "clean_data"
                 (samples.store_with "archive"
                    {| tbl_columns := [("id", sql_types.INTEGER)]; tbl_rows := [[VInt 1]] |})))
    !! "archive"
  = tables (samples.store_with "archive"
              {| tbl_columns := [("id", sql_types.INTEGER)]; tbl_rows := [[VInt 1]] |})
      !! "archive".
Proof.
  apply load_to_postgres_other_tables; vm_compute; discriminate.
Defined.

(** ** The three decisions *)

Lemma created_columns (engine : Engine) (type_map : list (string * py_type))
    (cols : list string) :
  map (fun col => (col, reflect engine
                          (default sql_types.Text
                             (dict_get (get_sqlalchemy_schema_map type_map cols) col))))
      cols
  = map (fun col => (col, reflect engine (column_class type_map col))) cols.
Proof.
  apply map_ext_in. intros col Hin.
  unfold get_sqlalchemy_schema_map. rewrite get_sqlalchemy_schema_map_from_get.
  apply list_elem_of_In, name_in_elem_of in Hin. rewrite Hin. reflexivity.
Qed.

Lemma schema_of_nonempty_frame (df : DataFrame) (type_map : list (string * py_type)) :
  df_empty df = false ->
  get_sqlalchemy_schema_map type_map (df_columns df) <> [].
Proof.
  intros Hdf Hnil.
  unfold df_empty in Hdf. apply orb_false_iff in Hdf as [_ Hcols].
  destruct (columns df) as [|[c cells] cols] eqn:E; [discriminate|].
  assert (dict_get (get_sqlalchemy_schema_map type_map (df_columns df)) c
          = Some (column_class type_map c)) as Hget.
  { unfold get_sqlalchemy_schema_map. rewrite get_sqlalchemy_schema_map_from_get.
    unfold df_columns. rewrite E. simpl. unfold name_in. simpl.
    rewrite String.eqb_refl. reflexivity. }
  rewrite Hnil in Hget. discriminate.
Qed.

(** X8: with no table under the base name and a driver that does not raise,
    a non-empty frame is written to a new table of that name: it holds the
    rows of the frame, its columns are the frame's, each with the class of
    its declared type as the catalog reports it, and the call made one probe
    and one creating write. *)
Theorem load_to_postgres_creates_missing_table (engine : Engine) (now : datetime)
    (df : DataFrame) (type_map : list (string * py_type)) (base_table_name : string)
    (s : db_state) :
  df_empty df = false ->
  tables s !! base_table_name = None ->
  (forall c, raises engine c = None) ->
  load_to_postgres engine now df type_map base_table_name s
  = (inr (Processed base_table_name),
     {| tables :=
          <[base_table_name :=
              {| tbl_columns :=
                   map (fun col => (col, reflect engine (column_class type_map col)))
                       (df_columns df);
                 tbl_rows := df_rows df |}]> (tables s);
        calls := (calls s ++ [has_table_call base_table_name;
                              to_sql_call base_table_name fail_;
                              dispose_call])%list |}).
Proof.
  intros Hdf Hnone Hdriver. rewrite load_to_postgres_plan.
  unfold load_plan, write_target, written_table.
  rewrite Hdf, !Hdriver, Hnone.
  repeat first [rewrite Hdriver | rewrite Hnone | progress cbn].
  rewrite created_columns. reflexivity.
Qed.

Lemma load_to_postgres_creates_missing_table_witness :
  fst (load_to_postgres samples.postgres samples.half_past_one samples.one_row
         [("id", py_int)] "clean_data" {| tables := ∅; calls := [] |})
  = inr (Processed "clean_data").
Proof.
  rewrite (load_to_postgres_creates_missing_table samples.postgres samples.half_past_one
             samples.one_row [("id", py_int)] "clean_data" {| tables := ∅; calls := [] |}
             eq_refl (lookup_empty _) (fun _ => eq_refl)).
  reflexivity.
Defined.

(** X9: when the base table exists and its schema is compatible with the
    frame's, the rows of the frame are appended to it: the table keeps its
    columns and its earlier rows, in order, and grows by the number of rows of
    the frame. *)
Theorem load_to_postgres_appends (engine : Engine) (now : datetime)
    (df : DataFrame) (type_map : list (string * py_type)) (base_table_name : string)
    (s : db_state) (t : table) :
  df_empty df = false ->
  tables s !! base_table_name = Some t ->
  are_schemas_compatible (db_schema_map_of [] (tbl_columns t))
    (get_sqlalchemy_schema_map type_map (df_columns df)) = true ->
  (forall c, raises engine c = None) ->
  load_to_postgres engine now df type_map base_table_name s
  = (inr (Processed base_table_name),
     {| tables :=
          <[base_table_name :=
              {| tbl_columns := tbl_columns t;
                 tbl_rows := (tbl_rows t ++ df_rows df)%list |}]> (tables s);
        calls := (calls s ++ [has_table_call base_table_name;
                              has_table_call base_table_name;
                              get_columns_call base_table_name;
                              to_sql_call base_table_name append;
                              dispose_call])%list |})
  /\ length (tbl_rows t ++ df_rows df)%list = (length (tbl_rows t) + df_len df)%nat.
Proof.
  intros Hdf Ht Hcompat Hdriver. split.
  - rewrite load_to_postgres_plan. unfold load_plan, write_target, written_table.
    rewrite Hdf, !Hdriver, Ht, Hcompat.
    assert (is_empty_map (db_schema_map_of [] (tbl_columns t)) = false) as ->.
    { destruct (db_schema_map_of [] (tbl_columns t)) eqn:E; [|reflexivity].
      exfalso. unfold are_schemas_compatible in Hcompat. simpl in Hcompat.
      pose proof (schema_of_nonempty_frame df type_map Hdf) as Hne.
      destruct (get_sqlalchemy_schema_map type_map (df_columns df)); [congruence|].
      discriminate. }
    repeat first [rewrite Hdriver | rewrite Ht | progress cbn]. reflexivity.
  - rewrite length_app. unfold df_rows. rewrite length_map, length_seq. reflexivity.
Qed.

Lemma load_to_postgres_appends_witness :
  fst (load_to_postgres samples.postgres samples.half_past_one samples.one_row
         [("id", py_float)] "clean_data"
         (samples.store_with "clean_data"
            {| tbl_columns := [("id", sql_types.DOUBLE_PRECISION)];
               tbl_rows := [[VFloat (inject_Z 1)]] |}))
  = inr (Processed "clean_data").
Proof.
  destruct (load_to_postgres_appends samples.postgres samples.half_past_one samples.one_row
              [("id", py_float)] "clean_data"
              (samples.store_with "clean_data"
                 {| tbl_columns := [("id", sql_types.DOUBLE_PRECISION)];
                    tbl_rows := [[VFloat (inject_Z 1)]] |})
              {| tbl_columns := [("id", sql_types.DOUBLE_PRECISION)];
                 tbl_rows := [[VFloat (inject_Z 1)]] |}
              eq_refl (lookup_singleton_eq _ _) eq_refl (fun _ => eq_refl)) as [Hrun _].
  rewrite Hrun. reflexivity.
Defined.

(** X10: when the base table exists with a schema that has columns and is
    not compatible with the frame's, the frame goes to a new table named
    after the clock reading, and the base table is left exactly as it was. *)
Theorem load_to_postgres_isolates_incompatible (engine : Engine) (now : datetime)
    (df : DataFrame) (type_map : list (string * py_type)) (base_table_name : string)
    (s : db_state) (t : table) :
  df_empty df = false ->
  tables s !! base_table_name = Some t ->
  are_schemas_compatible (db_schema_map_of [] (tbl_columns t))
    (get_sqlalchemy_schema_map type_map (df_columns df)) = false ->
  tables s !! versioned_name base_table_name now = None ->
  (forall c, raises engine c = None) ->
  let after := snd (load_to_postgres engine now df type_map base_table_name s) in
  fst (load_to_postgres engine now df type_map base_table_name s)
  = inr (Processed (versioned_name base_table_name now))
  /\ tables after !! base_table_name = Some t
  /\ tables after !! versioned_name base_table_name now
     = Some {| tbl_columns :=
                 map (fun col => (col, reflect engine (column_class type_map col)))
                     (df_columns df);
               tbl_rows := df_rows df |}.
Proof.
  intros Hdf Ht Hcompat Hfresh Hdriver. cbv zeta.
  rewrite load_to_postgres_plan. unfold load_plan, write_target, written_table.
  rewrite Hdf, !Hdriver, Ht, Hcompat.
  assert (versioned_name base_table_name now <> base_table_name) as Hne
    by (intros E; rewrite E in Hfresh; congruence).
  destruct (is_empty_map (db_schema_map_of [] (tbl_columns t)));
    repeat first [rewrite Hdriver | rewrite Hfresh | progress cbn]; rewrite created_columns;
    (split; [reflexivity|]); (split; [rewrite lookup_insert_ne by exact Hne; exact Ht|]);
    apply lookup_insert_eq.
Qed.

Lemma load_to_postgres_isolates_incompatible_witness :
  fst (load_to_postgres samples.postgres samples.half_past_one samples.one_row
         [("id", py_str)] "clean_data"
         (samples.store_with "clean_data"
            {| tbl_columns := [("id", sql_types.DOUBLE_PRECISION)];
               tbl_rows := [[VFloat (inject_Z 1)]] |}))
  = inr (Processed "clean_data_20251102013000000042").
Proof.
  apply (load_to_postgres_isolates_incompatible samples.postgres samples.half_past_one
           samples.one_row [("id", py_str)] "clean_data"
           (samples.store_with "clean_data"
              {| tbl_columns := [("id", sql_types.DOUBLE_PRECISION)];
                 tbl_rows := [[VFloat (inject_Z 1)]] |})
           {| tbl_columns := [("id", sql_types.DOUBLE_PRECISION)];
              tbl_rows := [[VFloat (inject_Z 1)]] |}
           eq_refl (lookup_singleton_eq _ _) eq_refl eq_refl (fun _ => eq_refl)).
Defined.

(** X11: a versioned name that is already taken is never written to.  When
    the call decides for the versioned table and a table of that name exists,
    the call raises [ValueError] and the store is as it was. *)
Theorem load_to_postgres_versioned_name_taken (engine : Engine) (now : datetime)
    (df : DataFrame) (type_map : list (string * py_type)) (base_table_name : string)
    (s : db_state) (t taken : table) :
  df_empty df = false ->
  tables s !! base_table_name = Some t ->
  are_schemas_compatible (db_schema_map_of [] (tbl_columns t))
    (get_sqlalchemy_schema_map type_map (df_columns df)) = false ->
  tables s !! versioned_name base_table_name now = Some taken ->
  (forall c, raises engine c = None) ->
  fst (load_to_postgres engine now df type_map base_table_name s)
  = inl (Exception "ValueError"
           ("Table '" ++ versioned_name base_table_name now ++ "' already exists."))
  /\ tables (snd (load_to_postgres engine now df type_map base_table_name s)) = tables s.
Proof.
  intros Hdf Ht Hcompat Htaken Hdriver.
  rewrite load_to_postgres_plan. unfold load_plan, write_target, written_table.
  rewrite Hdf, !Hdriver, Ht, Hcompat.
  destruct (is_empty_map (db_schema_map_of [] (tbl_columns t)));
    repeat first [rewrite Hdriver | rewrite Htaken | progress cbn]; split; reflexivity.
Qed.

Lemma load_to_postgres_versioned_name_taken_witness :
  let s0 := samples.store_with "clean_data"
              {| tbl_columns := [("id", sql_types.VARCHAR)]; tbl_rows := [] |} in
  let first := load_to_postgres samples.postgres samples.half_past_one samples.one_row
                 [("id", py_float)] "clean_data" s0 in
  tables (snd (load_to_postgres samples.postgres samples.half_past_one samples.one_row
                 [("id", py_float)] "clean_data" (snd first)))
  = tables (snd first).
Proof.
  cbv zeta.
  eapply (load_to_postgres_versioned_name_taken samples.postgres samples.half_past_one
            samples.one_row [("id", py_float)] "clean_data").
  - reflexivity.
  - vm_compute. reflexivity.
  - reflexivity.
  - vm_compute. reflexivity.
  - intros c. reflexivity.
Defined.

(** ** Reading the persisted schema *)

Lemma db_schema_map_of_list (acc : schema_map)
    (cols : list (string * sql_types.type_class)) :
  NoDup (dict_keys acc ++ dict_keys cols) ->
  db_schema_map_of acc cols = (acc ++ cols)%list.
Proof.
  revert acc. induction cols as [|[c ty] cols IH]; intros acc Hnd; simpl.
  - rewrite app_nil_r. reflexivity.
  - assert (c ∉ dict_keys acc) as Hc.
    { apply NoDup_app in Hnd as (_ & Hdisj & _). intros Hin.
      apply (Hdisj c Hin). left. }
    rewrite dict_set_fresh by exact Hc. rewrite IH.
    + rewrite <- app_assoc. reflexivity.
    + unfold dict_keys in *. rewrite map_app. simpl. rewrite <- app_assoc. exact Hnd.
Qed.

(** X12: fetching the persisted schema only reads.  It never changes a
    table; for a name the catalog does not know it makes one probe and
    answers the empty map; for a table whose column names are distinct it
    answers the catalog's columns, in the catalog's order, each with the class
    reported for it. *)
Theorem get_db_table_schema_map_reads (engine : Engine) (table_name : string)
    (s : db_state) :
  tables (snd (get_db_table_schema_map engine table_name s)) = tables s
  /\ (raises engine (has_table_call table_name) = None ->
      tables s !! table_name = None ->
      get_db_table_schema_map engine table_name s
      = (inr [], logged s [has_table_call table_name]))
  /\ (forall t,
        raises engine (has_table_call table_name) = None ->
        raises engine (get_columns_call table_name) = None ->
        tables s !! table_name = Some t ->
        NoDup (dict_keys (tbl_columns t)) ->
        get_db_table_schema_map engine table_name s
        = (inr (tbl_columns t),
           logged s [has_table_call table_name; get_columns_call table_name])).
Proof.
  unfold get_db_table_schema_map, has_table, get_columns, call, record_call, bind, ret,
    raise, logged.
  split; [|split].
  - cbn. destruct (raises engine (has_table_call table_name)); cbn; [reflexivity|].
    destruct (tables s !! table_name) eqn:Ht; cbn; [|reflexivity].
    destruct (raises engine (get_columns_call table_name)); cbn; [reflexivity|].
    rewrite Ht. reflexivity.
  - intros Hprobe Ht. cbn. rewrite Hprobe. cbn. rewrite Ht. reflexivity.
  - intros t Hprobe Hfetch Ht Hnd. cbn. rewrite Hprobe. cbn. rewrite Ht. cbn.
    rewrite Hfetch. cbn. rewrite Ht. cbn.
    rewrite db_schema_map_of_list by exact Hnd. rewrite <- app_assoc. reflexivity.
Qed.

(** ** Loading twice *)

Lemma pairwise_compatible_reflected (engine : Engine) (type_map : list (string * py_type))
    (cols : list string) :
  (forall col, col ∈ cols ->
     column_compatible (reflect engine (column_class type_map col))
       (column_class type_map col) = true) ->
  pairwise_compatible
    (map (fun col => (col, reflect engine (column_class type_map col))) cols)
    (map (fun col => (col, column_class type_map col)) cols) = true.
Proof.
  induction cols as [|c cols IH]; intros Hok; simpl; [reflexivity|].
  rewrite Hok by left. rewrite IH; [reflexivity|].
  intros col Hin. apply Hok. right. exact Hin.
Qed.

(** X13: two frames with the same distinct columns, loaded one after the
    other under the same type map into a base table that did not exist.  If
    every class the catalog reports is compatible with the class it was
    created from, the first call creates the table and the second appends to
    it: the table ends up with the rows of the first frame followed by the
    rows of the second. *)
Theorem load_to_postgres_twice_appends (engine : Engine) (now1 now2 : datetime)
    (df1 df2 : DataFrame) (type_map : list (string * py_type)) (base_table_name : string)
    (s : db_state) :
  df_empty df1 = false -> df_empty df2 = false ->
  df_columns df2 = df_columns df1 ->
  NoDup (df_columns df1) ->
  tables s !! base_table_name = None ->
  (forall c, raises engine c = None) ->
  (forall col, col ∈ df_columns df1 ->
     column_compatible (reflect engine (column_class type_map col))
       (column_class type_map col) = true) ->
  let first := load_to_postgres engine now1 df1 type_map base_table_name s in
  let second := load_to_postgres engine now2 df2 type_map base_table_name (snd first) in
  fst first = inr (Processed base_table_name)
  /\ fst second = inr (Processed base_table_name)
  /\ tables (snd second) !! base_table_name
     = Some {| tbl_columns :=
                 map (fun col => (col, reflect engine (column_class type_map col)))
                     (df_columns df1);
               tbl_rows := (df_rows df1 ++ df_rows df2)%list |}.
Proof.
  intros Hdf1 Hdf2 Hcols Hnd Hnone Hdriver Hreflect. cbv zeta.
  set (created := {| tbl_columns :=
                       map (fun col => (col, reflect engine (column_class type_map col)))
                           (df_columns df1);
                     tbl_rows := df_rows df1 |}).
  assert (load_to_postgres engine now1 df1 type_map base_table_name s
          = (inr (Processed base_table_name),
             {| tables := <[base_table_name := created]> (tables s);
                calls := (calls s ++ [has_table_call base_table_name;
                                      to_sql_call base_table_name fail_;
                                      dispose_call])%list |})) as Hfirst.
  { rewrite load_to_postgres_plan. unfold load_plan, write_target, written_table.
    rewrite Hdf1, !Hdriver, Hnone.
    repeat first [rewrite Hdriver | rewrite Hnone | progress cbn].
    rewrite created_columns. reflexivity. }
  rewrite Hfirst. cbn [fst snd]. split; [reflexivity|].
  assert (db_schema_map_of [] (tbl_columns created) = tbl_columns created) as Hdb.
  { rewrite db_schema_map_of_list; [reflexivity|]. simpl.
    unfold dict_keys. rewrite map_map. simpl. rewrite map_id. exact Hnd. }
  assert (are_schemas_compatible (tbl_columns created)
            (get_sqlalchemy_schema_map type_map (df_columns df2)) = true) as Hcompat.
  { rewrite Hcols. unfold get_sqlalchemy_schema_map.
    rewrite get_sqlalchemy_schema_map_from_list by exact Hnd. simpl.
    rewrite are_schemas_compatible_pairwise.
    - apply pairwise_compatible_reflected, Hreflect.
    - unfold dict_keys. rewrite !map_map. reflexivity.
    - unfold is_dict, dict_keys. simpl. rewrite map_map. simpl. rewrite map_id. exact Hnd. }
  rewrite load_to_postgres_plan. unfold load_plan, write_target, written_table.
  assert (<[base_table_name := created]> (tables s) !! base_table_name = Some created)
    as Hlook by apply lookup_insert_eq.
  cbn [tables calls]. rewrite Hdf2, !Hdriver, Hlook, Hdb, Hcompat.
  assert (is_empty_map (tbl_columns created) = false) as ->.
  { simpl. unfold df_empty in Hdf1. apply orb_false_iff in Hdf1 as [_ Hc].
    unfold df_columns. destruct (columns df1); [discriminate|reflexivity]. }
  repeat first [rewrite Hdriver | rewrite Hlook | progress cbn].
  split; [reflexivity|]. apply lookup_insert_eq.
Qed.

Lemma load_to_postgres_twice_appends_witness :
  let first := load_to_postgres samples.postgres samples.one_o_clock samples.five_rows
                 [("amount", py_float); ("name", py_str)] "clean_data"
                 {| tables := ∅; calls := [] |} in
  fst (load_to_postgres samples.postgres samples.half_past_one samples.five_rows
         [("amount", py_float); ("name", py_str)] "clean_data" (snd first))
  = inr (Processed "clean_data").
Proof.
  cbv zeta.
  apply (load_to_postgres_twice_appends samples.postgres samples.one_o_clock
           samples.half_past_one samples.five_rows samples.five_rows
           [("amount", py_float); ("name", py_str)] "clean_data"
           {| tables := ∅; calls := [] |}).
  - reflexivity.
  - reflexivity.
  - reflexivity.
  - apply (bool_decide_unpack _). vm_compute. reflexivity.
  - apply lookup_empty.
  - intros c. reflexivity.
  - intros col Hin. simpl in Hin.
    repeat (apply elem_of_cons in Hin as [->|Hin]; [reflexivity|]). inversion Hin.
Defined.

(** ** The caster, column by column *)

Lemma dict_get_None_not_in {V} (d : list (string * V)) (k : string) :
  dict_get d k = None -> k ∉ dict_keys d.
Proof.
  intros Hget Hin. apply dict_keys_get in Hin as [v Hv]. congruence.
Qed.

Lemma getitem_Series_in (df : DataFrame) (col : string) (cells : list value) :
  getitem df col = Series cells -> name_in col (df_columns df) = true.
Proof.
  intros Hget. apply getitem_Series_get in Hget.
  apply name_in_elem_of. apply (dict_get_is_Some_keys _ _ _ Hget).
Qed.

Lemma Forall_cells_of_over (P : value -> Prop) (f : value -> value) (arg : selection) :
  (forall v, P (f v)) -> Forall P (cells_of (over (map f) arg)).
Proof.
  intros Hf. destruct arg as [s|cs]; simpl.
  - apply Forall_forall. intros v Hv.
    apply list_elem_of_In, in_map_iff in Hv as (w & <- & _). apply Hf.
  - induction cs as [|s cs IH]; simpl; [constructor|].
    apply Forall_app. split; [|exact IH].
    apply Forall_forall. intros v Hv.
    apply list_elem_of_In, in_map_iff in Hv as (w & <- & _). apply Hf.
Qed.

(** X14: a column declared [str] comes out of the caster as text, cell for
    cell: every cell is the string of the cell that went in, so no cell of
    the column is null any more, whatever it was before; where several
    columns carry the label, each of them is treated so. *)
Theorem text_columns_are_stringified (pd : Pandas) (pyd : Pydantic)
    (df : DataFrame) (type_map : list (string * py_type)) (col : string) :
  is_dict type_map ->
  dict_get type_map col = Some py_str ->
  name_in col (df_columns df) = true ->
  match auto_cast_and_validate pd pyd df type_map with
  | inr (casted_df, _, _) =>
      getitem casted_df col = over (map (fun v => VStr (str pd v))) (getitem df col)
      /\ Forall (fun v => isnull v = false) (cells_of (getitem casted_df col))
  | inl e => create_model pyd (model_fields type_map df) = Some e
  end.
Proof.
  intros Hd Hty Hin.
  assert (getitem (fst (cast_loop pd df type_map df [])) col
          = over (map (fun v => VStr (str pd v))) (getitem df col)) as Hcol
    by apply (cast_loop_converted pd df type_map df [] col py_str _ Hd Hty Hin eq_refl eq_refl).
  assert (Forall (fun v => isnull v = false)
            (cells_of (getitem (fst (cast_loop pd df type_map df [])) col))) as Hnull.
  { rewrite Hcol. apply (Forall_cells_of_over _ (fun v => VStr (str pd v))). reflexivity. }
  outcome; split; assumption.
Qed.

Lemma text_columns_are_stringified_witness :
  match auto_cast_and_validate samples.pandas samples.pydantic
          {| columns := [("name", [VStr "a"; VNone; VInt 3])]; index := [0; 1; 2]%Z |}
          [("name", py_str)] with
  | inr (casted_df, _, _) =>
      getitem casted_df "name" = Series [VStr "a"; VStr "None"; VStr "3"]
      /\ Forall (fun v => isnull v = false) (cells_of (getitem casted_df "name"))
  | inl e =>
      create_model samples.pydantic
        (model_fields [("name", py_str)]
           {| columns := [("name", [VStr "a"; VNone; VInt 3])]; index := [0; 1; 2]%Z |})
      = Some e
  end.
Proof.
  apply (text_columns_are_stringified samples.pandas samples.pydantic
           {| columns := [("name", [VStr "a"; VNone; VInt 3])]; index := [0; 1; 2]%Z |}
           [("name", py_str)] "name").
  - unfold is_dict. apply (bool_decide_unpack _). vm_compute. reflexivity.
  - reflexivity.
  - reflexivity.
Defined.

Lemma widen_to_numeric_text (pd : Pandas) (s : string) :
  widen (to_numeric_cell pd (VStr s)) = to_numeric_cell pd (VStr s).
Proof. simpl. destruct (parse_float pd s); reflexivity. Qed.

(** X15: in a column declared [float] whose label no other column carries, a
    text cell becomes the number pandas reads in it, and [nan] when pandas
    reads none, whatever the other cells of the column hold; the column keeps
    its length. *)
Theorem float_columns_parse_or_nan (pd : Pandas) (pyd : Pydantic)
    (df : DataFrame) (type_map : list (string * py_type)) (col : string)
    (cells : list value) :
  is_dict type_map ->
  dict_get type_map col = Some py_float ->
  getitem df col = Series cells ->
  match auto_cast_and_validate pd pyd df type_map with
  | inr (casted_df, _, _) =>
      exists casted,
        getitem casted_df col = Series casted
        /\ length casted = length cells
        /\ forall (i : nat) (s : string),
             cells !! i = Some (VStr s) ->
             casted !! i = Some (match parse_float pd s with
                                 | Some q => VFloat q
                                 | None => VNaN
                                 end)
  | inl e => create_model pyd (model_fields type_map df) = Some e
  end.
Proof.
  intros Hd Hty Hcells.
  pose proof (getitem_Series_in df col cells Hcells) as Hin.
  assert (exists casted,
            getitem (fst (cast_loop pd df type_map df [])) col = Series casted
            /\ length casted = length cells
            /\ forall (i : nat) (s : string),
                 cells !! i = Some (VStr s) ->
                 casted !! i = Some (match parse_float pd s with
                                     | Some q => VFloat q
                                     | None => VNaN
                                     end)) as Hcol.
  { eexists. split.
    - apply (cast_loop_converted pd df type_map df [] col py_float _ Hd Hty Hin eq_refl).
      cbn [convert]. rewrite Hcells. reflexivity.
    - split.
      + destruct (existsb is_nan _); rewrite ?length_map; reflexivity.
      + intros i s Hcell. change (map ?f ?l) with (f <$> l).
        destruct (existsb is_nan _).
        * rewrite !list_lookup_fmap, Hcell. cbn [fmap option_fmap option_map].
          rewrite widen_to_numeric_text. reflexivity.
        * rewrite list_lookup_fmap, Hcell. reflexivity. }
  outcome; exact Hcol.
Qed.

Lemma float_columns_parse_or_nan_witness :
  match auto_cast_and_validate samples.pandas samples.pydantic samples.five_rows
          [("amount", py_float)] with
  | inr (casted_df, _, _) =>
      exists casted,
        getitem casted_df "amount" = Series casted
        /\ length casted = 5%nat
        /\ forall (i : nat) (s : string),
             [VStr "10"; VStr "20"; VStr "abc"; VStr "40"; VStr "50"] !! i = Some (VStr s) ->
             casted !! i = Some (match parse_float samples.pandas s with
                                 | Some q => VFloat q
                                 | None => VNaN
                                 end)
  | inl e =>
      create_model samples.pydantic (model_fields [("amount", py_float)] samples.five_rows)
      = Some e
  end.
Proof.
  apply (float_columns_parse_or_nan samples.pandas samples.pydantic samples.five_rows
           [("amount", py_float)] "amount"
           [VStr "10"; VStr "20"; VStr "abc"; VStr "40"; VStr "50"]).
  - unfold is_dict. apply (bool_decide_unpack _). vm_compute. reflexivity.
  - reflexivity.
  - reflexivity.
Defined.

(** X16: a column the type map does not mention passes through the caster
    unchanged. *)
Theorem undeclared_columns_pass_through (pd : Pandas) (pyd : Pydantic)
    (df : DataFrame) (type_map : list (string * py_type)) (col : string) :
  dict_get type_map col = None ->
  match auto_cast_and_validate pd pyd df type_map with
  | inr (casted_df, _, _) => getitem casted_df col = getitem df col
  | inl e => create_model pyd (model_fields type_map df) = Some e
  end.
Proof.
  intros Hnone.
  assert (getitem (fst (cast_loop pd df type_map df [])) col = getitem df col) as Hsame.
  { apply cast_loop_untouched. intros ty Hin. exfalso.
    apply (dict_get_None_not_in _ _ Hnone).
    apply (list_elem_of_fmap_2 fst) in Hin. exact Hin. }
  outcome; exact Hsame.
Qed.

Lemma undeclared_columns_pass_through_witness :
  match auto_cast_and_validate samples.pandas samples.pydantic samples.five_rows
          [("amount", py_float)] with
  | inr (casted_df, _, _) =>
      getitem casted_df "name" = Series [VStr "a"; VStr "b"; VStr "c"; VStr "d"; VStr "e"]
  | inl e =>
      create_model samples.pydantic (model_fields [("amount", py_float)] samples.five_rows)
      = Some e
  end.
Proof.
  apply (undeclared_columns_pass_through samples.pandas samples.pydantic samples.five_rows
           [("amount", py_float)] "name").
  reflexivity.
Defined.

(** ** What the validator reports *)

Lemma columns_named_NoDup (cols : list (string * list value)) (col : string) :
  NoDup (map fst cols) ->
  name_in col (map fst cols) = true ->
  length (List.filter (fun c => String.eqb (fst c) col) cols) = 1%nat.
Proof.
  unfold name_in. induction cols as [|[k v] cols IH]; simpl; [discriminate|].
  intros Hnd Hin. apply NoDup_cons in Hnd as [Hk Hnd].
  rewrite (String.eqb_sym col k) in Hin.
  destruct (String.eqb_spec k col) as [->|Hne]; simpl.
  - f_equal. apply length_zero_iff_nil.
    destruct (List.filter _ cols) as [|[k' v'] l] eqn:E; [reflexivity|]. exfalso.
    assert (In (k', v') (List.filter (fun c => String.eqb (fst c) col) cols)) as Hin'
      by (rewrite E; left; reflexivity).
    apply filter_In in Hin' as [Hin' Heq]. simpl in Heq. apply String.eqb_eq in Heq. subst k'.
    apply Hk. apply list_elem_of_In. apply in_map_iff. exists (col, v'). auto.
  - apply IH; assumption.
Qed.

(** With distinct labels, what a label of the frame selects is a Series. *)
Lemma getitem_Series_of_NoDup (df : DataFrame) (col : string) :
  NoDup (df_columns df) ->
  name_in col (df_columns df) = true ->
  exists cells, getitem df col = Series cells.
Proof.
  intros Hnd Hin. unfold getitem, columns_named.
  pose proof (columns_named_NoDup (columns df) col Hnd Hin) as Hone.
  destruct (List.filter _ (columns df)) as [|c [|c' l]]; try discriminate.
  simpl. eauto.
Qed.

Lemma cast_loop_errors (pd : Pandas) (df : DataFrame) (items : list (string * py_type))
    (casted_df : DataFrame) (errors : list cast_error) :
  NoDup (df_columns df) ->
  snd (cast_loop pd df items casted_df errors)
  = (errors
     ++ flat_map (fun item =>
                    if name_in (fst item) (df_columns df) then []
                    else [{| column := fst item; error_type := "MissingColumn";
                             message := "Column '" ++ fst item
                                        ++ "' not found in DataFrame." |}])
                 items)%list.
Proof.
  intros Hnd. revert casted_df errors.
  induction items as [|[col ty] items IH]; intros casted errs; simpl.
  - rewrite app_nil_r. reflexivity.
  - destruct (name_in col (df_columns df)) eqn:Hin; simpl.
    + destruct (getitem_Series_of_NoDup df col Hnd Hin) as [cells Hcells].
      destruct ty; simpl; rewrite ?Hcells; simpl; apply IH.
    + rewrite IH. rewrite <- app_assoc. reflexivity.
Qed.

(** X17: for a frame whose column labels are distinct, the list of cast
    errors is exactly one [MissingColumn] entry for each declared column the
    frame does not have, in the order of the type map; casting a column
    reports nothing, whatever the cells hold. *)
Theorem cast_errors_are_missing_columns (pd : Pandas) (pyd : Pydantic)
    (df : DataFrame) (type_map : list (string * py_type)) :
  NoDup (df_columns df) ->
  match auto_cast_and_validate pd pyd df type_map with
  | inr (_, errors, _) =>
      errors
      = flat_map (fun item =>
                    if name_in (fst item) (df_columns df) then []
                    else [{| column := fst item; error_type := "MissingColumn";
                             message := "Column '" ++ fst item
                                        ++ "' not found in DataFrame." |}])
                 type_map
  | inl e => create_model pyd (model_fields type_map df) = Some e
  end.
Proof.
  intros Hnd. pose proof (cast_loop_errors pd df type_map df [] Hnd) as Herr.
  simpl in Herr. outcome; exact Herr.
Qed.

Lemma cast_errors_are_missing_columns_witness :
  match auto_cast_and_validate samples.pandas samples.pydantic samples.five_rows
          [("amount", py_float); ("price", py_float); ("name", py_str)] with
  | inr (_, errors, _) =>
      errors = [{| column := "price"; error_type := "MissingColumn";
                   message := "Column 'price' not found in DataFrame." |}]
  | inl e =>
      create_model samples.pydantic
        (model_fields [("amount", py_float); ("price", py_float); ("name", py_str)]
           samples.five_rows)
      = Some e
  end.
Proof.
  apply (cast_errors_are_missing_columns samples.pandas samples.pydantic samples.five_rows
           [("amount", py_float); ("price", py_float); ("name", py_str)]).
  apply (bool_decide_unpack _). vm_compute. reflexivity.
Defined.

Lemma cast_loop_errors_grow (pd : Pandas) (df : DataFrame) (items : list (string * py_type))
    (casted_df : DataFrame) (errors : list cast_error) (err : cast_error) :
  err ∈ errors -> err ∈ snd (cast_loop pd df items casted_df errors).
Proof.
  revert casted_df errors. induction items as [|[c ty] items IH]; intros casted errs Hin; simpl.
  - exact Hin.
  - destruct (negb _); [apply IH, elem_of_app; left; exact Hin|].
    destruct (convert pd df c ty) as [e|[s|]]; apply IH; try exact Hin.
    apply elem_of_app. left. exact Hin.
Qed.

Lemma cast_loop_raised (pd : Pandas) (df : DataFrame) (items : list (string * py_type))
    (casted_df : DataFrame) (errors : list cast_error) (col : string) (ty : py_type)
    (e : exn) :
  (col, ty) ∈ items ->
  (forall ty', (col, ty') ∈ items -> ty' = ty) ->
  name_in col (df_columns df) = true ->
  convert pd df col ty = inl e ->
  {| column := col; error_type := "CastingError"; message := exn_str e |}
    ∈ snd (cast_loop pd df items casted_df errors).
Proof.
  revert casted_df errors. induction items as [|[c ty0] items IH];
    intros casted errs Hin Hone Hcol He; [inversion Hin|].
  cbn [cast_loop].
  destruct (String.eqb_spec c col) as [->|Hne].
  - assert (ty0 = ty) as -> by (apply Hone; left).
    rewrite Hcol. cbn [negb]. rewrite He.
    apply cast_loop_errors_grow, elem_of_app. right. left.
  - assert ((col, ty) ∈ items) as Hin'
      by (apply elem_of_cons in Hin as [[= <- _]|Hin]; [contradiction|exact Hin]).
    assert (forall ty', (col, ty') ∈ items -> ty' = ty) as Hone'
      by (intros ty' H; apply Hone; right; exact H).
    destruct (negb _); [apply IH; assumption|].
    destruct (convert pd df c ty0) as [e'|[s|]]; apply IH; assumption.
Qed.

(** X30: a label that several columns carry cannot be cast to [float] or to
    a timestamp.  Pandas refuses the frame such a label selects; the refusal
    is reported as one [CastingError] for the label and the columns keep the
    cells they had. *)
Theorem repeated_label_is_a_casting_error (pd : Pandas) (pyd : Pydantic)
    (df : DataFrame) (type_map : list (string * py_type)) (col : string) (ty : py_type)
    (cs : list (list value)) :
  is_dict type_map ->
  dict_get type_map col = Some ty ->
  ty = py_float \/ ty = pd_Timestamp ->
  name_in col (df_columns df) = true ->
  getitem df col = Frame cs ->
  match auto_cast_and_validate pd pyd df type_map with
  | inr (casted_df, errors, _) =>
      getitem casted_df col = Frame cs
      /\ exists m, {| column := col; error_type := "CastingError"; message := m |} ∈ errors
  | inl e => create_model pyd (model_fields type_map df) = Some e
  end.
Proof.
  intros Hd Hget Hty Hin Hframe.
  assert (exists e, convert pd df col ty = inl e) as [e He]
    by (destruct Hty as [-> | ->]; cbn [convert]; rewrite Hframe; eexists; reflexivity).
  assert (getitem (fst (cast_loop pd df type_map df [])) col = Frame cs) as Hkept.
  { rewrite <- Hframe. apply (cast_loop_kept pd df type_map col ty Hd Hget).
    intros arg. rewrite He. discriminate. }
  assert (exists m, {| column := col; error_type := "CastingError"; message := m |}
                      ∈ snd (cast_loop pd df type_map df [])) as Herr.
  { exists (exn_str e). apply (cast_loop_raised pd df type_map df [] col ty e).
    - apply dict_get_elem_of. exact Hget.
    - intros ty' Hin'. apply (is_dict_elem_of_get _ _ _ Hd) in Hin'. congruence.
    - exact Hin.
    - exact He. }
  outcome; split; assumption.
Qed.

Lemma repeated_label_is_a_casting_error_witness :
  match auto_cast_and_validate samples.pandas samples.pydantic
          {| columns := [("amount", [VStr "1"]); ("amount", [VStr "2"])]; index := [0%Z] |}
          [("amount", py_float)] with
  | inr (casted_df, errors, _) =>
      getitem casted_df "amount" = Frame [[VStr "1"]; [VStr "2"]]
      /\ exists m, {| column := "amount"; error_type := "CastingError"; message := m |}
                     ∈ errors
  | inl e =>
      create_model samples.pydantic
        (model_fields [("amount", py_float)]
           {| columns := [("amount", [VStr "1"]); ("amount", [VStr "2"])];
              index := [0%Z] |})
      = Some e
  end.
Proof.
  apply (repeated_label_is_a_casting_error samples.pandas samples.pydantic
           {| columns := [("amount", [VStr "1"]); ("amount", [VStr "2"])]; index := [0%Z] |}
           [("amount", py_float)] "amount" py_float [[VStr "1"]; [VStr "2"]]).
  - unfold is_dict. apply (bool_decide_unpack _). vm_compute. reflexivity.
  - reflexivity.
  - left. reflexivity.
  - reflexivity.
  - reflexivity.
Defined.

Lemma fields_of_type_map_no_columns (items : list (string * py_type))
    (acc : list (string * field_def)) :
  fields_of_type_map items [] acc = acc.
Proof.
  revert acc. induction items as [|[k v] items IH]; intros acc; simpl; [reflexivity|].
  apply IH.
Qed.

(** X18: a frame with no rows, or with no columns, yields no row error. *)
Theorem empty_frame_has_no_row_errors (pd : Pandas) (pyd : Pydantic)
    (df : DataFrame) (type_map : list (string * py_type)) :
  df_empty df = true ->
  match auto_cast_and_validate pd pyd df type_map with
  | inr (_, _, validation_errors) => validation_errors = []
  | inl e => create_model pyd (model_fields type_map df) = Some e
  end.
Proof.
  intros Hempty. outcome; [reflexivity|].
  unfold df_empty in Hempty. apply orb_true_iff in Hempty as [Hrows|Hcolumns].
  - unfold df_len in Hrows. destruct (index df); [reflexivity|discriminate].
  - exfalso. unfold model_fields, df_columns in *.
    destruct (columns df); [|discriminate]. simpl in *.
    rewrite fields_of_type_map_no_columns in *. discriminate.
Qed.

Lemma empty_frame_has_no_row_errors_witness :
  match auto_cast_and_validate samples.pandas samples.pydantic
          {| columns := [("amount", [])]; index := [] |} [("amount", py_float)] with
  | inr (_, _, validation_errors) => validation_errors = []
  | inl e =>
      create_model samples.pydantic
        (model_fields [("amount", py_float)] {| columns := [("amount", [])]; index := [] |})
      = Some e
  end.
Proof.
  apply empty_frame_has_no_row_errors. reflexivity.
Defined.

Lemma row_entries_labels (f : nat -> exn + unit) (labels : list Z) (i : nat) :
  sublist
    (map ve_index
       (flat_map (fun '(idx, j) => row_entry idx (f j))
                 (combine labels (seq i (length labels)))))
    labels.
Proof.
  revert i. induction labels as [|idx labels IH]; intros i; simpl.
  - constructor.
  - rewrite map_app.
    destruct (f i) as [[errs|m|cls m]|[]]; simpl;
      first [apply sublist_skip, IH | apply sublist_cons, IH].
Qed.

(** X19: the row errors follow the rows.  Their indices, in the order
    reported, are row labels of the frame in the order of the frame, each row
    position accounting for at most one entry; so there are never more
    entries than rows. *)
Theorem row_errors_follow_the_rows (pd : Pandas) (pyd : Pydantic)
    (df : DataFrame) (type_map : list (string * py_type)) :
  match auto_cast_and_validate pd pyd df type_map with
  | inr (_, _, validation_errors) =>
      sublist (map ve_index validation_errors) (index df)
      /\ (length validation_errors <= df_len df)%nat
  | inl e => create_model pyd (model_fields type_map df) = Some e
  end.
Proof.
  assert (forall validation_errors : list row_error,
            sublist (map ve_index validation_errors) (index df) ->
            sublist (map ve_index validation_errors) (index df)
            /\ (length validation_errors <= df_len df)%nat) as Hlen.
  { intros l Hsub. split; [exact Hsub|].
    apply sublist_length in Hsub. rewrite length_map in Hsub. exact Hsub. }
  outcome; apply Hlen.
  - apply sublist_nil_l.
  - rewrite validate_rows_entries. simpl.
    apply (row_entries_labels
             (fun j => check_row pyd _ (model_fields type_map df) (iterrows_at _ _ j))).
Qed.

(** X20: the validation model has one field for each column of the frame
    and no other.  A column the type map declares is checked against its
    declared type, with default [nan] when that type is [float] and [None]
    otherwise; a column the type map does not declare is checked as [str]
    with default [None]. *)
Theorem model_fields_follow_the_columns (type_map : list (string * py_type))
    (casted_df : DataFrame) (name : string) :
  is_dict type_map ->
  is_dict (model_fields type_map casted_df)
  /\ dict_get (model_fields type_map casted_df) name
     = if name_in name (df_columns casted_df)
       then match dict_get type_map name with
            | Some py_float => Some (py_float, VNaN)
            | Some ty => Some (ty, VNone)
            | None => Some (py_str, VNone)
            end
       else None.
Proof.
  intros Hd. split; [apply model_fields_is_dict|].
  rewrite model_fields_get by exact Hd. unfold field_type, field_default.
  destruct (name_in _ _); [|reflexivity].
  destruct (dict_get type_map name) as [[]|]; reflexivity.
Qed.

Lemma model_fields_follow_the_columns_witness :
  dict_get (model_fields [("amount", py_float); ("price", py_float)] samples.five_rows)
    "name"
  = Some (py_str, VNone).
Proof.
  apply (model_fields_follow_the_columns [("amount", py_float); ("price", py_float)]
           samples.five_rows "name").
  unfold is_dict. apply (bool_decide_unpack _). vm_compute. reflexivity.
Defined.

(** X29: five rows labelled 0 to 4 with distinct column labels, handed to the
    validator as object rows; a column declared [float] whose cell in the row
    at index 2 is a text pandas cannot read as a number; a validator that
    refuses [None] for a float; every other cell acceptable to its field.
    The casted frame still has five rows, the cell is [nan], and exactly one
    row error is reported, for row index 2, naming that column. *)
Theorem one_unparseable_float_cell (pd : Pandas) (pyd : Pydantic)
    (df : DataFrame) (type_map : list (string * py_type))
    (col bad m t : string) (cells : list value) :
  is_dict type_map ->
  NoDup (df_columns df) ->
  index df = [0; 1; 2; 3; 4]%Z ->
  dict_get type_map col = Some py_float ->
  getitem df col = Series cells ->
  cells !! 2%nat = Some (VStr bad) ->
  parse_float pd bad = None ->
  values_dtype pd (fst (cast_loop pd df type_map df [])) = object_ ->
  create_model pyd (model_fields type_map df) = None ->
  validate_field pyd py_float VNone = field_invalid m t ->
  (forall (i : nat) name cells',
      (i < 5)%nat ->
      (name, cells') ∈ columns (fst (cast_loop pd df type_map df [])) ->
      i <> 2%nat \/ name <> col ->
      validate_field pyd (field_type type_map name) (keyword_of object_ (nth i cells' VNone))
      = field_ok) ->
  exists casted_df cast_errors casted,
    auto_cast_and_validate pd pyd df type_map
    = inr (casted_df, cast_errors,
           [{| ve_index := 2; ve_errors := [{| loc := col; msg := m; type := t |}] |}])
    /\ df_len casted_df = 5%nat
    /\ getitem casted_df col = Series casted
    /\ casted !! 2%nat = Some VNaN.
Proof.
  intros Hd Hnd Hidx Hty Hcells Hcell Hbad Hobject Hmodel Hnone Hothers.
  rewrite auto_cast_and_validate_outcome, Hmodel, Hobject.
  set (casted := fst (cast_loop pd df type_map df [])) in *.
  assert (index casted = [0; 1; 2; 3; 4]%Z) as Hidx'
    by (unfold casted; rewrite cast_loop_index; exact Hidx).
  assert (df_columns casted = df_columns df) as Hcols'
    by (unfold casted; apply cast_loop_columns).
  assert (NoDup (df_columns casted)) as Hnd' by (rewrite Hcols'; exact Hnd).
  pose proof (getitem_Series_in df col cells Hcells) as Hin.
  (* the column after the cast *)
  set (cells0 := map (to_numeric_cell pd) cells).
  assert (cells0 !! 2%nat = Some VNaN) as Hnan.
  { unfold cells0. change (map ?f ?l) with (f <$> l).
    rewrite list_lookup_fmap, Hcell. simpl. rewrite Hbad. reflexivity. }
  assert (existsb is_nan cells0 = true) as Hsome.
  { apply existsb_exists. exists VNaN. split; [|reflexivity].
    apply list_elem_of_In, list_elem_of_lookup. eauto. }
  assert (getitem casted col = Series (map widen cells0)) as Hcasted.
  { unfold casted.
    apply (cast_loop_converted pd df type_map df [] col py_float _ Hd Hty Hin eq_refl).
    cbn [convert]. rewrite Hcells. cbn [to_numeric_coerce]. fold cells0.
    rewrite Hsome. reflexivity. }
  assert (map widen cells0 !! 2%nat = Some VNaN) as Hwide.
  { change (map ?f ?l) with (f <$> l). rewrite list_lookup_fmap, Hnan. reflexivity. }
  pose proof (getitem_Series_get casted col _ Hcasted) as Hccells.
  assert (nth 2 (map widen cells0) VNone = VNaN) as Hnth
    by (apply nth_lookup_Some with (d := VNone) in Hwide; exact Hwide).
  (* the model has a field for it *)
  assert (model_fields type_map df = model_fields type_map casted) as Hfields
    by (apply model_fields_columns; symmetry; exact Hcols').
  assert (dict_get (model_fields type_map casted) col = Some (py_float, VNaN)) as Hfield.
  { rewrite model_fields_get by exact Hd. rewrite Hcols', Hin.
    unfold field_type. rewrite Hty. reflexivity. }
  rewrite Hfields.
  assert (is_nil (model_fields type_map casted) = false) as ->.
  { destruct (model_fields type_map casted); [discriminate|reflexivity]. }
  (* every row but the one at index 2 passes *)
  assert (forall i, (i < 5)%nat -> i <> 2%nat ->
            check_row pyd object_ (model_fields type_map casted)
              (iterrows_at object_ casted i) = inr tt) as Hpass.
  { intros i Hi Hi2. unfold check_row.
    rewrite check_fields_all_ok; [reflexivity|].
    intros name ty dflt Hf.
    destruct (field_keyword object_ type_map casted i name ty dflt Hd Hnd' Hf)
      as (cells' & Hcells' & -> & ->).
    apply Hothers; [exact Hi| |left; exact Hi2].
    apply dict_get_elem_of. exact Hcells'. }
  (* the row at index 2 is refused for that column alone *)
  assert (check_row pyd object_ (model_fields type_map casted) (iterrows_at object_ casted 2)
          = inl (ValidationError [{| loc := col; msg := m; type := t |}])) as Hrefused.
  { unfold check_row.
    rewrite (check_fields_one_refused pyd _ _ [] col py_float VNaN m t).
    - reflexivity.
    - apply model_fields_is_dict.
    - apply dict_get_elem_of. exact Hfield.
    - rewrite (row_keyword _ _ _ _ _ (map widen cells0)) by assumption.
      simpl. rewrite Hnth. exact Hnone.
    - intros name ty dflt Hf Hne.
      destruct (field_keyword object_ type_map casted 2 name ty dflt Hd Hnd' Hf)
        as (cells' & Hcells' & -> & ->).
      apply Hothers; [lia| |right; exact Hne].
      apply dict_get_elem_of. exact Hcells'. }
  exists casted, (snd (cast_loop pd df type_map df [])), (map widen cells0).
  split.
  - rewrite validate_rows_entries, Hidx. simpl.
    rewrite Hrefused, (Hpass 0%nat), (Hpass 1%nat), (Hpass 3%nat), (Hpass 4%nat) by lia.
    reflexivity.
  - split; [unfold df_len; rewrite Hidx'; reflexivity|].
    split; [exact Hcasted|exact Hwide].
Qed.

Lemma one_unparseable_float_cell_witness :
  exists casted_df cast_errors casted,
    auto_cast_and_validate samples.pandas samples.pydantic samples.five_rows
      [("amount", py_float); ("name", py_str)]
    = inr (casted_df, cast_errors,
           [{| ve_index := 2;
               ve_errors := [{| loc := "amount"; msg := "Input should be a valid number";
                                type := "float_type" |}] |}])
    /\ df_len casted_df = 5%nat
    /\ getitem casted_df "amount" = Series casted
    /\ casted !! 2%nat = Some VNaN.
Proof.
  apply (one_unparseable_float_cell samples.pandas samples.pydantic samples.five_rows
           [("amount", py_float); ("name", py_str)] "amount" "abc"
           "Input should be a valid number" "float_type"
           [VStr "10"; VStr "20"; VStr "abc"; VStr "40"; VStr "50"]).
  - unfold is_dict. apply (bool_decide_unpack _). vm_compute. reflexivity.
  - apply (bool_decide_unpack _). vm_compute. reflexivity.
  - reflexivity.
  - reflexivity.
  - reflexivity.
  - reflexivity.
  - reflexivity.
  - reflexivity.
  - reflexivity.
  - reflexivity.
  - intros i name cells' Hi Hin Hneq.
    assert (columns (fst (cast_loop samples.pandas samples.five_rows
                            [("amount", py_float); ("name", py_str)] samples.five_rows []))
            = [("amount", [VFloat (inject_Z 10); VFloat (inject_Z 20); VNaN;
                           VFloat (inject_Z 40); VFloat (inject_Z 50)]);
               ("name", [VStr "a"; VStr "b"; VStr "c"; VStr "d"; VStr "e"])]) as E
      by (vm_compute; reflexivity).
    rewrite E in Hin. clear E.
    apply elem_of_cons in Hin as [[= -> ->]|Hin].
    + destruct i as [|[|[|[|[|i]]]]]; try reflexivity; try lia.
      destruct Hneq as [Hneq|Hneq]; exfalso; apply Hneq; reflexivity.
    + apply list_elem_of_singleton in Hin as [= -> ->].
      destruct i as [|[|[|[|[|i]]]]]; try reflexivity; lia.
Defined.

(** ** The business rule *)

Import transform.

Lemma transform_index (is_numeric_dtype : selection -> bool) (df : DataFrame) :
  index (transform is_numeric_dtype df) = index df.
Proof.
  unfold transform. destruct (name_in _ _); [|reflexivity].
  destruct (is_numeric_dtype _); [apply setitem_index|reflexivity].
Qed.

Lemma transform_columns (is_numeric_dtype : selection -> bool) (df : DataFrame) :
  df_columns (transform is_numeric_dtype df) = df_columns df.
Proof.
  unfold transform. destruct (name_in _ _); [|reflexivity].
  destruct (is_numeric_dtype _); [apply setitem_columns|reflexivity].
Qed.

(** X21: the business rule touches nothing but the cells of [amount]: the
    frame keeps its row labels and its column labels, and every other column
    keeps its cells. *)
Theorem transform_keeps_the_rest (is_numeric_dtype : selection -> bool)
    (df : DataFrame) :
  index (transform is_numeric_dtype df) = index df
  /\ df_columns (transform is_numeric_dtype df) = df_columns df
  /\ forall col, col <> "amount" ->
       getitem (transform is_numeric_dtype df) col = getitem df col.
Proof.
  split; [apply transform_index|]. split; [apply transform_columns|].
  intros col Hne. unfold transform. destruct (name_in _ _); [|reflexivity].
  destruct (is_numeric_dtype _); [|reflexivity].
  apply getitem_setitem_ne. congruence.
Qed.

(** X22: when the frame has a numeric [amount] column, every null cell of it
    becomes 0 and every other cell stays as it is, so no null is left in the
    column; when the column is not numeric the frame is returned unchanged,
    nulls included. *)
Theorem transform_fills_amount (is_numeric_dtype : selection -> bool)
    (df : DataFrame) :
  name_in "amount" (df_columns df) = true ->
  (is_numeric_dtype (getitem df "amount") = true ->
   getitem (transform is_numeric_dtype df) "amount"
   = over (map (fun v => if isnull v then VInt 0 else v)) (getitem df "amount")
   /\ Forall (fun v => isnull v = false)
        (cells_of (getitem (transform is_numeric_dtype df) "amount")))
  /\ (is_numeric_dtype (getitem df "amount") = false ->
      transform is_numeric_dtype df = df).
Proof.
  intros Hin. unfold transform. rewrite Hin. split; intros Hnum; rewrite Hnum.
  - rewrite getitem_setitem_eq by apply fits_over, getitem_fits.
    split; [reflexivity|].
    apply (Forall_cells_of_over _ (fun v => if isnull v then VInt 0 else v)).
    intros v. destruct (isnull v) eqn:E; [reflexivity|exact E].
  - reflexivity.
Qed.

Lemma transform_fills_amount_witness :
  getitem (transform samples.cells_numeric
             {| columns := [("amount", [VFloat (inject_Z 10); VNaN]); ("name", [VNone; VNone])];
                index := [0; 1]%Z |}) "amount"
  = Series [VFloat (inject_Z 10); VInt 0].
Proof.
  destruct (transform_fills_amount samples.cells_numeric
              {| columns := [("amount", [VFloat (inject_Z 10); VNaN]);
                             ("name", [VNone; VNone])];
                 index := [0; 1]%Z |} eq_refl) as [Hfill _].
  destruct (Hfill eq_refl) as [Hcells _]. rewrite Hcells. reflexivity.
Defined.

Lemma assign_assign (cols : list (string * list value)) (col : string)
    (cs cs' : list (list value)) :
  length cs = length cs' ->
  assign (assign cols col cs) col cs' = assign cols col cs'.
Proof.
  revert cs cs'. induction cols as [|[k v] cols IH]; intros cs cs' Hlen; simpl;
    [reflexivity|].
  destruct (String.eqb k col) eqn:E.
  - destruct cs as [|s cs], cs' as [|s' cs']; try discriminate; simpl; rewrite E.
    + reflexivity.
    + injection Hlen as Hlen. rewrite IH by exact Hlen. reflexivity.
  - simpl. rewrite E. rewrite IH by exact Hlen. reflexivity.
Qed.

Lemma setitem_setitem (df : DataFrame) (col : string) (arg arg' : selection) :
  fits df col arg -> fits df col arg' ->
  setitem (setitem df col arg) col arg' = setitem df col arg'.
Proof.
  destruct arg as [s|cs], arg' as [s'|cs']; simpl.
  - intros _ _. unfold setitem. simpl. f_equal. rewrite map_map. apply map_ext.
    intros [k v]. simpl. destruct (String.eqb k col) eqn:E; simpl; rewrite E; reflexivity.
  - intros Hone [Hlen Hmany]. congruence.
  - intros [Hlen Hmany] Hone. congruence.
  - intros [Hlen _] [Hlen' _]. unfold setitem. simpl. f_equal.
    apply assign_assign. congruence.
Qed.

Lemma fillna_fillna (fill : value) (arg : selection) :
  isnull fill = false -> fillna fill (fillna fill arg) = fillna fill arg.
Proof.
  intros Hfill.
  assert (forall s : list value,
            map (fun v => if isnull v then fill else v)
                (map (fun v => if isnull v then fill else v) s)
            = map (fun v => if isnull v then fill else v) s) as Hcol.
  { intros s. rewrite map_map. apply map_ext. intros v.
    destruct (isnull v) eqn:E; [rewrite Hfill|rewrite E]; reflexivity. }
  unfold fillna. destruct arg as [s|cs]; simpl.
  - rewrite Hcol. reflexivity.
  - rewrite map_map. f_equal. apply map_ext. exact Hcol.
Qed.

(** X23: applying the business rule twice is the same as applying it once,
    as long as filling the nulls of a numeric column leaves it numeric. *)
Theorem transform_idempotent (is_numeric_dtype : selection -> bool) (df : DataFrame) :
  (forall s, is_numeric_dtype s = true -> is_numeric_dtype (fillna (VInt 0) s) = true) ->
  transform is_numeric_dtype (transform is_numeric_dtype df)
  = transform is_numeric_dtype df.
Proof.
  intros Hstable.
  destruct (name_in "amount" (df_columns df)) eqn:Hin;
    [destruct (is_numeric_dtype (getitem df "amount")) eqn:Hnum|].
  - assert (fits df "amount" (fillna (VInt 0) (getitem df "amount"))) as Hfit
      by apply fits_over, getitem_fits.
    assert (transform is_numeric_dtype df
            = setitem df "amount" (fillna (VInt 0) (getitem df "amount"))) as ->
      by (unfold transform; rewrite Hin, Hnum; reflexivity).
    unfold transform. rewrite setitem_columns, Hin.
    rewrite getitem_setitem_eq by exact Hfit.
    rewrite (Hstable _ Hnum), fillna_fillna by reflexivity.
    apply setitem_setitem; exact Hfit.
  - assert (transform is_numeric_dtype df = df) as Hsame
      by (unfold transform; rewrite Hin, Hnum; reflexivity).
    rewrite !Hsame. reflexivity.
  - assert (transform is_numeric_dtype df = df) as Hsame
      by (unfold transform; rewrite Hin; reflexivity).
    rewrite !Hsame. reflexivity.
Qed.

Lemma cells_numeric_fillna (arg : selection) :
  samples.cells_numeric arg = true ->
  samples.cells_numeric (fillna (VInt 0) arg) = true.
Proof.
  destruct arg as [s|cs]; [|discriminate].
  unfold samples.cells_numeric, fillna. simpl.
  induction s as [|v s IH]; simpl; [reflexivity|].
  intros H. apply andb_true_iff in H as [Hv Hs]. rewrite (IH Hs), andb_true_r.
  destruct v; try discriminate; reflexivity.
Qed.

Lemma transform_idempotent_witness :
  transform samples.cells_numeric
    (transform samples.cells_numeric
       {| columns := [("amount", [VFloat (inject_Z 10); VNaN])]; index := [0; 1]%Z |})
  = transform samples.cells_numeric
      {| columns := [("amount", [VFloat (inject_Z 10); VNaN])]; index := [0; 1]%Z |}.
Proof.
  apply transform_idempotent. exact cells_numeric_fillna.
Defined.

(** ** Type inference *)

Import infer_types.

Lemma type_map_of_roles_step (col role_name : string) (rest : list (string * string))
    (type_map : list (string * py_type)) :
  type_map_of_roles ((col, role_name) :: rest) type_map
  = if String.eqb col dummy_target_col then type_map_of_roles rest type_map
    else type_map_of_roles rest (dict_set type_map col (type_of_role role_name)).
Proof.
  simpl. unfold type_of_role. destruct (String.eqb col dummy_target_col); [reflexivity|].
  destruct (String.eqb role_name "numeric"); [reflexivity|].
  destruct (String.eqb role_name "category"); [reflexivity|].
  destruct (String.eqb role_name "datetime"); reflexivity.
Qed.

Lemma type_map_of_roles_get (guessed_roles : list (string * string))
    (type_map : list (string * py_type)) (col : string) :
  is_dict guessed_roles ->
  dict_get (type_map_of_roles guessed_roles type_map) col
  = match (if String.eqb col dummy_target_col then None
           else dict_get guessed_roles col) with
    | Some role_name => Some (type_of_role role_name)
    | None => dict_get type_map col
    end.
Proof.
  unfold is_dict. revert type_map.
  induction guessed_roles as [|[c r] rest IH]; intros type_map Hd.
  - simpl. destruct (String.eqb col dummy_target_col); reflexivity.
  - simpl in Hd. apply NoDup_cons in Hd as [Hc Hd].
    rewrite type_map_of_roles_step. cbn [dict_get].
    destruct (String.eqb_spec c dummy_target_col) as [->|Hdummy].
    + rewrite IH by exact Hd.
      destruct (String.eqb_spec dummy_target_col col) as [<-|Hne].
      * rewrite String.eqb_refl. reflexivity.
      * reflexivity.
    + rewrite IH by exact Hd. rewrite dict_get_set.
      destruct (String.eqb_spec c col) as [->|Hne].
      * destruct (String.eqb_spec col dummy_target_col); [contradiction|].
        rewrite (dict_get_not_in rest col Hc). reflexivity.
      * reflexivity.
Qed.

Lemma dict_set_values {V} (P : V -> Prop) (d : list (string * V)) (k : string) (v : V) :
  P v -> Forall (fun kv => P (snd kv)) d -> Forall (fun kv => P (snd kv)) (dict_set d k v).
Proof.
  intros Hv. induction d as [|[x w] d IH]; simpl; intros Hd.
  - constructor; [exact Hv|constructor].
  - apply Forall_cons in Hd as [Hw Hd]. destruct (String.eqb x k).
    + constructor; assumption.
    + constructor; [exact Hw|apply IH, Hd].
Qed.

Lemma type_map_of_roles_values (guessed_roles : list (string * string))
    (type_map : list (string * py_type)) :
  Forall (fun kv => snd kv = py_float \/ snd kv = py_str) type_map ->
  Forall (fun kv => snd kv = py_float \/ snd kv = py_str)
    (type_map_of_roles guessed_roles type_map).
Proof.
  revert type_map. induction guessed_roles as [|[c r] rest IH]; intros type_map Hacc.
  - exact Hacc.
  - rewrite type_map_of_roles_step. destruct (String.eqb c dummy_target_col); [auto|].
    apply IH. apply (dict_set_values (fun ty => ty = py_float \/ ty = py_str)); [|exact Hacc].
    unfold type_of_role. destruct (String.eqb r "numeric"); auto.
Qed.

(** X24: the inferred type map holds nothing but [float] and [str].  A role
    named [numeric] gives [float], any other role [str]; the dummy target
    never gets an entry, and neither does a column the AutoML has no role
    for. *)
Theorem type_map_of_roles_is_float_or_str (guessed_roles : list (string * string))
    (col : string) :
  is_dict guessed_roles ->
  Forall (fun kv => snd kv = py_float \/ snd kv = py_str)
    (type_map_of_roles guessed_roles [])
  /\ dict_get (type_map_of_roles guessed_roles []) col
     = if String.eqb col dummy_target_col then None
       else match dict_get guessed_roles col with
            | Some role_name =>
                Some (if String.eqb role_name "numeric" then py_float else py_str)
            | None => None
            end.
Proof.
  intros Hd. split.
  - apply type_map_of_roles_values. constructor.
  - rewrite type_map_of_roles_get by exact Hd.
    destruct (String.eqb col dummy_target_col); [reflexivity|].
    destruct (dict_get guessed_roles col); reflexivity.
Qed.

Lemma type_map_of_roles_is_float_or_str_witness :
  dict_get (type_map_of_roles
              [("amount", "numeric"); ("when", "datetime"); ("__dummy_target__", "numeric")]
              []) "when"
  = Some py_str.
Proof.
  apply (type_map_of_roles_is_float_or_str
           [("amount", "numeric"); ("when", "datetime"); ("__dummy_target__", "numeric")]
           "when").
  unfold is_dict. apply (bool_decide_unpack _). vm_compute. reflexivity.
Defined.

Lemma drop_setitem (df : DataFrame) (col : string) (s : list value) :
  drop_column (setitem df col (Series s)) col = drop_column df col.
Proof.
  unfold drop_column, setitem. simpl. f_equal.
  induction (columns df) as [|[k v] cols IH]; simpl; [reflexivity|].
  destruct (String.eqb k col) eqn:E; simpl; rewrite E; simpl; rewrite IH; reflexivity.
Qed.

Lemma drop_absent (cols : list (string * list value)) (col : string) :
  name_in col (map fst cols) = false ->
  List.filter (fun c => negb (String.eqb (fst c) col)) cols = cols.
Proof.
  unfold name_in. induction cols as [|[k v] cols IH]; simpl; [reflexivity|].
  intros H. apply orb_false_iff in H as [Hk Hrest].
  rewrite String.eqb_sym in Hk. rewrite Hk. simpl. rewrite IH by exact Hrest. reflexivity.
Qed.

(** X25: whether the AutoML run returns or raises, the frame the caller
    passed in is left without a column named [__dummy_target__] and otherwise
    as it was: unchanged if it had no such column, and with that column gone
    if it had one. *)
Theorem infer_types_lama_restores_frame (automl : AutoML) (df : DataFrame) :
  snd (infer_types_lama automl df) = drop_column df dummy_target_col
  /\ (name_in dummy_target_col (df_columns df) = false ->
      snd (infer_types_lama automl df) = df).
Proof.
  assert (snd (infer_types_lama automl df) = drop_column df dummy_target_col) as Hdrop.
  { unfold infer_types_lama, assign_scalar. cbn [snd].
    destruct (name_in dummy_target_col (df_columns df)) eqn:Hin.
    - rewrite setitem_columns, Hin. apply drop_setitem.
    - unfold df_columns at 1. cbn [columns]. rewrite map_app. unfold name_in.
      rewrite existsb_app. cbn. rewrite orb_true_r.
      unfold drop_column. cbn [columns index]. f_equal.
      rewrite List.filter_app. cbn. rewrite app_nil_r. reflexivity. }
  split; [exact Hdrop|].
  intros Hin. rewrite Hdrop. unfold drop_column.
  rewrite (drop_absent _ _ Hin). destruct df; reflexivity.
Qed.

(** ** The steps together *)

Import etl_pipeline.

Lemma column_class_of_inferred (guessed_roles : list (string * string)) (col : string) :
  column_class (type_map_of_roles guessed_roles []) col = sql_types.Float
  \/ column_class (type_map_of_roles guessed_roles []) col = sql_types.String.
Proof.
  unfold column_class.
  destruct (dict_get (type_map_of_roles guessed_roles []) col) as [ty|] eqn:Hget;
    [|right; reflexivity].
  apply dict_get_elem_of in Hget.
  pose proof (type_map_of_roles_values guessed_roles [] (Forall_nil_2 _)) as Hvalues.
  rewrite Forall_forall in Hvalues. specialize (Hvalues _ Hget). simpl in Hvalues.
  destruct Hvalues as [-> | ->]; [left|right]; reflexivity.
Qed.

(** X26: whatever roles the AutoML guesses, the schema the loader derives
    from the inferred type map holds only [Float] and [String] columns: the
    pipeline never declares an integer, boolean or timestamp column. *)
Theorem inferred_schema_is_float_or_string (guessed_roles : list (string * string))
    (df_columns : list string) :
  Forall (fun kv => snd kv = sql_types.Float \/ snd kv = sql_types.String)
    (get_sqlalchemy_schema_map (type_map_of_roles guessed_roles []) df_columns).
Proof.
  apply Forall_forall. intros [col class] Hin. simpl.
  assert (is_dict (get_sqlalchemy_schema_map (type_map_of_roles guessed_roles [])
                     df_columns)) as Hd.
  { apply get_sqlalchemy_schema_map_from_is_dict. unfold is_dict. simpl. apply NoDup_nil_2. }
  apply (is_dict_elem_of_get _ _ _ Hd) in Hin.
  unfold get_sqlalchemy_schema_map in Hin.
  rewrite get_sqlalchemy_schema_map_from_get in Hin.
  destruct (name_in col df_columns); [|discriminate].
  injection Hin as <-. apply column_class_of_inferred.
Qed.

(** X27: when the extracted frame is empty, or the type inference raises,
    the pipeline stops before the loader: nothing at all is called on an
    engine and the store is as it was. *)
Theorem run_pipeline_stops_early (automl : AutoML) (pd : Pandas) (pyd : Pydantic)
    (is_numeric_dtype : selection -> bool) (engine : Engine) (now : datetime)
    (df : DataFrame) (s : db_state) :
  df_empty df = true \/ (exists e, fst (infer_types_lama automl df) = inl e) ->
  snd (run_pipeline automl pd pyd is_numeric_dtype engine now df s) = s.
Proof.
  intros Hstop. unfold run_pipeline.
  destruct (df_empty df); [reflexivity|].
  destruct Hstop as [Hempty|[e He]]; [discriminate|].
  rewrite He. reflexivity.
Qed.

Lemma run_pipeline_stops_early_witness :
  snd (run_pipeline samples.automl samples.pandas samples.pydantic samples.cells_numeric
         samples.postgres samples.half_past_one
         {| columns := [("amount", [])]; index := [] |}
         {| tables := ∅; calls := [] |})
  = {| tables := ∅; calls := [] |}.
Proof.
  apply run_pipeline_stops_early. left. reflexivity.
Defined.

Lemma dict_set_not_nil {V} (d : list (string * V)) (k : string) (v : V) :
  dict_set d k v <> [].
Proof. destruct d as [|[x w] d]; simpl; [|destruct (String.eqb x k)]; discriminate. Qed.

Lemma fields_of_columns_keeps (cols : list string) (acc : list (string * field_def)) :
  acc <> [] -> fields_of_columns cols acc <> [].
Proof.
  revert acc. induction cols as [|c cols IH]; intros acc Hacc; simpl; [exact Hacc|].
  destruct (negb _); apply IH; [apply dict_set_not_nil|exact Hacc].
Qed.

(** A frame with a column has a field to validate. *)
Lemma model_fields_not_nil (type_map : list (string * py_type)) (df : DataFrame) :
  columns df <> [] -> is_nil (model_fields type_map df) = false.
Proof.
  intros Hcols.
  assert (model_fields type_map df <> []) as Hne.
  { unfold model_fields, df_columns. destruct (columns df) as [|[k v] cols]; [contradiction|].
    cbn [map fst fields_of_columns]. unfold dict_mem.
    destruct (dict_get _ k) eqn:Hk; cbn [negb].
    - apply fields_of_columns_keeps. intros Hnil. rewrite Hnil in Hk. discriminate.
    - apply fields_of_columns_keeps, dict_set_not_nil. }
  destruct (model_fields type_map df); [contradiction|reflexivity].
Qed.

(** X28: bad cells never stop the load or cost a row.  For a non-empty
    extracted frame whose types were inferred, a store without [clean_data]
    and a driver that does not raise: once pydantic has built the validation
    model, the pipeline ends normally and has created [clean_data] with one
    row for every row extracted and the columns of the extracted frame, in
    order, whatever the caster and the validator found.  When pydantic
    refuses the model, the pipeline raises what [create_model] raised and
    nothing has been called on the engine. *)
Theorem run_pipeline_loads_every_row (automl : AutoML) (pd : Pandas) (pyd : Pydantic)
    (is_numeric_dtype : selection -> bool) (engine : Engine) (now : datetime)
    (df : DataFrame) (type_map : list (string * py_type)) (s : db_state) :
  df_empty df = false ->
  fst (infer_types_lama automl df) = inr type_map ->
  tables s !! "clean_data" = None ->
  (forall c, raises engine c = None) ->
  match create_model pyd (model_fields type_map df) with
  | None =>
      fst (run_pipeline automl pd pyd is_numeric_dtype engine now df s) = inr tt
      /\ exists t,
           tables (snd (run_pipeline automl pd pyd is_numeric_dtype engine now df s))
             !! "clean_data" = Some t
           /\ length (tbl_rows t) = df_len df
           /\ dict_keys (tbl_columns t) = df_columns df
  | Some e =>
      run_pipeline automl pd pyd is_numeric_dtype engine now df s = (inl e, s)
  end.
Proof.
  intros Hdf Hinfer Hnone Hdriver. unfold run_pipeline. rewrite Hdf, Hinfer.
  rewrite auto_cast_and_validate_outcome.
  assert (columns df <> []) as Hcolumns.
  { unfold df_empty in Hdf. apply orb_false_iff in Hdf as [_ Hc].
    destruct (columns df); [discriminate|discriminate]. }
  rewrite (model_fields_not_nil type_map df Hcolumns).
  destruct (create_model pyd (model_fields type_map df)) as [e|]; [reflexivity|].
  set (validated := fst (cast_loop pd df type_map df [])).
  set (loaded := transform is_numeric_dtype validated).
  assert (index loaded = index df) as Hidx.
  { unfold loaded, validated. rewrite transform_index. apply cast_loop_index. }
  assert (df_columns loaded = df_columns df) as Hcols.
  { unfold loaded, validated. rewrite transform_columns. apply cast_loop_columns. }
  assert (df_empty loaded = false) as Hloaded.
  { unfold df_empty, df_len in *. rewrite Hidx.
    assert (length (columns loaded) = length (columns df)) as ->
      by (unfold df_columns in Hcols; rewrite <- (length_map fst), Hcols, length_map;
          reflexivity).
    exact Hdf. }
  unfold bind. rewrite load_to_postgres_plan.
  unfold load_plan, write_target, written_table.
  rewrite Hloaded, !Hdriver, Hnone.
  repeat first [rewrite Hdriver | rewrite Hnone | progress cbn].
  split; [reflexivity|]. eexists. split; [apply lookup_insert_eq|].
  cbn. split.
  - unfold df_rows, df_len. rewrite length_map, length_seq, Hidx. reflexivity.
  - unfold dict_keys. rewrite map_map. cbn. rewrite map_id. exact Hcols.
Qed.

(** A column named after a member of [BaseModel]: the model is refused, the
    pipeline raises, and nothing reaches the engine. *)
Lemma run_pipeline_model_refused :
  exists m,
    run_pipeline samples.automl samples.pandas samples.pydantic samples.cells_numeric
      samples.postgres samples.half_past_one
      {| columns := [("model_dump", [VStr "a"])]; index := [0%Z] |}
      {| tables := ∅; calls := [] |}
    = (inl (Exception "NameError" m), {| tables := ∅; calls := [] |}).
Proof. eexists. vm_compute. reflexivity. Qed.

Lemma run_pipeline_loads_every_row_witness :
  fst (run_pipeline samples.automl samples.pandas samples.pydantic samples.cells_numeric
         samples.postgres samples.half_past_one samples.five_rows
         {| tables := ∅; calls := [] |})
  = inr tt.
Proof.
  pose proof (run_pipeline_loads_every_row samples.automl samples.pandas samples.pydantic
                samples.cells_numeric samples.postgres samples.half_past_one
                samples.five_rows
                [("amount", py_float); ("name", py_str)] {| tables := ∅; calls := [] |}
                eq_refl eq_refl (lookup_empty _) (fun c => eq_refl)) as Hrun.
  destruct Hrun as [Hrun _]. exact Hrun.
Defined.
